(** * rag_etl: retrieval, ranking, persistence and transform rules

    A shallow embedding of [vectorstore.py], [transform_rules.py],
    [query_service.py] and the chunking of [multisource_etl.py].  Python
    [float] is IEEE binary64 and is modelled by Rocq's primitive floats; a
    [numpy.float32] is a binary64 number that binary32 has, and numpy
    compares it with a Python float in binary32.  [str] is modelled by
    [string]; the character classes of [re] and of [str.strip] are those
    of ASCII text.  The objects the code mutates or shares (chunk
    objects, the store, the files on disk, the calls made to the
    answer-generation service) live in an explicit program state that
    every method threads.  The embedding model, numpy/faiss numerics, the
    nearest-neighbour index, the builtin [sorted], the text splitter and
    the chat model are external capabilities: they enter as type-class
    parameters, with the laws their documentation states. *)

From Stdlib Require Import ZArith List Bool Ascii String Floats Sorting.Sorted
  Sorting.Permutation Lia DecimalString DecimalNat.
From stdpp Require Import gmap strings list fin_maps.

Import ListNotations.
#[local] Open Scope string_scope.
#[local] Open Scope list_scope.
#[local] Set Warnings "-inexact-float".

(** ** Python floats *)

Module PyFloat.

(** [a >= b]: false as soon as one side is NaN. *)
Definition ge (a b : float) : bool := (b <=? a)%float.

(** [a < b], the only comparison [sorted] performs on its keys. *)
Definition lt (a b : float) : bool := (a <? b)%float.

(** [a == b] on floats ([0.0 == -0.0], and NaN equals nothing). *)
Definition eq (a b : float) : bool := (a =? b)%float.

Definition is_number (a : float) : bool := negb (is_nan a).

(** [numpy.float32(x)]: the binary32 number nearest to [x], ties to even,
    an infinity when [x] is beyond the binary32 range. *)
Definition to_float32 (x : float) : float :=
  match Prim2SF x with
  | S754_finite s m e => SF2Prim (SpecFloat.binary_round 24 128 s m e)
  | _ => x
  end.

(** [score >= threshold] where [score] is a [numpy.float32] and
    [threshold] a Python float: numpy (from version 2 on) converts the
    Python float to float32 and compares there. *)
Definition ge_float32 (score threshold : float) : bool :=
  ge score (to_float32 threshold).

End PyFloat.

(** ** Python sequences *)

(** [l[i]] with Python's negative indices; [None] stands for IndexError. *)
Definition py_index {A} (l : list A) (i : Z) : option A :=
  if (0 <=? i)%Z then l !! Z.to_nat i
  else if (- Z.of_nat (length l) <=? i)%Z
       then l !! Z.to_nat (Z.of_nat (length l) + i)
       else None.

(** [l[:k]]: a negative [k] counts from the end. *)
Definition py_slice_to {A} (l : list A) (k : Z) : list A :=
  if (0 <=? k)%Z then take (Z.to_nat k) l
  else take (Z.to_nat (Z.of_nat (length l) + k)) l.

(** The stable descending sort by insertion: [x] stands before every
    element of [l] in the input, so it moves right only past strictly
    larger keys.  On keys that [<] orders totally (no NaN) this is the
    result of every stable sort, and so of
    [sorted(l, key=key, reverse=True)]. *)
Fixpoint insert_desc {A} (key : A -> float) (x : A) (l : list A) : list A :=
  match l with
  | [] => [x]
  | y :: ys =>
      if PyFloat.lt (key x) (key y) then y :: insert_desc key x ys
      else x :: y :: ys
  end.

Definition sorted_desc {A} (key : A -> float) (l : list A) : list A :=
  foldr (insert_desc key) [] l.

(** [a] may stand before [b] in a descending ranking by [key] *)
Definition ranks_before {A} (key : A -> float) (a b : A) : Prop :=
  PyFloat.ge (key a) (key b) = true.

(** the elements whose key ties with [v] *)
Definition ties {A} (key : A -> float) (v : float) (a : A) : bool :=
  PyFloat.eq (key a) v.

Definition rev_string (s : string) : string :=
  string_of_list_ascii (rev (list_ascii_of_string s)).

(** [os.path.dirname(p)] (POSIX): [p] up to its last slash, without the
    slashes at the end of that unless it consists of slashes. *)
Fixpoint after_name (reversed : string) : string :=
  match reversed with
  | String c rest => if Ascii.eqb c "/" then reversed else after_name rest
  | EmptyString => EmptyString
  end.

Fixpoint lstrip_slashes (s : string) : string :=
  match s with
  | String c rest => if Ascii.eqb c "/" then lstrip_slashes rest else s
  | EmptyString => EmptyString
  end.

Definition os_path_dirname (p : string) : string :=
  let head := after_name (rev_string p) in
  match lstrip_slashes head with
  | EmptyString => rev_string head
  | stripped => rev_string stripped
  end.

(** [sorted(l, key=key, reverse=True)], a builtin.  It always returns a
    rearrangement of [l], and it is stable: on keys that are numbers it
    returns the stable descending sort.  With a NaN among the keys the
    comparisons contradict each other and the result depends on the
    algorithm; no more than the rearrangement is known of it then. *)
Class PySorted := {
  sorted_reverse : forall {A : Type}, (A -> float) -> list A -> list A;
  sorted_reverse_perm : forall (A : Type) (key : A -> float) (l : list A),
    Permutation l (sorted_reverse key l);
  sorted_reverse_numbers : forall (A : Type) (key : A -> float) (l : list A),
    Forall (fun x => PyFloat.is_number (key x) = true) l ->
    sorted_reverse key l = sorted_desc key l;
}.

(** ** Data model ([transform_rules.py], [vectorstore.py]) *)

Record DocumentMetadata := {
  source_system : string;
  classification : string;
  weight : float;
  file_path : string;
  pii_masked : bool;
}.

Record DocumentChunk := {
  content : string;
  metadata : DocumentMetadata;
  embedding : option (list float);
}.

(** [not chunk.embedding]: [None] and the empty list are both falsy. *)
Definition embedding_absent (c : DocumentChunk) : bool :=
  match embedding c with
  | None | Some [] => true
  | Some (_ :: _) => false
  end.

Definition set_embedding (e : list float) (c : DocumentChunk) : DocumentChunk :=
  {| content := content c; metadata := metadata c; embedding := Some e |}.

(** ** Regular expressions ([re]) *)

Module Re.

(** The fragment of [re] syntax the four PII patterns use.  Every
    quantifier of those patterns stands on a character class. *)
Inductive regex :=
| Eps
| Class (p : ascii -> bool)
| Repeat (p : ascii -> bool) (lo : nat) (hi : option nat)
| Boundary
| Seq (r1 r2 : regex)
| Alt (r1 r2 : regex).

Definition in_range (lo hi c : ascii) : bool :=
  (nat_of_ascii lo <=? nat_of_ascii c)%nat && (nat_of_ascii c <=? nat_of_ascii hi)%nat.

Definition is_char (a c : ascii) : bool := Ascii.eqb a c.
Definition upper (c : ascii) : bool := in_range "A" "Z" c.
Definition lower (c : ascii) : bool := in_range "a" "z" c.
Definition alpha (c : ascii) : bool := upper c || lower c.
(** [\d] on ASCII text *)
Definition digit (c : ascii) : bool := in_range "0" "9" c.
(** [\w] on ASCII text *)
Definition word (c : ascii) : bool := alpha c || digit c || is_char "_" c.
(** [\s] on ASCII text: tab, newline, VT, FF, CR, FS, GS, RS, US, space *)
Definition space (c : ascii) : bool :=
  let n := nat_of_ascii c in
  ((9 <=? n)%nat && (n <=? 13)%nat) || ((28 <=? n)%nat && (n <=? 32)%nat).

Definition to_lower (c : ascii) : ascii :=
  if upper c then ascii_of_nat (nat_of_ascii c + 32) else c.

(** a literal character under [re.IGNORECASE] *)
Definition is_char_ci (a c : ascii) : bool := Ascii.eqb (to_lower a) (to_lower c).

Fixpoint lit_ci (s : string) : regex :=
  match s with
  | EmptyString => Eps
  | String a s' => Seq (Class (is_char_ci a)) (lit_ci s')
  end.

Definition is_word_opt (c : option ascii) : bool :=
  match c with Some c => word c | None => false end.

Definition peek (s : string) : option ascii :=
  match s with String c _ => Some c | EmptyString => None end.

(** [\b]: exactly one of the two neighbours is a word character *)
Definition at_boundary (prev : option ascii) (s : string) : bool :=
  xorb (is_word_opt prev) (is_word_opt (peek s)).

Definition hi_open (hi : option nat) : bool :=
  match hi with Some O => false | _ => true end.

Definition hi_pred (hi : option nat) : option nat :=
  match hi with Some n => Some (pred n) | None => None end.

(** What is left to match is a continuation: it receives the character
    before the current position, the rest of the text and the number of
    characters consumed so far, and answers with the length of the
    whole match.  [None] makes the caller backtrack. *)
Definition cont := option ascii -> string -> nat -> option nat.

(** Greedy repetition of a class: one more character first, and only
    when the rest fails with it, stop here (if [lo] is reached). *)
Fixpoint rep (p : ascii -> bool) (lo : nat) (hi : option nat) (k : cont)
    (prev : option ascii) (s : string) (n : nat) : option nat :=
  let stop := match lo with O => k prev s n | S _ => None end in
  match s with
  | String c s' =>
      if hi_open hi && p c then
        match rep p (pred lo) (hi_pred hi) k (Some c) s' (S n) with
        | Some m => Some m
        | None => stop
        end
      else stop
  | EmptyString => stop
  end.

Fixpoint run (r : regex) (k : cont) (prev : option ascii) (s : string)
    (n : nat) : option nat :=
  match r with
  | Eps => k prev s n
  | Class p =>
      match s with
      | String c s' => if p c then k (Some c) s' (S n) else None
      | EmptyString => None
      end
  | Repeat p lo hi => rep p lo hi k prev s n
  | Boundary => if at_boundary prev s then k prev s n else None
  | Seq r1 r2 => run r1 (run r2 k) prev s n
  | Alt r1 r2 =>
      match run r1 k prev s n with
      | Some m => Some m
      | None => run r2 k prev s n
      end
  end.

(** Length of the match of [r] that starts at the current position. *)
Definition match_len (r : regex) (prev : option ascii) (s : string) : option nat :=
  run r (fun _ _ n => Some n) prev s 0.

(** [pattern.sub(repl, s)]: left to right, every non-overlapping match
    is replaced.  [skip] counts the characters of the current match that
    are still to be dropped.  An empty match inserts [repl] and copies
    the character. *)
Fixpoint sub_from (r : regex) (repl : string) (prev : option ascii)
    (s : string) (skip : nat) : string :=
  match s with
  | EmptyString =>
      match skip, match_len r prev EmptyString with
      | O, Some _ => repl
      | _, _ => EmptyString
      end
  | String c s' =>
      match skip with
      | S skip' => sub_from r repl (Some c) s' skip'
      | O =>
          match match_len r prev s with
          | Some (S n) => repl ++ sub_from r repl (Some c) s' n
          | Some O => repl ++ String c (sub_from r repl (Some c) s' 0)
          | None => String c (sub_from r repl (Some c) s' 0)
          end
      end
  end.

Definition sub (r : regex) (repl : string) (s : string) : string :=
  sub_from r repl None s 0.

(** [s[n:]], and the character that stands before position [n] of [s]
    when [prev] stands before [s] *)
Fixpoint string_drop (n : nat) (s : string) : string :=
  match n, s with
  | S n', String _ s' => string_drop n' s'
  | _, _ => s
  end.

Fixpoint char_before (prev : option ascii) (n : nat) (s : string) : option ascii :=
  match n, s with
  | S n', String c s' => char_before (Some c) n' s'
  | _, _ => prev
  end.

(** a continuation that never answers more than [total], the characters
    consumed plus the characters left *)
Definition bounded (k : cont) (total : nat) : Prop :=
  forall prev s n m,
    n + String.length s = total -> k prev s n = Some m -> m <= total.

(** a continuation whose answer exceeds the characters consumed so far by
    [more] at least *)
Definition raises (k : cont) (more : nat) : Prop :=
  forall prev s n m, k prev s n = Some m -> n + more <= m.

(** the least number of characters a match of [r] can have *)
Fixpoint min_len (r : regex) : nat :=
  match r with
  | Eps | Boundary => 0
  | Class _ => 1
  | Repeat _ lo _ => lo
  | Seq r1 r2 => min_len r1 + min_len r2
  | Alt r1 r2 => Nat.min (min_len r1) (min_len r2)
  end.

Definition plus (p : ascii -> bool) : regex := Repeat p 1 None.
Definition exactly (n : nat) (p : ascii -> bool) : regex := Repeat p n (Some n).
Definition at_least (n : nat) (p : ascii -> bool) : regex := Repeat p n None.
Definition opt (p : ascii -> bool) : regex := Repeat p 0 (Some 1).

Fixpoint seq (rs : list regex) : regex :=
  match rs with
  | [] => Eps
  | r :: rs' => Seq r (seq rs')
  end.

Fixpoint alt (rs : list regex) : regex :=
  match rs with
  | [] => Class (fun _ => false)
  | [r] => r
  | r :: rs' => Alt r (alt rs')
  end.

End Re.

(** ** Transform rules ([transform_rules.py]) *)

(** One entry of the per-source configuration: the keys [apply_transform]
    reads, each of them optional. *)
Record SourceConfig := {
  cfg_classification : option string;
  cfg_weight : option float;
  cfg_pii_mask : option bool;
}.

(** [{}] *)
Definition empty_config : SourceConfig :=
  {| cfg_classification := None; cfg_weight := None; cfg_pii_mask := None |}.

Module TransformRules.
Import Re.

Definition any_of (cs : string) (c : ascii) : bool :=
  existsb (fun a => is_char a c) (list_ascii_of_string cs).

(** [\b[A-Za-z0-9._%+-]+@[A-Za-z0-9.-]+\.[A-Z|a-z]{2,}\b] *)
Definition email_pattern : regex :=
  seq [ Boundary;
        plus (fun c => alpha c || digit c || any_of "._%+-" c);
        Class (is_char "@");
        plus (fun c => alpha c || digit c || any_of ".-" c);
        Class (is_char ".");
        at_least 2 (fun c => alpha c || is_char "|" c);
        Boundary ].

(** [\b\d{3}[-.]?\d{3}[-.]?\d{4}\b] *)
Definition phone_pattern : regex :=
  seq [ Boundary; exactly 3 digit; opt (any_of "-."); exactly 3 digit;
        opt (any_of "-."); exactly 4 digit; Boundary ].

(** [\b\d{3}-?\d{2}-?\d{4}\b] *)
Definition ssn_pattern : regex :=
  seq [ Boundary; exactly 3 digit; opt (is_char "-"); exactly 2 digit;
        opt (is_char "-"); exactly 4 digit; Boundary ].

(** [\b\d+\s+[A-Za-z\s]+(?:Street|St|Avenue|Ave|Road|Rd|Drive|Dr|Lane|Ln)\b]
    with [re.IGNORECASE] *)
Definition address_pattern : regex :=
  seq [ Boundary; plus digit; plus space;
        plus (fun c => alpha c || space c);
        alt (map lit_ci
               ["Street"; "St"; "Avenue"; "Ave"; "Road"; "Rd"; "Drive";
                "Dr"; "Lane"; "Ln"]);
        Boundary ].

(** [self.pii_patterns]: a dict, iterated in insertion order. *)
Definition pii_patterns : list (string * regex) :=
  [ ("email", email_pattern); ("phone", phone_pattern);
    ("ssn", ssn_pattern); ("address", address_pattern) ].

(** The body of the loop of [_mask_pii]. *)
Definition mask_step (masked_content : string) (item : string * regex) : string :=
  let (pii_type, pattern) := item in
  if String.eqb pii_type "email" then sub pattern "[EMAIL_MASKED]" masked_content
  else if String.eqb pii_type "phone" then sub pattern "[PHONE_MASKED]" masked_content
  else if String.eqb pii_type "ssn" then sub pattern "[SSN_MASKED]" masked_content
  else if String.eqb pii_type "address" then sub pattern "[ADDRESS_MASKED]" masked_content
  else masked_content.

Definition _mask_pii (content : string) : string :=
  fold_left mask_step pii_patterns content.

Definition apply_transform (source_config : gmap string SourceConfig)
    (content source_system file_path : string) : string * DocumentMetadata :=
  let source_config := default empty_config (source_config !! source_system) in
  let transformed_content :=
    if default false (cfg_pii_mask source_config) then _mask_pii content
    else content in
  let metadata :=
    {| source_system := source_system;
       classification := default "PUBLIC" (cfg_classification source_config);
       weight := default 1.0%float (cfg_weight source_config);
       file_path := file_path;
       pii_masked := default false (cfg_pii_mask source_config) |} in
  (transformed_content, metadata).

Definition get_classification_weight (source_config : gmap string SourceConfig)
    (source_system : string) : float :=
  default 1.0%float (cfg_weight (default empty_config (source_config !! source_system))).

End TransformRules.

(** ** External capabilities *)

(** [SentenceTransformer.encode]: text to a vector, deterministic for a
    fixed model.  [encode([query])] is the one-row matrix of [encode query]. *)
Class EmbeddingModel := { encode : string -> list float }.

(** [ndarray.astype('float32')] on one entry and [faiss.normalize_L2] on
    one row of a matrix. *)
Class Numerics := {
  astype_float32 : float -> float;
  normalize_L2 : list float -> list float;
}.

(** The nearest-neighbour index ([faiss.IndexFlatIP]): [index_add] answers
    [None] when the library rejects the batch; [index_search] hands back
    [scores[0]] and [indices[0]], or [None] when the library rejects the
    call (its wrapper asserts that [k] is positive and that the query has
    the dimension of the index).  [ntotal] counts the vectors added. *)
Class NNIndex (I : Type) := {
  IndexFlatIP : nat -> I;
  ntotal : I -> nat;
  index_add : I -> list (list float) -> option I;
  index_search : I -> list float -> Z -> option (list float * list Z);
  ntotal_IndexFlatIP : forall d, ntotal (IndexFlatIP d) = 0;
  ntotal_index_add : forall i m i',
    index_add i m = Some i' -> ntotal i' = ntotal i + length m;
}.

Record ChatRequest := {
  chat_model : string;
  chat_system : string;
  chat_user : string;
  chat_temperature : float;
  chat_max_tokens : Z;
}.

(** [client.chat.completions.create]: the text of the first choice, or the
    message of the exception it raises. *)
Class ChatModel := { chat_completions_create : ChatRequest -> string + string }.

(** ** Program state *)

Inductive exn :=
| AttributeError | IndexError | ValueError | AssertionError | OSError
| FileNotFoundError | RuntimeError | UnpicklingError | EOFError | SystemError.

Inductive result (A : Type) :=
| Ok (a : A)
| Raise (e : exn).
Arguments Ok {A} a.
Arguments Raise {A} e.

(** Where a file was cut short: before an opcode of the pickle stream
    (the empty file is cut there) or inside an operand. *)
Inductive cut := AtOpcode | InOperand.

(** A file is modelled by what was written into it, not by its bytes:
    [faiss.read_index] and [pickle.load] are taken to read back exactly
    what [faiss.write_index] and [pickle.dump] wrote, and to reject a file
    whose writing was cut short.  The files of the model are those this
    program writes: index images under [.index], pickles under [.docs]. *)
Inductive artifact (I : Type) :=
| IndexImage (i : I)
| DocsImage (docs : list DocumentChunk)
| Truncated (c : cut).
Arguments IndexImage {I} i.
Arguments DocsImage {I} docs.
Arguments Truncated {I} c.

(** How the operating system treats one write: it completes, the file
    cannot be opened (and stays as it was), or the file is opened (and so
    emptied) and only a part of the data reaches it. *)
Inductive write_fault := NoFault | FailOpen | FailWrite (c : cut).

(** How the operating system treats [os.makedirs] on a path that is not
    empty: the directories exist afterwards, or the call fails (no
    permission, a file in the way). *)
Inductive dir_fault := DirsOk | DirsFail.

(** A chunk object is known by its address in [heap]. *)
Abbreviation loc := nat (only parsing).

Record VectorStore (I : Type) := {
  index : option I;
  documents : list loc;
  index_path : string;
  dimension : nat;
}.
Arguments index {I} _.
Arguments documents {I} _.
Arguments index_path {I} _.
Arguments dimension {I} _.

Record State (I : Type) := {
  store : VectorStore I;
  heap : list DocumentChunk;
  disk : gmap string (artifact I);
  llm_log : list ChatRequest;
}.
Arguments store {I} _.
Arguments heap {I} _.
Arguments disk {I} _.
Arguments llm_log {I} _.

(** One ranked hit, the dict [similarity_search] builds; [weighted_search]
    adds the key ['weighted_score']. *)
Record SearchResult := {
  r_content : string;
  r_metadata : DocumentMetadata;
  r_score : float;
  r_weighted_score : option float;
}.

(** the dict [get_stats] returns *)
Record Stats := {
  total_documents : nat;
  index_size : nat;
  source_breakdown : gmap string nat;
}.

Record QueryRequest := {
  req_query : string;
  req_top_k : Z;
  req_threshold : float;
}.

Record Citation := {
  cit_content : string;
  cit_source_system : string;
  cit_classification : string;
  cit_file_path : string;
  cit_score : float;
}.

Record QueryResponse := {
  resp_answer : string;
  resp_citations : list Citation;
  resp_query : string;
}.

Record OpenAIConfig := {
  cfg_model : option string;
  cfg_temperature : option float;
  cfg_max_tokens : option Z;
}.

(** ** The state-and-exception monad *)

Section Monad.
Context {I : Type}.

(** A raised exception keeps the state reached so far. *)
Definition M (A : Type) : Type := State I -> result A * State I.

Definition ret {A} (a : A) : M A := fun s => (Ok a, s).

Definition raise {A} (e : exn) : M A := fun s => (Raise e, s).

Definition bind {A B} (m : M A) (k : A -> M B) : M B :=
  fun s =>
    match m s with
    | (Ok a, s') => k a s'
    | (Raise e, s') => (Raise e, s')
    end.

Definition get : M (State I) := fun s => (Ok s, s).

Definition from_option {A} (e : exn) (o : option A) : M A :=
  match o with Some a => ret a | None => raise e end.

End Monad.

Arguments M : clear implicits.

Notation "'let*' x ':=' m 'in' k" := (bind m (fun x => k))
  (at level 10, x name, m at level 100, k at level 200).
Notation "m ';;' k" := (bind m (fun _ => k))
  (at level 100, k at level 200, right associativity).

Definition with_store {I} (f : VectorStore I -> VectorStore I) (s : State I) : State I :=
  {| store := f (store s); heap := heap s; disk := disk s; llm_log := llm_log s |}.

Definition with_heap {I} (f : list DocumentChunk -> list DocumentChunk) (s : State I) : State I :=
  {| store := store s; heap := f (heap s); disk := disk s; llm_log := llm_log s |}.

Definition with_disk {I} (f : gmap string (artifact I) -> gmap string (artifact I))
    (s : State I) : State I :=
  {| store := store s; heap := heap s; disk := f (disk s); llm_log := llm_log s |}.

Definition with_llm_log {I} (f : list ChatRequest -> list ChatRequest) (s : State I) : State I :=
  {| store := store s; heap := heap s; disk := disk s; llm_log := f (llm_log s) |}.

Definition set_index {I} (i : option I) (v : VectorStore I) : VectorStore I :=
  {| index := i; documents := documents v; index_path := index_path v;
     dimension := dimension v |}.

Definition set_documents {I} (d : list loc) (v : VectorStore I) : VectorStore I :=
  {| index := index v; documents := d; index_path := index_path v;
     dimension := dimension v |}.

(** ** The vector store ([vectorstore.py]) *)

Section VectorStore.
Context {I : Type} `{!NNIndex I} `{!EmbeddingModel} `{!Numerics} `{!PySorted}.

Definition modify (f : State I -> State I) : M I unit :=
  fun s => (Ok tt, f s).

(** [self.index], where a method is about to call it *)
Definition the_index : M I I :=
  let* s := get in from_option AttributeError (index (store s)).

(** reading the object at an address; every address a Python program
    holds is live, so the error case is never taken *)
Definition deref (l : loc) : M I DocumentChunk :=
  let* s := get in from_option SystemError (heap s !! l).

Fixpoint deref_all (ls : list loc) : M I (list DocumentChunk) :=
  match ls with
  | [] => ret []
  | l :: ls' =>
      let* c := deref l in
      let* cs := deref_all ls' in
      ret (c :: cs)
  end.

(** the objects a [pickle.load] creates *)
Definition alloc_all (cs : list DocumentChunk) : M I (list loc) :=
  let* s := get in
  modify (with_heap (fun h => h ++ cs));;
  ret (seq (length (heap s)) (length cs)).

(** [faiss.write_index(index, fname)].  The library raises when it cannot
    open the file, which Python sees as a RuntimeError.  It writes through
    a buffered stream and does not check that closing it succeeded: data
    that does not reach the file is lost without an exception. *)
Definition faiss_write_index (idx : I) (fname : string) (f : write_fault) : M I unit :=
  match f with
  | NoFault => modify (with_disk (insert fname (IndexImage idx)))
  | FailOpen => raise RuntimeError
  | FailWrite c => modify (with_disk (insert fname (Truncated c)))
  end.

(** [with open(fname, 'wb') as f: pickle.dump(obj, f)]: Python raises
    OSError when the file cannot be opened and when a write or the final
    flush fails. *)
Definition pickle_dump (docs : list DocumentChunk) (fname : string) (f : write_fault)
    : M I unit :=
  match f with
  | NoFault => modify (with_disk (insert fname (DocsImage docs)))
  | FailOpen => raise OSError
  | FailWrite c => modify (with_disk (insert fname (Truncated c)));; raise OSError
  end.

(** [faiss.read_index(fname)] on a file that exists *)
Definition faiss_read_index (a : artifact I) : M I I :=
  match a with
  | IndexImage i => ret i
  | DocsImage _ | Truncated _ => raise RuntimeError
  end.

(** [with open(fname, 'rb') as f: pickle.load(f)].  A pickle that was cut
    short raises EOFError when the stream ends where an opcode is due and
    UnpicklingError when it ends inside an operand.  An index image is no
    pickle; what loading one raises depends on its bytes and is no part
    of the model. *)
Definition pickle_load (a : option (artifact I)) : M I (list DocumentChunk) :=
  match a with
  | None => raise FileNotFoundError
  | Some (DocsImage ds) => ret ds
  | Some (Truncated AtOpcode) => raise EOFError
  | Some (Truncated InOperand) => raise UnpicklingError
  | Some (IndexImage _) => raise UnpicklingError
  end.

Definition index_file (v : VectorStore I) : string := index_path v ++ ".index".
Definition docs_file (v : VectorStore I) : string := index_path v ++ ".docs".

Definition _save_index (f_index f_docs : write_fault) : M I unit :=
  let* s := get in
  let* idx := the_index in
  faiss_write_index idx (index_file (store s)) f_index;;
  let* docs := deref_all (documents (store s)) in
  pickle_dump docs (docs_file (store s)) f_docs.

Definition _load_or_create_index : M I unit :=
  let* s := get in
  match disk s !! index_file (store s) with
  | Some a =>
      let* idx := faiss_read_index a in
      modify (with_store (set_index (Some idx)));;
      let* docs := pickle_load (disk s !! docs_file (store s)) in
      let* ls := alloc_all docs in
      modify (with_store (set_documents ls))
  | None =>
      modify (with_store (set_index (Some (IndexFlatIP (dimension (store s))))));;
      modify (with_store (set_documents []))
  end.

(** What [VectorStore.__init__] does beside [os.makedirs]: the
    assignments to the fields and the call of [_load_or_create_index].
    It is the whole of [__init__] when [os.makedirs] returns. *)
Definition VectorStore_init (index_path : string) (dimension : nat) : M I unit :=
  modify (with_store (fun _ =>
    {| index := None; documents := []; index_path := index_path;
       dimension := dimension |}));;
  _load_or_create_index.

(** [os.makedirs(name, exist_ok=True)].  The empty path cannot be made:
    FileNotFoundError, whatever the file system holds.  Directories are
    no part of [disk]; whether another path can be made is up to the
    operating system. *)
Definition os_makedirs (name : string) (f : dir_fault) : M I unit :=
  if String.eqb name "" then raise FileNotFoundError
  else match f with
       | DirsOk => ret tt
       | DirsFail => raise OSError
       end.

(** [VectorStore.__init__(embedding_model, index_path, dimension)]; the
    embedding model is the capability [EmbeddingModel]. *)
Definition __init__ (index_path : string) (dimension : nat) (f_dirs : dir_fault)
    : M I unit :=
  modify (with_store (fun _ =>
    {| index := None; documents := []; index_path := index_path;
       dimension := dimension |}));;
  os_makedirs (os_path_dirname index_path) f_dirs;;
  _load_or_create_index.

(** The first loop of [add_documents]. *)
Fixpoint embed_chunks (chunks : list loc) (embeddings : list (list float))
    : M I (list (list float)) :=
  match chunks with
  | [] => ret embeddings
  | chunk :: rest =>
      let* c := deref chunk in
      let* e :=
        (if embedding_absent c then
           let embedding := encode (content c) in
           modify (with_heap (<[chunk := set_embedding embedding c]>));;
           ret embedding
         else ret (default [] (embedding c))) in
      embed_chunks rest (embeddings ++ [e])
  end.

(** [np.vstack] of one-dimensional arrays: the rows must agree in length. *)
Definition np_vstack (rows : list (list float)) : option (list (list float)) :=
  match rows with
  | [] => None
  | r :: rs =>
      if forallb (fun r' => (length r' =? length r)%nat) rs then Some rows else None
  end.

Definition add_documents (chunks : list loc) (f_index f_docs : write_fault) : M I unit :=
  let* embeddings := embed_chunks chunks [] in
  match embeddings with
  | [] => ret tt
  | _ :: _ =>
      let* embeddings_matrix := from_option ValueError (np_vstack embeddings) in
      let embeddings_matrix := map (map astype_float32) embeddings_matrix in
      let embeddings_matrix := map normalize_L2 embeddings_matrix in
      let* idx := the_index in
      let* idx' := from_option AssertionError (index_add idx embeddings_matrix) in
      modify (with_store (set_index (Some idx')));;
      modify (with_store (fun v => set_documents (documents v ++ chunks) v));;
      _save_index f_index f_docs
  end.

(** The loop of [similarity_search] over [zip(scores[0], indices[0])].
    The index hands back binary32 scores, which [zip] yields as
    [numpy.float32] scalars: the test [score >= threshold] is made in
    float32, on the threshold converted to float32.  [float(score)] is the
    score as a binary64 number. *)
Fixpoint collect_results (documents : list loc) (heap : list DocumentChunk)
    (threshold : float) (candidates : list (float * Z))
    (results : list SearchResult) : result (list SearchResult) :=
  match candidates with
  | [] => Ok results
  | (score, idx) :: rest =>
      if PyFloat.ge_float32 score threshold
         && (idx <? Z.of_nat (length documents))%Z then
        match py_index documents idx with
        | None => Raise IndexError
        | Some l =>
            match heap !! l with
            | None => Raise SystemError
            | Some doc =>
                collect_results documents heap threshold rest
                  (results ++ [{| r_content := content doc;
                                  r_metadata := metadata doc;
                                  r_score := score;
                                  r_weighted_score := None |}])
            end
        end
      else collect_results documents heap threshold rest results
  end.

Definition similarity_search (query : string) (k : Z) (threshold : float)
    : M I (list SearchResult) :=
  let* idx := the_index in
  if (ntotal idx =? 0)%nat then ret []
  else
    let query_embedding := normalize_L2 (map astype_float32 (encode query)) in
    let* found :=
      from_option AssertionError (index_search idx query_embedding k) in
    let '(scores, indices) := found in
    fun s =>
      (collect_results (documents (store s)) (heap s) threshold
         (zip scores indices) [], s).

(** The loop of [weighted_search]. *)
Definition set_weighted_score (result : SearchResult) : SearchResult :=
  let weight := weight (r_metadata result) in
  {| r_content := r_content result;
     r_metadata := r_metadata result;
     r_score := r_score result;
     r_weighted_score := Some (r_score result * weight)%float |}.

(** [x['weighted_score']], on results that all carry the key *)
Definition weighted_key (x : SearchResult) : float :=
  default PrimFloat.nan (r_weighted_score x).

Definition weighted_search (query : string) (k : Z) (threshold : float)
    : M I (list SearchResult) :=
  let* raw_results := similarity_search query (k * 2) threshold in
  let raw_results := map set_weighted_score raw_results in
  let weighted_results := sorted_reverse weighted_key raw_results in
  ret (py_slice_to weighted_results k).

Definition get_stats : M I Stats :=
  let* s := get in
  let* docs := deref_all (documents (store s)) in
  let source_counts :=
    foldl (fun source_counts doc =>
             let source := source_system (metadata doc) in
             <[source := default 0 (source_counts !! source) + 1]> source_counts)
          ∅ docs in
  let* idx := the_index in
  ret {| total_documents := length (documents (store s));
         index_size := ntotal idx;
         source_breakdown := source_counts |}.

End VectorStore.

(** ** Vocabulary of the properties *)

Section Vocabulary.
Context {I : Type} `{!NNIndex I} `{!EmbeddingModel} `{!Numerics} `{!PySorted}.

(** [len(self.documents) == self.index.ntotal] *)
Definition store_invariant (v : VectorStore I) : Prop :=
  exists idx, index v = Some idx /\ length (documents v) = ntotal idx.

(** The two artifacts under [path], when both are whole, describe an
    index and a document list of the same size. *)
Definition artifacts_agree (d : gmap string (artifact I)) (path : string) : Prop :=
  forall idx docs,
    d !! (path ++ ".index")%string = Some (IndexImage idx) ->
    d !! (path ++ ".docs")%string = Some (DocsImage docs) ->
    length docs = ntotal idx.

(** A chunk object once the first loop of [add_documents] has visited it. *)
Definition embedded (c : DocumentChunk) : DocumentChunk :=
  if embedding_absent c then set_embedding (encode (content c)) c else c.

(** The vector the loop appends to [embeddings] for it. *)
Definition row_of (c : DocumentChunk) : list float :=
  default [] (embedding (embedded c)).

(** the batch handed to the index *)
Definition batch (rows : list (list float)) : list (list float) :=
  map normalize_L2 (map (map astype_float32) rows).

(** the store once the index and the document list have grown *)
Definition grown (idx' : I) (chunks : list loc) (s : State I) : State I :=
  with_store (fun v => set_documents (documents v ++ chunks) v)
    (with_store (set_index (Some idx')) s).

(** The documents as a search reads them: position by position, the
    object found at the stored address. *)
Definition view (s : State I) : list (option DocumentChunk) :=
  (fun l => heap s !! l) <$> documents (store s).

(** The test of the loop of [similarity_search] on one candidate. *)
Definition passes (documents : list loc) (threshold : float)
    (candidate : float * Z) : bool :=
  PyFloat.ge_float32 (fst candidate) threshold
  && (snd candidate <? Z.of_nat (length documents))%Z.

(** A search result built for one candidate [(score, idx)] of the index:
    the score of the candidate and the content and metadata of the object
    at position [idx] of the document list. *)
Definition result_of (documents : list loc) (heap : list DocumentChunk)
    (candidate : float * Z) (r : SearchResult) : Prop :=
  r_score r = fst candidate
  /\ r_weighted_score r = None
  /\ exists l doc,
       py_index documents (snd candidate) = Some l
       /\ heap !! l = Some doc
       /\ r_content r = content doc
       /\ r_metadata r = metadata doc.

End Vocabulary.

(** ** Query orchestration ([query_service.py]) *)

Definition nl : string := String (ascii_of_nat 10) "".

(** [str.strip()] on ASCII text *)
Fixpoint lstrip (s : string) : string :=
  match s with
  | String c s' => if Re.space c then lstrip s' else s
  | EmptyString => EmptyString
  end.

Definition strip (s : string) : string :=
  rev_string (lstrip (rev_string (lstrip s))).

Section QueryService.
Context {I : Type} `{!NNIndex I} `{!EmbeddingModel} `{!Numerics} `{!PySorted} `{!ChatModel}.

(** [self.openai_config] *)
Variable openai_config : OpenAIConfig.

Definition _build_context (docs : list SearchResult) : string :=
  let context_parts :=
    map (fun doc =>
           let metadata := r_metadata doc in
           ("[" ++ classification metadata ++ "] From "
                ++ source_system metadata ++ ": " ++ r_content doc)%string) docs in
  String.concat (nl ++ nl) context_parts.

Definition system_prompt : string :=
  "You are a helpful assistant that answers questions based on provided resume and career documents. "
  ++ nl ++ "        Use only the information provided in the context to answer questions. "
  ++ nl ++ "        If you cannot answer based on the context, say so clearly."
  ++ nl ++ "        Be concise and professional.".

Definition user_prompt (query context : string) : string :=
  "Context information:" ++ nl ++ context ++ nl ++ nl
  ++ "Question: " ++ query ++ nl ++ nl
  ++ "Please provide a clear, concise answer based only on the context information provided.".

(** Every call of the answer-generation capability is appended to
    [llm_log]; an exception of the call becomes the answer text. *)
Definition _generate_answer (query context : string) : M I string :=
  let request :=
    {| chat_model := default "gpt-3.5-turbo" (cfg_model openai_config);
       chat_system := system_prompt;
       chat_user := user_prompt query context;
       chat_temperature := default 0.1%float (cfg_temperature openai_config);
       chat_max_tokens := default 500%Z (cfg_max_tokens openai_config) |} in
  modify (with_llm_log (fun log => log ++ [request]));;
  match chat_completions_create request with
  | inl text => ret (strip text)
  | inr e => ret ("Error generating response: " ++ e)%string
  end.

Definition _build_citations (docs : list SearchResult) : list Citation :=
  map (fun doc =>
         let metadata := r_metadata doc in
         {| cit_content :=
              if (200 <? String.length (r_content doc))%nat
              then (substring 0 200 (r_content doc) ++ "...")%string
              else r_content doc;
            cit_source_system := source_system metadata;
            cit_classification := classification metadata;
            cit_file_path := file_path metadata;
            cit_score := default (r_score doc) (r_weighted_score doc) |}) docs.

Definition no_information : string :=
  "I couldn't find relevant information to answer your query.".

Definition process_query (request : QueryRequest) : M I QueryResponse :=
  let* retrieved_docs :=
    weighted_search (req_query request) (req_top_k request) (req_threshold request) in
  match retrieved_docs with
  | [] =>
      ret {| resp_answer := no_information;
             resp_citations := [];
             resp_query := req_query request |}
  | _ :: _ =>
      let context := _build_context retrieved_docs in
      let* answer := _generate_answer (req_query request) context in
      let citations := _build_citations retrieved_docs in
      ret {| resp_answer := answer;
             resp_citations := citations;
             resp_query := req_query request |}
  end.

End QueryService.

(** ** Ingestion ([multisource_etl.py]) *)

(** [RecursiveCharacterTextSplitter.split_text], an external capability *)
Class TextSplitter := { split_text : string -> list string }.

(** [str(i)] for the index [i] that [enumerate] hands out *)
Definition str_of_nat (i : nat) : string :=
  NilEmpty.string_of_uint (Nat.to_uint i).

(** The chunk object the loops of [_create_chunks_from_content] and
    [process_uploaded_file] build for the [i]-th piece of text. *)
Definition chunk_of (metadata : DocumentMetadata) (path : string) (i : nat)
    (chunk : string) : DocumentChunk :=
  let chunk_metadata :=
    {| source_system := source_system metadata;
       classification := classification metadata;
       weight := weight metadata;
       file_path := (path ++ "#chunk_" ++ str_of_nat i)%string;
       pii_masked := pii_masked metadata |} in
  {| content := chunk; metadata := chunk_metadata; embedding := None |}.

Section Ingestion.
Context {I : Type} `{!NNIndex I} `{!EmbeddingModel} `{!Numerics} `{!PySorted} `{!TextSplitter}.

(** [self.transform_rules.source_config] *)
Variable source_config : gmap string SourceConfig.

(** The objects of the returned list are new: they are given addresses
    at the end of the heap.  [path] is the parameter [file_path]. *)
Definition _create_chunks_from_content (content source_system path : string)
    : M I (list loc) :=
  let '(transformed_content, metadata) :=
    TransformRules.apply_transform source_config content source_system path in
  let text_chunks := split_text transformed_content in
  let document_chunks :=
    imap (chunk_of metadata (file_path metadata)) text_chunks in
  alloc_all document_chunks.

(** [try: ... return True / except Exception: ... return False]; what is
    printed is not modelled. *)
Definition process_uploaded_file (content filename source_system : string)
    (f_index f_docs : write_fault) : M I bool :=
  fun s =>
    let body :=
      let '(transformed_content, metadata) :=
        TransformRules.apply_transform source_config content source_system filename in
      let text_chunks := split_text transformed_content in
      let* document_chunks := alloc_all (imap (chunk_of metadata filename) text_chunks) in
      add_documents document_chunks f_index f_docs in
    match body s with
    | (Ok _, s') => (Ok true, s')
    | (Raise _, s') => (Ok false, s')
    end.

End Ingestion.

(** ** Reference capabilities

    Executable stand-ins for the external libraries, used to run the model
    on concrete inputs: a flat inner-product index over lists of binary64
    numbers that pads a short answer the way faiss does (score [-FLT_MAX],
    index [-1]), L2 normalisation that leaves a zero row alone, and an
    encoder and a chat model with fixed answers. *)

Module Reference.

Record FlatIndex := { fi_dim : nat; fi_rows : list (list float) }.

Definition dot (u v : list float) : float :=
  foldr (fun p acc => (fst p * snd p + acc)%float) 0%float (zip u v).

(** the largest finite binary32 number, negated *)
Definition neg_FLT_MAX : float := (-0x1.fffffep+127)%float.

Definition fi_add (i : FlatIndex) (m : list (list float)) : option FlatIndex :=
  if forallb (fun r => (length r =? fi_dim i)%nat) m
  then Some {| fi_dim := fi_dim i; fi_rows := fi_rows i ++ m |}
  else None.

Definition fi_search (i : FlatIndex) (q : list float) (k : Z)
    : option (list float * list Z) :=
  if (0 <? k)%Z && (length q =? fi_dim i)%nat then
    let scored := zip (map (dot q) (fi_rows i))
                      (map Z.of_nat (seq 0 (length (fi_rows i)))) in
    let best := take (Z.to_nat k) (sorted_desc fst scored) in
    let padded := best ++ replicate (Z.to_nat k - length best) (neg_FLT_MAX, (-1)%Z) in
    Some (map fst padded, map snd padded)
  else None.

Definition norm_L2 (v : list float) : list float :=
  let nr := dot v v in
  if (0 <? nr)%float then map (fun x => (x * (1 / sqrt nr))%float) v else v.

Definition of_nat (n : nat) : float :=
  PrimFloat.of_uint63 (Uint63.of_Z (Z.of_nat n)).

Definition empty_index (d : nat) : FlatIndex := {| fi_dim := d; fi_rows := [] |}.

End Reference.

#[export] Instance reference_index : NNIndex Reference.FlatIndex.
Proof.
  refine {| IndexFlatIP := Reference.empty_index;
            ntotal i := length (Reference.fi_rows i);
            index_add := Reference.fi_add;
            index_search := Reference.fi_search |}.
  - reflexivity.
  - intros i m i'. unfold Reference.fi_add.
    destruct (forallb _ m); [|discriminate].
    intros [= <-]. simpl. apply length_app.
Defined.

#[export] Instance reference_sorted : PySorted.
Proof.
  refine {| sorted_reverse A key l := sorted_desc key l |}.
  - intros A key l. induction l as [|x l IH]; simpl; [reflexivity|].
    etransitivity; [apply perm_skip, IH|].
    generalize (sorted_desc key l). clear IH. intros l'.
    induction l' as [|y ys IH]; simpl; [reflexivity|].
    destruct (PyFloat.lt (key x) (key y)); [|reflexivity].
    rewrite perm_swap. now apply perm_skip.
  - reflexivity.
Defined.

#[export] Instance reference_numerics : Numerics := {|
  astype_float32 x := x;
  normalize_L2 := Reference.norm_L2;
|}.

#[export] Instance reference_encoder : EmbeddingModel := {|
  encode s := [Reference.of_nat (String.length s); 1%float];
|}.

#[export] Instance reference_chat : ChatModel := {|
  chat_completions_create r := inl (" answer to: " ++ chat_user r ++ " ")%string;
|}.

(** ** A small store to run the model on *)

Module Demo.

Definition meta (source : string) (w : float) (path : string) : DocumentMetadata :=
  {| source_system := source; classification := "PUBLIC"; weight := w;
     file_path := path; pii_masked := false |}.

(** two chunk objects: the first still without an embedding *)
Definition chunk0 : DocumentChunk :=
  {| content := "ab"; metadata := meta "hr" 1 "cv.txt#chunk_0"; embedding := None |}.
Definition chunk1 : DocumentChunk :=
  {| content := "abcd"; metadata := meta "github" 0.5 "cv.txt#chunk_1";
     embedding := Some [3%float; 4%float] |}.

(** the process before the store is built, with nothing on disk *)
Definition boot : State Reference.FlatIndex :=
  {| store := {| index := None; documents := []; index_path := ""; dimension := 0 |};
     heap := [chunk0; chunk1]; disk := ∅; llm_log := [] |}.

Definition path : string := "data/idx".

(** the store created empty *)
Definition fresh : State Reference.FlatIndex := snd (VectorStore_init path 2 boot).

(** ... after [add_documents([chunk0])] *)
Definition one_doc : State Reference.FlatIndex :=
  snd (add_documents [0] NoFault NoFault fresh).

(** ... after [add_documents([chunk0, chunk1])] instead *)
Definition two_docs : State Reference.FlatIndex :=
  snd (add_documents [0; 1] NoFault NoFault fresh).

Definition openai : OpenAIConfig :=
  {| cfg_model := None; cfg_temperature := None; cfg_max_tokens := None |}.

Definition request : QueryRequest :=
  {| req_query := "ab"; req_top_k := 5; req_threshold := 0.7%float |}.

(** [one_doc], then [add_documents([chunk1])] whose save cannot open the
    index file: two documents in memory, the artifacts of one on disk *)
Definition pending : State Reference.FlatIndex :=
  snd (add_documents [1] FailOpen NoFault one_doc).

(** [one_doc], then [add_documents([chunk1])] whose save stops after the
    index artifact, before the document artifact is opened *)
Definition interrupted : State Reference.FlatIndex :=
  snd (add_documents [1] NoFault FailOpen one_doc).

(** a later process, started on the disk a state left behind *)
Definition reboot (s : State Reference.FlatIndex) : State Reference.FlatIndex :=
  {| store := store boot; heap := []; disk := disk s; llm_log := [] |}.

Definition restarted : State Reference.FlatIndex :=
  snd (VectorStore_init path 2 (reboot interrupted)).

Definition sources : gmap string SourceConfig :=
  {[ "hr" := {| cfg_classification := Some "CONFIDENTIAL";
                cfg_weight := Some 1.5%float; cfg_pii_mask := Some true |} ]}.

End Demo.

(** ** More inputs to run the model on *)

Module Fixtures.

(** pieces of four characters, a stand-in for the text splitter *)
Fixpoint pieces (fuel : nat) (s : string) : list string :=
  match fuel, s with
  | S fuel', String _ _ => substring 0 4 s :: pieces fuel' (Re.string_drop 4 s)
  | _, _ => []
  end.


(** a store of one document whose stored vector points where the vector
    of the empty query points: the score of that query is exactly 1 *)
Definition aligned_chunk : DocumentChunk :=
  {| content := "abcd"; metadata := Demo.meta "hr" 1 "cv.txt#chunk_0";
     embedding := Some [0%float; 2%float] |}.
Definition aligned : State Reference.FlatIndex :=
  snd (add_documents [0] NoFault NoFault
         (snd (VectorStore_init Demo.path 2
                 {| store := store Demo.boot; heap := [aligned_chunk];
                    disk := ∅; llm_log := [] |}))).

(** two documents that score alike, the first with a weight that is no
    number *)
Definition nan_chunk : DocumentChunk :=
  {| content := "ab"; metadata := Demo.meta "hr" PrimFloat.nan "cv.txt#chunk_0";
     embedding := None |}.
Definition plain_chunk : DocumentChunk :=
  {| content := "ab"; metadata := Demo.meta "hr" 1 "cv.txt#chunk_1";
     embedding := None |}.
Definition nan_weight : State Reference.FlatIndex :=
  snd (add_documents [0; 1] NoFault NoFault
         (snd (VectorStore_init Demo.path 2
                 {| store := store Demo.boot; heap := [nan_chunk; plain_chunk];
                    disk := ∅; llm_log := [] |}))).

(** an encoder whose output is the zero vector *)
Definition zero_encoder : EmbeddingModel := {| encode _ := [0%float; 0%float]; |}.
Definition zero_doc : State Reference.FlatIndex :=
  snd (@add_documents _ _ zero_encoder _ [0] NoFault NoFault Demo.fresh).

(** an index of one vector beside an empty document list *)
Definition desynced : State Reference.FlatIndex :=
  {| store := {| index := Some {| Reference.fi_dim := 2;
                                  Reference.fi_rows := [[1%float; 0%float]] |};
                 documents := []; index_path := Demo.path; dimension := 2 |};
     heap := []; disk := ∅; llm_log := [] |}.


End Fixtures.

#[export] Instance reference_splitter : TextSplitter := {|
  split_text s := Fixtures.pieces (String.length s) s;
|}.


(** ** Texts of the model *)

(** Every character of [s] is an ASCII character.  On such a text the
    classes of [Re] are those of Python's [re]: [\d] is [0-9], [\w] is
    [A-Za-z0-9_], and ignoring case pairs ASCII letters only. *)
Definition ascii_text (s : string) : bool :=
  forallb (fun c => (nat_of_ascii c <? 128)%nat) (list_ascii_of_string s).

(** ** Replacing every match *)

(** [replaces_all r token prev s out]: [out] is [s], read from left to
    right, with every match of [r] replaced by [token].  Where [r]
    matches, the match is replaced and reading goes on behind it; where
    it does not, the character is kept.  [prev] is the character that
    stands before [s]. *)
Inductive replaces_all (r : Re.regex) (token : string)
    : option ascii -> string -> string -> Prop :=
| replaces_end prev :
    Re.match_len r prev EmptyString = None ->
    replaces_all r token prev EmptyString EmptyString
| replaces_keep prev c s out :
    Re.match_len r prev (String c s) = None ->
    replaces_all r token (Some c) s out ->
    replaces_all r token prev (String c s) (String c out)
| replaces_match prev s n out :
    Re.match_len r prev s = Some (S n) ->
    replaces_all r token (Re.char_before prev (S n) s) (Re.string_drop (S n) s) out ->
    replaces_all r token prev s (token ++ out).

(** ** Texts that no pattern can match *)

(** the 256 characters *)
Definition all_ascii : list ascii := map ascii_of_nat (List.seq 0 256).

(** the class [q] accepts characters of [p] only *)
Definition within (q p : ascii -> bool) : bool :=
  forallb (fun c => implb (q c) (p c)) all_ascii.

(** [needs p r]: the shape of [r] alone shows that every match of [r]
    contains a character of [p] *)
Fixpoint needs (p : ascii -> bool) (r : Re.regex) : bool :=
  match r with
  | Re.Eps | Re.Boundary => false
  | Re.Class q => within q p
  | Re.Repeat q lo _ => (1 <=? lo)%nat && within q p
  | Re.Seq r1 r2 => needs p r1 || needs p r2
  | Re.Alt r1 r2 => needs p r1 && needs p r2
  end.

(** no character of [s] is in [p] *)
Fixpoint free_of (p : ascii -> bool) (s : string) : bool :=
  match s with
  | EmptyString => true
  | String c s' => negb (p c) && free_of p s'
  end.

(** a continuation that fails on every text without a character of [p] *)
Definition fails (p : ascii -> bool) (k : Re.cont) : Prop :=
  forall prev s n, free_of p s = true -> k prev s n = None.

(** a digit or the character [@] *)
Definition digit_or_at (c : ascii) : bool := Re.digit c || Re.is_char "@" c.

(** ** Counting documents *)

(** the number of [docs] whose metadata names the source [src] *)
Definition count_from (src : string) (docs : list DocumentChunk) : nat :=
  length (List.filter (fun doc => String.eqb (source_system (metadata doc)) src) docs).

(** the sum of the values of a dict of counts *)
Definition sum_counts (counts : gmap string nat) : nat :=
  map_fold (fun _ n total => n + total) 0 counts.

(** ** The request sent to the chat model *)


(** ** Tactics *)

Ltac fold_pos_compare :=
  repeat match goal with
  | |- context [PosDef.Pos.compare_cont Eq ?a ?b] =>
      change (PosDef.Pos.compare_cont Eq a b) with (Pos.compare a b)
  end.

(** Case analysis on the IEEE specification of the operands. *)
Ltac spec_cases :=
  repeat match goal with x : spec_float |- _ => destruct x end;
  simpl; try congruence;
  repeat match goal with b : bool |- _ => destruct b; simpl; try congruence end;
  fold_pos_compare;
  repeat match goal with
  | |- context [Z.compare ?a ?b] =>
      destruct (Z.compare_spec a b); simpl; try congruence; try lia
  end;
  repeat match goal with
  | |- context [Pos.compare ?a ?b] =>
      destruct (Pos.compare_spec a b); simpl; try congruence; try lia
  end.

(** * Properties *)

(** ** Order facts on binary64 numbers *)

Module PyFloatFacts.
Import PyFloat.

Lemma SFcompare_refl x : x <> S754_nan -> SFcompare x x = Some Eq.
Proof. spec_cases. Qed.

Lemma SFltb_false_leb x y :
  x <> S754_nan -> y <> S754_nan -> SFltb x y = false -> SFleb y x = true.
Proof. unfold SFltb, SFleb. spec_cases. Qed.

Lemma SFleb_trans x y z :
  SFleb x y = true -> SFleb y z = true -> SFleb x z = true.
Proof. unfold SFleb. spec_cases. Qed.

Lemma SFeqb_not_ltb x y v :
  SFeqb x v = true -> SFeqb y v = true -> SFltb x y = false.
Proof. unfold SFeqb, SFltb. spec_cases. Qed.

Lemma SFleb_not_ltb x y : SFleb y x = true -> SFltb x y = false.
Proof. unfold SFleb, SFltb. spec_cases. Qed.

Lemma is_number_spec a : is_number a = true <-> Prim2SF a <> S754_nan.
Proof.
  unfold is_number, is_nan. rewrite FloatAxioms.eqb_spec. unfold SFeqb.
  split.
  - intros Hn E. rewrite E in Hn. discriminate.
  - intros Hn. rewrite SFcompare_refl by assumption. reflexivity.
Qed.

Lemma lt_ge a b : lt a b = true -> ge b a = true.
Proof.
  unfold lt, ge. rewrite FloatAxioms.ltb_spec, FloatAxioms.leb_spec.
  unfold SFltb, SFleb. destruct (SFcompare _ _) as [[]|]; congruence.
Qed.

Lemma not_lt_ge a b :
  is_number a = true -> is_number b = true -> lt a b = false -> ge a b = true.
Proof.
  rewrite !is_number_spec. unfold lt, ge.
  rewrite FloatAxioms.ltb_spec, FloatAxioms.leb_spec.
  intros. now apply SFltb_false_leb.
Qed.

Lemma ge_not_lt a b : ge a b = true -> lt a b = false.
Proof.
  unfold lt, ge. rewrite FloatAxioms.ltb_spec, FloatAxioms.leb_spec.
  apply SFleb_not_ltb.
Qed.

Lemma ge_trans a b c : ge a b = true -> ge b c = true -> ge a c = true.
Proof.
  unfold ge. rewrite !FloatAxioms.leb_spec. intros Hab Hbc.
  exact (SFleb_trans _ _ _ Hbc Hab).
Qed.

Lemma eq_not_lt a b v : eq a v = true -> eq b v = true -> lt a b = false.
Proof.
  unfold eq, lt. rewrite !FloatAxioms.eqb_spec, FloatAxioms.ltb_spec.
  apply SFeqb_not_ltb.
Qed.

Lemma SFleb_numbers x y : SFleb x y = true -> x <> S754_nan /\ y <> S754_nan.
Proof.
  unfold SFleb. intros Hle.
  split; intros ->; [destruct y | destruct x]; simpl in Hle; discriminate.
Qed.

(** Only numbers compare. *)
Lemma ge_numbers a b : ge a b = true -> is_number a = true /\ is_number b = true.
Proof.
  unfold ge. rewrite FloatAxioms.leb_spec, !is_number_spec.
  intros Hle. apply SFleb_numbers in Hle. tauto.
Qed.

End PyFloatFacts.

(** ** [sorted(..., reverse=True)] *)

Section Sorted.
Context {A : Type} (key : A -> float).

Lemma insert_desc_perm x l : Permutation (x :: l) (insert_desc key x l).
Proof.
  induction l as [|y ys IH]; simpl; [reflexivity|].
  destruct (PyFloat.lt (key x) (key y)); [|reflexivity].
  rewrite perm_swap. now apply perm_skip.
Qed.

Lemma sorted_desc_perm l : Permutation l (sorted_desc key l).
Proof.
  induction l as [|x l IH]; simpl; [reflexivity|].
  etransitivity; [apply perm_skip, IH | apply insert_desc_perm].
Qed.

Lemma insert_desc_stable v x l :
  List.filter (ties key v) (insert_desc key x l) = List.filter (ties key v) (x :: l).
Proof.
  induction l as [|y ys IH]; [reflexivity|].
  cbn [insert_desc].
  destruct (PyFloat.lt (key x) (key y)) eqn:Hlt; [|reflexivity].
  cbn [List.filter] in *. rewrite IH.
  destruct (ties key v x) eqn:Hx, (ties key v y) eqn:Hy; try reflexivity.
  unfold ties in Hx, Hy.
  rewrite (PyFloatFacts.eq_not_lt _ _ _ Hx Hy) in Hlt. discriminate.
Qed.

(** Stability: among the elements that tie, the input order is kept. *)
Lemma sorted_desc_stable v l :
  List.filter (ties key v) (sorted_desc key l) = List.filter (ties key v) l.
Proof.
  induction l as [|x l IH]; [reflexivity|].
  cbn [sorted_desc foldr]. fold (sorted_desc key l).
  rewrite insert_desc_stable. cbn [List.filter]. now rewrite IH.
Qed.

Lemma insert_desc_sorted x l :
  PyFloat.is_number (key x) = true ->
  Forall (fun a => PyFloat.is_number (key a) = true) l ->
  StronglySorted (ranks_before key) l ->
  StronglySorted (ranks_before key) (insert_desc key x l).
Proof.
  intros Hx Hl Hs. induction Hs as [|y ys Hs IH Hy]; simpl.
  - constructor; constructor.
  - inversion Hl as [|? ? Hny Hnys]; subst.
    destruct (PyFloat.lt (key x) (key y)) eqn:Hlt.
    + constructor; [now apply IH|].
      rewrite <- (insert_desc_perm x ys).
      constructor; [now apply PyFloatFacts.lt_ge | assumption].
    + assert (Hxy : ranks_before key x y) by now apply PyFloatFacts.not_lt_ge.
      constructor; [now constructor|].
      constructor; [assumption|].
      eapply Forall_impl; [exact Hy|].
      intros a Ha. exact (PyFloatFacts.ge_trans _ _ _ Hxy Ha).
Qed.

(** On keys that are numbers the ranking is descending. *)
Lemma sorted_desc_sorted l :
  Forall (fun a => PyFloat.is_number (key a) = true) l ->
  StronglySorted (ranks_before key) (sorted_desc key l).
Proof.
  induction 1 as [|x l Hx Hl IH]; simpl; [constructor|].
  apply insert_desc_sorted; [assumption| |assumption].
  now rewrite <- (sorted_desc_perm l).
Qed.

(** A key that is no number has no place in a descending ranking of two
    elements or more. *)
Lemma sorted_numbers l :
  2 <= length l ->
  StronglySorted (ranks_before key) l ->
  Forall (fun a => PyFloat.is_number (key a) = true) l.
Proof.
  intros Hlen Hs. destruct l as [|x [|y l]]; simpl in Hlen; try lia.
  inversion Hs as [|? ? _ Hx]; subst.
  inversion Hx as [|? ? Hxy Hrest]; subst.
  constructor; [exact (proj1 (PyFloatFacts.ge_numbers _ _ Hxy))|].
  eapply Forall_impl; [exact Hx|].
  intros a Ha. exact (proj2 (PyFloatFacts.ge_numbers _ _ Ha)).
Qed.

End Sorted.

(** ** The vector store *)

Section VectorStoreFacts.
Context {I : Type} `{!NNIndex I} `{!EmbeddingModel} `{!Numerics} `{!PySorted}.

Lemma the_index_run (s : State I) :
  the_index s = (match index (store s) with
                 | Some i => Ok i
                 | None => Raise AttributeError
                 end, s).
Proof. unfold the_index, bind, get, from_option. now destruct (index (store s)). Qed.

(** What a search does, step by step. *)
Lemma similarity_search_run query k threshold (s : State I) :
  similarity_search query k threshold s =
  (match index (store s) with
   | None => Raise AttributeError
   | Some idx =>
       if (ntotal idx =? 0)%nat then Ok []
       else
         match index_search idx (normalize_L2 (map astype_float32 (encode query))) k with
         | None => Raise AssertionError
         | Some (scores, indices) =>
             collect_results (documents (store s)) (heap s) threshold
               (zip scores indices) []
         end
   end, s).
Proof.
  unfold similarity_search, bind. rewrite the_index_run.
  destruct (index (store s)) as [idx|]; [|reflexivity].
  destruct (ntotal idx =? 0)%nat; [reflexivity|].
  now destruct (index_search idx _ k) as [[scores indices]|].
Qed.

(** Searching reads the store and changes nothing. *)
Lemma similarity_search_state query k threshold (s : State I) :
  snd (similarity_search query k threshold s) = s.
Proof. now rewrite similarity_search_run. Qed.

Lemma weighted_search_run query k threshold (s : State I) :
  weighted_search query k threshold s =
  (match fst (similarity_search query (k * 2) threshold s) with
   | Ok raw =>
       Ok (py_slice_to
             (sorted_reverse weighted_key (map set_weighted_score raw)) k)
   | Raise e => Raise e
   end, s).
Proof.
  unfold weighted_search, bind.
  pose proof (similarity_search_state query (k * 2) threshold s) as Hs.
  destruct (similarity_search query (k * 2) threshold s) as [[raw|e] s'];
    simpl in Hs; now subst.
Qed.

Lemma weighted_search_state query k threshold (s : State I) :
  snd (weighted_search query k threshold s) = s.
Proof. now rewrite weighted_search_run. Qed.

Lemma collect_results_threshold documents heap threshold candidates acc results :
  Forall (fun r => PyFloat.ge_float32 (r_score r) threshold = true) acc ->
  collect_results documents heap threshold candidates acc = Ok results ->
  Forall (fun r => PyFloat.ge_float32 (r_score r) threshold = true) results.
Proof.
  revert acc. induction candidates as [|[score idx] rest IH]; intros acc Hacc; simpl.
  - now intros [= <-].
  - destruct (PyFloat.ge_float32 score threshold) eqn:Hge; simpl; [|now apply IH].
    destruct (idx <? _)%Z; [|now apply IH].
    destruct (py_index documents idx) as [l|]; [|discriminate].
    destruct (heap !! l) as [doc|]; [|discriminate].
    apply IH. apply Forall_app. split; [assumption|].
    constructor; [exact Hge | constructor].
Qed.

Lemma set_weighted_score_key (r : SearchResult) :
  weighted_key (set_weighted_score r) = (r_score r * weight (r_metadata r))%float.
Proof. reflexivity. Qed.

(** C1. For every query, every [k >= 1] and every threshold,
    [weighted_search] asks [similarity_search] for [2*k] candidates at
    the same threshold and fails when that call fails; otherwise it gives
    each candidate [weighted_score = score * metadata.weight], ranks the
    candidates with [sorted(..., reverse=True)] and returns the first [k]
    of the ranking, hence at most [k] results.  The ranking is a
    rearrangement of the candidates.  When the weighted scores are
    numbers it is descending and the candidates that tie keep their input
    order; as soon as one of two or more weighted scores is NaN it is not
    descending.  Of two candidates with raw score 0.9 and weights 1.0 and
    0.5 the one with weight 1.0 comes first, whichever stood first in the
    input. *)
Theorem weighted_search_ranking (query : string) (k : Z) (threshold : float)
    (s : State I) :
  (1 <= k)%Z ->
  match similarity_search query (2 * k) threshold s with
  | (Ok raw, s') =>
      let candidates := map set_weighted_score raw in
      let ranked := sorted_reverse weighted_key candidates in
      weighted_search query k threshold s = (Ok (take (Z.to_nat k) ranked), s')
      /\ Forall (fun c => r_weighted_score c
                          = Some (r_score c * weight (r_metadata c))%float)
           candidates
      /\ Permutation candidates ranked
      /\ (length (take (Z.to_nat k) ranked) <= Z.to_nat k)%nat
      /\ (Forall (fun c => PyFloat.is_number (weighted_key c) = true) candidates ->
          StronglySorted (ranks_before weighted_key) ranked
          /\ forall v, List.filter (ties weighted_key v) ranked
                       = List.filter (ties weighted_key v) candidates)
      /\ (Exists (fun c => PyFloat.is_number (weighted_key c) = false) candidates ->
          2 <= length candidates ->
          ~ StronglySorted (ranks_before weighted_key) ranked)
  | (Raise e, s') => weighted_search query k threshold s = (Raise e, s')
  end
  /\ (forall a b : SearchResult,
        r_score a = 0.9%float -> r_score b = 0.9%float ->
        weight (r_metadata a) = 1.0%float -> weight (r_metadata b) = 0.5%float ->
        sorted_reverse weighted_key (map set_weighted_score [b; a])
        = map set_weighted_score [a; b]
        /\ sorted_reverse weighted_key (map set_weighted_score [a; b])
           = map set_weighted_score [a; b]).
Proof.
  intros Hk. split.
  - rewrite weighted_search_run, (Z.mul_comm k 2).
    pose proof (similarity_search_state query (2 * k) threshold s) as Hs.
    destruct (similarity_search query (2 * k) threshold s) as [[raw|e] s'];
      simpl in Hs; subst s'; cbn [fst]; [|reflexivity].
    cbv zeta.
    pose proof (sorted_reverse_perm _ weighted_key (map set_weighted_score raw)) as Hperm.
    split; [unfold py_slice_to; now replace (0 <=? k)%Z with true by lia|].
    split.
    { apply Forall_forall. intros c Hc.
      apply list_elem_of_In, in_map_iff in Hc. now destruct Hc as [r [<- _]]. }
    split; [exact Hperm|].
    split; [rewrite length_take; lia|].
    split.
    + intros Hnum. rewrite (sorted_reverse_numbers _ _ _ Hnum).
      split; [now apply sorted_desc_sorted | intros v; apply sorted_desc_stable].
    + intros Hnan Hlen Hsorted.
      apply sorted_numbers in Hsorted;
        [|now rewrite <- (Permutation_length Hperm)].
      rewrite <- Hperm in Hsorted.
      apply Exists_exists in Hnan as (c & Hc & Hnan).
      rewrite Forall_forall in Hsorted.
      rewrite (Hsorted c Hc) in Hnan. discriminate.
  - intros a b Ha Hb Hwa Hwb.
    assert (Hnum : forall l, (l = [a; b] \/ l = [b; a]) ->
              Forall (fun c => PyFloat.is_number (weighted_key c) = true)
                (map set_weighted_score l)).
    { intros l [->| ->]; repeat constructor;
        rewrite set_weighted_score_key, ?Ha, ?Hb, ?Hwa, ?Hwb; reflexivity. }
    rewrite !sorted_reverse_numbers by (apply Hnum; tauto).
    simpl. rewrite !set_weighted_score_key, Ha, Hb, Hwa, Hwb.
    split; reflexivity.
Qed.

(** C2. Every result [similarity_search] returns has a score of at least
    the threshold rounded to float32, for every query, [k] and threshold:
    the test [score >= threshold] is made in float32.  When the threshold
    is a float32 number itself, no returned score is below it. *)
Theorem similarity_search_threshold (query : string) (k : Z) (threshold : float)
    (s s' : State I) (results : list SearchResult) :
  similarity_search query k threshold s = (Ok results, s') ->
  Forall (fun r =>
            PyFloat.ge (r_score r) (PyFloat.to_float32 threshold) = true
            /\ PyFloat.lt (r_score r) (PyFloat.to_float32 threshold) = false) results
  /\ (PyFloat.to_float32 threshold = threshold ->
      Forall (fun r => PyFloat.ge (r_score r) threshold = true
                       /\ PyFloat.lt (r_score r) threshold = false) results).
Proof.
  rewrite similarity_search_run.
  intros Hrun. apply (f_equal fst) in Hrun. cbn [fst] in Hrun.
  assert (Hall : Forall (fun r => PyFloat.ge_float32 (r_score r) threshold = true)
                   results).
  { destruct (index (store s)) as [idx|]; [|discriminate].
    destruct (ntotal idx =? 0)%nat; [injection Hrun as <-; constructor|].
    destruct (index_search idx _ k) as [[scores indices]|]; [|discriminate].
    eapply collect_results_threshold; [|exact Hrun]. constructor. }
  assert (Hboth : Forall (fun r =>
            PyFloat.ge (r_score r) (PyFloat.to_float32 threshold) = true
            /\ PyFloat.lt (r_score r) (PyFloat.to_float32 threshold) = false) results).
  { eapply Forall_impl; [exact Hall|].
    intros r Hge. split; [exact Hge | now apply PyFloatFacts.ge_not_lt]. }
  split; [exact Hboth|]. now intros <-.
Qed.

End VectorStoreFacts.

Lemma weighted_search_ranking_witness :
  (1 <= 2)%Z
  /\ exists first second,
       fst (weighted_search "ab" 2 0.5%float Demo.two_docs) = Ok [first; second]
       /\ r_content first = "ab" /\ r_content second = "abcd".
Proof.
  assert (Hk : (1 <= 2)%Z) by lia. split; [exact Hk|].
  destruct (weighted_search_ranking "ab" 2 0.5%float Demo.two_docs Hk) as [Hrun _].
  destruct (similarity_search "ab" (2 * 2) 0.5%float Demo.two_docs)
    as [[raw|e] s'] eqn:Hraw; [|vm_compute in Hraw; discriminate].
  destruct Hrun as [-> _]. vm_compute in Hraw.
  injection Hraw as <- _. vm_compute. eexists _, _. repeat split.
Defined.

(** With a weight that is no number the ranking is not descending: the
    candidate with the NaN weighted score stands first although it ranks
    before nothing. *)
Lemma nan_weight_not_ranked :
  exists first second,
    fst (weighted_search "ab" 2 0.5%float Fixtures.nan_weight) = Ok [first; second]
    /\ PyFloat.is_number (weighted_key first) = false
    /\ PyFloat.ge (weighted_key first) (weighted_key second) = false
    /\ ~ StronglySorted (ranks_before weighted_key) [first; second].
Proof.
  destruct (fst (weighted_search "ab" 2 0.5%float Fixtures.nan_weight))
    as [ranked|e] eqn:Hrun; [|vm_compute in Hrun; discriminate].
  vm_compute in Hrun. injection Hrun as <-.
  eexists _, _. split; [reflexivity|]. split; [reflexivity|].
  split; [reflexivity|].
  intros Hsorted. inversion Hsorted as [|? ? _ Hfirst]; subst.
  inversion Hfirst as [|? ? Hge _]; subst. vm_compute in Hge. discriminate.
Defined.

Lemma similarity_search_threshold_witness :
  exists results,
    similarity_search "ab" 5 0.5%float Demo.two_docs = (Ok results, Demo.two_docs)
    /\ length results = 2
    /\ Forall (fun r => PyFloat.ge (r_score r) 0.5%float = true
                        /\ PyFloat.lt (r_score r) 0.5%float = false) results.
Proof.
  destruct (similarity_search "ab" 5 0.5%float Demo.two_docs) as [[results|e] s'] eqn:Hrun;
    [|vm_compute in Hrun; discriminate].
  pose proof (similarity_search_state "ab" 5 0.5%float Demo.two_docs) as Hs.
  rewrite Hrun in Hs. simpl in Hs. subst s'.
  exists results. split; [reflexivity|]. split.
  - vm_compute in Hrun. now injection Hrun as <-.
  - exact (proj2 (similarity_search_threshold _ _ _ _ _ _ Hrun) eq_refl).
Defined.

(** A score below the threshold is returned: the query scores exactly 1
    against the stored vector, the threshold 1.0000000001 is 1 in float32,
    and 1 >= 1 holds there. *)
Lemma similarity_search_below_threshold :
  exists r,
    fst (similarity_search "" 1 1.0000000001%float Fixtures.aligned) = Ok [r]
    /\ r_score r = 1%float
    /\ PyFloat.lt (r_score r) 1.0000000001%float = true
    /\ PyFloat.ge (r_score r) 1.0000000001%float = false.
Proof.
  destruct (fst (similarity_search "" 1 1.0000000001%float Fixtures.aligned))
    as [results|e] eqn:Hrun; [|vm_compute in Hrun; discriminate].
  vm_compute in Hrun. injection Hrun as <-.
  eexists. split; [reflexivity|]. repeat split.
Defined.

(** ** Out-of-range positions *)

Section IndexBounds.
Context {I : Type} `{!NNIndex I} `{!EmbeddingModel} `{!Numerics} `{!PySorted}.

(** A position at or past the end of [documents] is dropped. *)
Lemma collect_results_large_index documents heap threshold score idx rest acc :
  (Z.of_nat (length documents) <= idx)%Z ->
  collect_results documents heap threshold ((score, idx) :: rest) acc
  = collect_results documents heap threshold rest acc.
Proof.
  intros Hidx. simpl.
  replace (idx <? Z.of_nat (length documents))%Z with false by lia.
  now rewrite andb_false_r.
Qed.

(** A negative position passes the test [idx < len(self.documents)]:
    with a score that reaches the threshold the candidate is kept, and
    Python's indexing reads the document [idx] places from the end. *)
Lemma collect_results_negative_index documents heap threshold score idx rest acc l doc :
  (idx < 0)%Z ->
  PyFloat.ge_float32 score threshold = true ->
  documents !! Z.to_nat (Z.of_nat (length documents) + idx) = Some l ->
  (- Z.of_nat (length documents) <= idx)%Z ->
  heap !! l = Some doc ->
  collect_results documents heap threshold ((score, idx) :: rest) acc
  = collect_results documents heap threshold rest
      (acc ++ [{| r_content := content doc; r_metadata := metadata doc;
                  r_score := score; r_weighted_score := None |}]).
Proof.
  intros Hneg Hge Hl Hlow Hdoc. simpl. rewrite Hge.
  replace (idx <? Z.of_nat (length documents))%Z with true by lia. simpl.
  unfold py_index.
  replace (0 <=? idx)%Z with false by lia.
  replace (- Z.of_nat (length documents) <=? idx)%Z with true by lia.
  now rewrite Hl, Hdoc.
Qed.

End IndexBounds.

(** C6 (the code departs from the claim).  One document is stored and two
    neighbours are requested with a threshold below every binary32 number:
    the index pads its answer with the position [-1], and
    [similarity_search] returns a second result, read from
    [documents[-1]], instead of dropping the candidate. *)
Theorem similarity_search_keeps_sentinel :
  fst (similarity_search "ab" 2 (-1e39)%float Demo.one_doc)
  = Ok [ {| r_content := "ab"; r_metadata := Demo.meta "hr" 1 "cv.txt#chunk_0";
            r_score := 0.99999999999999989%float; r_weighted_score := None |};
         {| r_content := "ab"; r_metadata := Demo.meta "hr" 1 "cv.txt#chunk_0";
            r_score := Reference.neg_FLT_MAX; r_weighted_score := None |} ]
  /\ index_search (default (IndexFlatIP 2) (index (store Demo.one_doc)))
       (normalize_L2 (map astype_float32 (encode "ab"))) 2
     = Some ([0.99999999999999989%float; Reference.neg_FLT_MAX], [0%Z; (-1)%Z])
  /\ length (documents (store Demo.one_doc)) = 1.
Proof. vm_compute. repeat split. Qed.

(** ** Query orchestration *)

Section QueryFacts.
Context {I : Type} `{!NNIndex I} `{!EmbeddingModel} `{!Numerics} `{!PySorted} `{!ChatModel}.
Variable openai_config : OpenAIConfig.

(** Generating an answer calls the chat model exactly once. *)
Lemma _generate_answer_log query context (s : State I) :
  llm_log (snd (_generate_answer openai_config query context s))
  = llm_log s ++ [{| chat_model := default "gpt-3.5-turbo" (cfg_model openai_config);
                     chat_system := system_prompt;
                     chat_user := user_prompt query context;
                     chat_temperature := default 0.1%float (cfg_temperature openai_config);
                     chat_max_tokens := default 500%Z (cfg_max_tokens openai_config) |}].
Proof.
  unfold _generate_answer, bind, modify.
  now destruct (chat_completions_create _).
Qed.

(** When retrieval finds something, the chat model is called once. *)
Lemma process_query_calls_chat_model request (s : State I) doc docs :
  fst (weighted_search (req_query request) (req_top_k request)
         (req_threshold request) s) = Ok (doc :: docs) ->
  length (llm_log (snd (process_query openai_config request s)))
  = S (length (llm_log s)).
Proof.
  intros Hdocs. unfold process_query, bind.
  pose proof (weighted_search_state (req_query request) (req_top_k request)
                (req_threshold request) s) as Hs.
  destruct (weighted_search _ _ _ s) as [r s']. simpl in Hdocs, Hs. subst r s'.
  pose proof (_generate_answer_log (req_query request)
                (_build_context (doc :: docs)) s) as Hlog.
  destruct (_generate_answer _ _ _ s) as [[answer|e] s1]; simpl in *;
    rewrite Hlog, length_app; simpl; lia.
Qed.

(** C8. When weighted retrieval returns the empty list, [process_query]
    answers with the fixed sentence and no citation, and the state is the
    one before the call: nothing was sent to the answer-generation
    capability. *)
Theorem process_query_no_results (request : QueryRequest) (s : State I) :
  fst (weighted_search (req_query request) (req_top_k request)
         (req_threshold request) s) = Ok [] ->
  process_query openai_config request s
  = (Ok {| resp_answer := "I couldn't find relevant information to answer your query.";
           resp_citations := [];
           resp_query := req_query request |}, s)
  /\ llm_log (snd (process_query openai_config request s)) = llm_log s.
Proof.
  intros Hdocs.
  assert (Hrun : process_query openai_config request s
                 = (Ok {| resp_answer := no_information; resp_citations := [];
                          resp_query := req_query request |}, s)).
  { unfold process_query, bind.
    pose proof (weighted_search_state (req_query request) (req_top_k request)
                  (req_threshold request) s) as Hs.
    destruct (weighted_search _ _ _ s) as [r s']. simpl in Hdocs, Hs.
    now subst r s'. }
  split; [exact Hrun | now rewrite Hrun].
Qed.

End QueryFacts.

Lemma process_query_no_results_witness :
  fst (weighted_search (req_query Demo.request) (req_top_k Demo.request)
         (req_threshold Demo.request) Demo.fresh) = Ok []
  /\ process_query Demo.openai Demo.request Demo.fresh
     = (Ok {| resp_answer := "I couldn't find relevant information to answer your query.";
              resp_citations := []; resp_query := "ab" |}, Demo.fresh)
  /\ llm_log (snd (process_query Demo.openai Demo.request Demo.fresh)) = [].
Proof.
  assert (Hdocs : fst (weighted_search (req_query Demo.request) (req_top_k Demo.request)
                         (req_threshold Demo.request) Demo.fresh) = Ok [])
    by (vm_compute; reflexivity).
  split; [exact Hdocs|].
  destruct (process_query_no_results Demo.openai Demo.request Demo.fresh Hdocs)
    as [Hrun Hlog].
  split; [exact Hrun | rewrite Hlog; reflexivity].
Defined.

(** ** Persistence *)

Lemma string_app_inv_head (p a b : string) : (p ++ a = p ++ b)%string -> a = b.
Proof.
  induction p as [|c p IH]; simpl; [tauto|].
  intros Heq. injection Heq as Heq. now apply IH.
Qed.

Section Persistence.
Context {I : Type} `{!NNIndex I} `{!EmbeddingModel} `{!Numerics} `{!PySorted}.

Lemma index_file_docs_file (v : VectorStore I) : index_file v <> docs_file v.
Proof. intros Heq. apply string_app_inv_head in Heq. discriminate. Qed.

Lemma deref_all_run (ls : list loc) (s : State I) :
  deref_all ls s = (match mapM (fun l => heap s !! l) ls with
                    | Some cs => Ok cs
                    | None => Raise SystemError
                    end, s).
Proof.
  induction ls as [|l ls IH]; [reflexivity|].
  cbn [deref_all]. unfold bind at 1. unfold deref, bind, get, from_option.
  cbn [mapM]. destruct (heap s !! l) as [c|]; [|reflexivity].
  unfold ret. cbn. rewrite IH.
  now destruct (mapM _ ls).
Qed.

(** What a save does to the state, fault by fault.  When the index file
    has been opened the save goes on to the document file, whether the
    index image reached the file or not. *)
Lemma _save_index_run f_index f_docs (s : State I) idx docs :
  index (store s) = Some idx ->
  mapM (fun l => heap s !! l) (documents (store s)) = Some docs ->
  _save_index f_index f_docs s =
  match f_index with
  | FailOpen => (Raise RuntimeError, s)
  | _ =>
      let written := match f_index with
                     | FailWrite c => Truncated c
                     | _ => IndexImage idx
                     end in
      let s1 := with_disk (insert (index_file (store s)) written) s in
      match f_docs with
      | NoFault =>
          (Ok tt, with_disk (insert (docs_file (store s)) (DocsImage docs)) s1)
      | FailOpen => (Raise OSError, s1)
      | FailWrite c =>
          (Raise OSError, with_disk (insert (docs_file (store s)) (Truncated c)) s1)
      end
  end.
Proof.
  intros Hidx Hdocs. unfold _save_index.
  unfold bind at 1. unfold get. unfold bind at 1. rewrite the_index_run, Hidx.
  destruct f_index as [| |c]; unfold bind at 1; cbn [faiss_write_index];
    try reflexivity;
    unfold modify; unfold bind at 1; rewrite deref_all_run;
    cbn [heap with_disk store]; rewrite Hdocs; now destruct f_docs.
Qed.

(** A completed save. *)
Lemma _save_index_completed (s : State I) idx docs :
  index (store s) = Some idx ->
  mapM (fun l => heap s !! l) (documents (store s)) = Some docs ->
  _save_index NoFault NoFault s
  = (Ok tt,
     with_disk (insert (docs_file (store s)) (DocsImage docs))
       (with_disk (insert (index_file (store s)) (IndexImage idx)) s)).
Proof. intros Hidx Hdocs. now rewrite (_save_index_run _ _ _ _ _ Hidx Hdocs). Qed.

(** A save touches the disk only. *)
Lemma _save_index_frame f_index f_docs (s : State I) :
  let s' := snd (_save_index f_index f_docs s) in
  store s' = store s /\ heap s' = heap s /\ llm_log s' = llm_log s.
Proof.
  unfold _save_index, bind, get. rewrite the_index_run.
  destruct (index (store s)) as [idx|]; [|now simpl].
  destruct f_index; simpl; try tauto;
    rewrite deref_all_run; simpl;
    (destruct (mapM _ _); simpl; [|tauto]);
    destruct f_docs; simpl; tauto.
Qed.

(** What starting the store does, artifact by artifact. *)
Lemma VectorStore_init_run path dim (s : State I) :
  VectorStore_init path dim s =
  match disk s !! (path ++ ".index")%string with
  | None =>
      (Ok tt,
       with_store (fun _ => {| index := Some (IndexFlatIP dim); documents := [];
                               index_path := path; dimension := dim |}) s)
  | Some (IndexImage idx) =>
      let loading :=
        with_store (fun _ => {| index := Some idx; documents := [];
                                index_path := path; dimension := dim |}) s in
      match disk s !! (path ++ ".docs")%string with
      | Some (DocsImage docs) =>
          (Ok tt,
           {| store := {| index := Some idx;
                          documents := seq (length (heap s)) (length docs);
                          index_path := path; dimension := dim |};
              heap := heap s ++ docs; disk := disk s; llm_log := llm_log s |})
      | Some (Truncated AtOpcode) => (Raise EOFError, loading)
      | Some (Truncated InOperand) => (Raise UnpicklingError, loading)
      | Some (IndexImage _) => (Raise UnpicklingError, loading)
      | None => (Raise FileNotFoundError, loading)
      end
  | Some _ =>
      (Raise RuntimeError,
       with_store (fun _ => {| index := None; documents := [];
                               index_path := path; dimension := dim |}) s)
  end.
Proof.
  unfold VectorStore_init, _load_or_create_index, bind, modify, get,
    with_store, index_file, docs_file.
  cbn. destruct (disk s !! (path ++ ".index")%string) as [[idx|docs0|c0]|];
    cbn; try reflexivity.
  now destruct (disk s !! (path ++ ".docs")%string) as [[idx'|docs|[|]]|].
Qed.

(** Starting on a disk without index artifact creates the empty store. *)
Lemma VectorStore_init_create path dim (s : State I) :
  disk s !! (path ++ ".index")%string = None ->
  VectorStore_init path dim s
  = (Ok tt,
     with_store (fun _ => {| index := Some (IndexFlatIP dim); documents := [];
                             index_path := path; dimension := dim |}) s).
Proof. intros Hnone. now rewrite VectorStore_init_run, Hnone. Qed.

(** Starting on a disk with two whole artifacts loads them; the loaded
    documents are new objects. *)
Lemma VectorStore_init_load path dim (s : State I) idx docs :
  disk s !! (path ++ ".index")%string = Some (IndexImage idx) ->
  disk s !! (path ++ ".docs")%string = Some (DocsImage docs) ->
  VectorStore_init path dim s
  = (Ok tt,
     {| store := {| index := Some idx;
                    documents := seq (length (heap s)) (length docs);
                    index_path := path; dimension := dim |};
        heap := heap s ++ docs; disk := disk s; llm_log := llm_log s |}).
Proof. intros Hi Hd. now rewrite VectorStore_init_run, Hi, Hd. Qed.

(** Whatever the outcome, a start that succeeds read two whole artifacts
    or found no index artifact. *)
Lemma VectorStore_init_ok path dim (s s' : State I) :
  VectorStore_init path dim s = (Ok tt, s') ->
  (disk s !! (path ++ ".index")%string = None
   /\ index (store s') = Some (IndexFlatIP dim) /\ documents (store s') = [])
  \/ (exists idx docs,
        disk s !! (path ++ ".index")%string = Some (IndexImage idx)
        /\ disk s !! (path ++ ".docs")%string = Some (DocsImage docs)
        /\ index (store s') = Some idx
        /\ length (documents (store s')) = length docs).
Proof.
  rewrite VectorStore_init_run.
  destruct (disk s !! (path ++ ".index")%string) as [[idx|docs0|c0]|];
    try discriminate.
  - destruct (disk s !! (path ++ ".docs")%string) as [[idx'|docs|[|]]|];
      try discriminate.
    intros [= <-]. right. exists idx, docs. cbn. now rewrite length_seq.
  - intros [= <-]. now left.
Qed.

(** [__init__] stops at [os.makedirs] when the path has no directory
    part or the directories cannot be made; otherwise it is the
    assignments and the load. *)
Lemma __init___run path dim f_dirs (s : State I) :
  __init__ path dim f_dirs s =
  let reset := with_store (fun _ => {| index := None; documents := [];
                                       index_path := path; dimension := dim |}) s in
  if String.eqb (os_path_dirname path) "" then (Raise FileNotFoundError, reset)
  else match f_dirs with
       | DirsOk => VectorStore_init path dim s
       | DirsFail => (Raise OSError, reset)
       end.
Proof.
  unfold __init__, VectorStore_init, os_makedirs, bind, modify.
  destruct (String.eqb (os_path_dirname path) ""); [reflexivity|].
  now destruct f_dirs.
Qed.

End Persistence.

(** ** Insertion *)

Section Insertion.
Context {I : Type} `{!NNIndex I} `{!EmbeddingModel} `{!Numerics} `{!PySorted}.

Lemma embedded_idem c : embedded (embedded c) = embedded c.
Proof.
  unfold embedded. destruct (embedding_absent c) eqn:Ha; [|now rewrite Ha].
  destruct (embedding_absent (set_embedding _ c)); reflexivity.
Qed.

Lemma row_of_embedded c : row_of (embedded c) = row_of c.
Proof. unfold row_of. now rewrite embedded_idem. Qed.

Lemma row_of_absent c : embedding_absent c = true -> row_of c = encode (content c).
Proof. unfold row_of, embedded. now intros ->. Qed.

(** One turn of the loop. *)
Lemma embed_chunks_cons chunk rest acc (s : State I) c :
  heap s !! chunk = Some c ->
  embed_chunks (chunk :: rest) acc s
  = embed_chunks rest (acc ++ [row_of c]) (with_heap (<[chunk := embedded c]>) s).
Proof.
  intros Hc. cbn [embed_chunks]. unfold bind at 1.
  unfold deref, bind at 1, get, from_option. rewrite Hc. unfold ret at 1.
  unfold row_of, embedded, bind.
  destruct (embedding_absent c) eqn:Ha.
  - reflexivity.
  - unfold ret. f_equal. unfold with_heap. destruct s as [v h d g]. cbn in *.
    now rewrite list_insert_id.
Qed.

Lemma embed_chunks_dangling chunk rest acc (s : State I) :
  heap s !! chunk = None ->
  embed_chunks (chunk :: rest) acc s = (Raise SystemError, s).
Proof.
  intros Hc. cbn [embed_chunks]. unfold bind at 1.
  unfold deref, bind at 1, get, from_option. now rewrite Hc.
Qed.

(** The loop touches chunk objects only, and moves none. *)
Lemma embed_chunks_frame chunks acc (s : State I) :
  let s' := snd (embed_chunks chunks acc s) in
  store s' = store s /\ disk s' = disk s /\ llm_log s' = llm_log s
  /\ length (heap s') = length (heap s).
Proof.
  revert acc s. induction chunks as [|chunk rest IH]; intros acc s; [now simpl|].
  destruct (heap s !! chunk) as [c|] eqn:Hc.
  - rewrite (embed_chunks_cons _ _ _ _ _ Hc).
    specialize (IH (acc ++ [row_of c]) (with_heap (<[chunk := embedded c]>) s)).
    cbn in IH |- *. now rewrite length_insert in IH.
  - now rewrite (embed_chunks_dangling _ _ _ _ Hc).
Qed.

(** When the loop ends, every visited object is [embedded], the others
    are as before, and [embeddings] has grown by one row per chunk. *)
Lemma embed_chunks_ok chunks acc (s s' : State I) embeddings :
  embed_chunks chunks acc s = (Ok embeddings, s') ->
  exists rows,
    embeddings = acc ++ rows
    /\ Forall2 (fun l row => exists c, heap s !! l = Some c /\ row = row_of c)
         chunks rows
    /\ forall l, heap s' !! l
                 = if bool_decide (l ∈ chunks) then embedded <$> heap s !! l
                   else heap s !! l.
Proof.
  revert acc s. induction chunks as [|chunk rest IH]; intros acc s.
  - intros [= <- <-]. exists []. rewrite app_nil_r.
    split; [reflexivity|]. split; [constructor|].
    intros l. now rewrite bool_decide_eq_false_2 by apply not_elem_of_nil.
  - destruct (heap s !! chunk) as [c|] eqn:Hc;
      [|now rewrite (embed_chunks_dangling _ _ _ _ Hc)].
    rewrite (embed_chunks_cons _ _ _ _ _ Hc). intros Hrun.
    destruct (IH _ _ Hrun) as (rows & -> & Hrows & Hheap).
    exists (row_of c :: rows). rewrite <- app_assoc. split; [reflexivity|].
    assert (Hlt : chunk < length (heap s)) by (eapply lookup_lt_Some; eauto).
    split.
    + constructor; [now exists c|].
      eapply Forall2_impl; [exact Hrows|].
      intros l row (c' & Hc' & ->). cbn in Hc'.
      destruct (decide (l = chunk)) as [->|Hne].
      * rewrite list_lookup_insert_eq in Hc' by assumption.
        injection Hc' as <-. exists c. now rewrite row_of_embedded.
      * rewrite list_lookup_insert_ne in Hc' by congruence. now exists c'.
    + intros l. rewrite Hheap. cbn [heap with_heap].
      destruct (decide (l = chunk)) as [->|Hne].
      * rewrite list_lookup_insert_eq by assumption.
        rewrite (bool_decide_eq_true_2 (chunk ∈ chunk :: rest)) by apply list_elem_of_here.
        rewrite Hc. cbn. rewrite embedded_idem. now destruct (bool_decide _).
      * rewrite list_lookup_insert_ne by congruence.
        destruct (bool_decide (l ∈ rest)) eqn:Hin.
        -- apply bool_decide_eq_true in Hin.
           now rewrite bool_decide_eq_true_2 by now apply list_elem_of_further.
        -- apply bool_decide_eq_false in Hin.
           rewrite bool_decide_eq_false_2; [reflexivity|].
           intros Hin'. apply elem_of_cons in Hin'. tauto.
Qed.

End Insertion.

Section AddDocuments.
Context {I : Type} `{!NNIndex I} `{!EmbeddingModel} `{!Numerics} `{!PySorted}.

Lemma np_vstack_ok rows m : np_vstack rows = Some m -> m = rows.
Proof.
  unfold np_vstack. destruct rows as [|r rs]; [discriminate|].
  destruct (forallb _ rs); now intros [= <-].
Qed.

(** [add_documents], step by step. *)
Lemma add_documents_run chunks f_index f_docs (s : State I) :
  add_documents chunks f_index f_docs s =
  match embed_chunks chunks [] s with
  | (Raise e, s1) => (Raise e, s1)
  | (Ok [], s1) => (Ok tt, s1)
  | (Ok embeddings, s1) =>
      match np_vstack embeddings with
      | None => (Raise ValueError, s1)
      | Some m =>
          match index (store s1) with
          | None => (Raise AttributeError, s1)
          | Some idx =>
              match index_add idx (batch m) with
              | None => (Raise AssertionError, s1)
              | Some idx' => _save_index f_index f_docs (grown idx' chunks s1)
              end
          end
      end
  end.
Proof.
  unfold add_documents. unfold bind at 1.
  destruct (embed_chunks chunks [] s) as [[embeddings|e] s1]; [|reflexivity].
  destruct embeddings as [|row rows]; [reflexivity|].
  unfold bind at 1. unfold from_option at 1.
  destruct (np_vstack (row :: rows)) as [m|]; [|reflexivity].
  unfold ret at 1. unfold bind at 1. rewrite the_index_run.
  destruct (index (store s1)) as [idx|]; [|reflexivity].
  unfold bind at 1. unfold from_option, batch.
  destruct (index_add idx _) as [idx'|]; [|reflexivity].
  reflexivity.
Qed.

(** Every outcome of [add_documents], completed or not, leaves
    [len(self.documents) == self.index.ntotal] as it found it. *)
Lemma add_documents_invariant chunks f_index f_docs (s : State I) :
  store_invariant (store s) ->
  store_invariant (store (snd (add_documents chunks f_index f_docs s))).
Proof.
  intros Hinv. rewrite add_documents_run.
  pose proof (embed_chunks_frame chunks [] s) as (Hstore & _).
  destruct (embed_chunks chunks [] s) as [[embeddings|e] s1] eqn:Hloop;
    cbn [snd] in Hstore; [|cbn [snd]; now rewrite Hstore].
  destruct embeddings as [|row rows]; [cbn [snd]; now rewrite Hstore|].
  destruct (np_vstack (row :: rows)) as [m|] eqn:Hm;
    [|cbn [snd]; now rewrite Hstore].
  apply np_vstack_ok in Hm. subst m.
  destruct Hinv as (idx & Hidx & Hlen).
  rewrite Hstore, Hidx.
  destruct (index_add idx _) as [idx'|] eqn:Hadd;
    [|cbn [snd]; rewrite Hstore; now exists idx].
  destruct (_save_index_frame f_index f_docs (grown idx' chunks s1)) as (-> & _).
  exists idx'. cbn. split; [reflexivity|].
  rewrite (ntotal_index_add _ _ _ Hadd), length_app, Hstore, Hlen. f_equal.
  destruct (embed_chunks_ok _ _ _ _ _ Hloop) as (rws & Heq & Hrows & _).
  cbn in Heq. subst rws. apply Forall2_length in Hrows.
  unfold batch. now rewrite !length_map.
Qed.

End AddDocuments.

(** ** Round trip *)

Lemma py_index_fmap {A B} (f : A -> B) (l : list A) (i : Z) :
  py_index (f <$> l) i = f <$> py_index l i.
Proof.
  unfold py_index. rewrite length_fmap.
  destruct (0 <=? i)%Z; [apply list_lookup_fmap|].
  destruct (_ <=? i)%Z; [apply list_lookup_fmap | reflexivity].
Qed.

Lemma lookup_fresh_objects {A} (h ds : list A) :
  (fun l => (h ++ ds) !! l) <$> seq (length h) (length ds) = Some <$> ds.
Proof.
  revert h. induction ds as [|d ds IH]; intros h; [reflexivity|].
  cbn [length seq fmap list_fmap]. f_equal.
  - now rewrite list_lookup_middle.
  - specialize (IH (h ++ [d])). rewrite length_app, <- app_assoc in IH.
    cbn in IH. now rewrite Nat.add_1_r in IH.
Qed.

Section RoundTrip.
Context {I : Type} `{!NNIndex I} `{!EmbeddingModel} `{!Numerics} `{!PySorted}.

Lemma collect_results_view documents heap documents' heap' threshold candidates acc :
  (fun l => heap !! l) <$> documents = (fun l => heap' !! l) <$> documents' ->
  collect_results documents heap threshold candidates acc
  = collect_results documents' heap' threshold candidates acc.
Proof.
  intros Hview. revert acc.
  assert (Hlen : length documents = length documents')
    by (apply (f_equal length) in Hview; now rewrite !length_fmap in Hview).
  induction candidates as [|[score idx] rest IH]; intros acc; [reflexivity|].
  cbn [collect_results]. rewrite Hlen.
  destruct (_ && _); [|apply IH].
  pose proof (f_equal (fun v => py_index v idx) Hview) as Hidx.
  cbn beta in Hidx. rewrite !py_index_fmap in Hidx.
  destruct (py_index documents idx) as [l|], (py_index documents' idx) as [l'|];
    try discriminate; [|reflexivity].
  injection Hidx as ->.
  destruct (heap' !! l'); [apply IH | reflexivity].
Qed.

(** A search depends on the state through the index and the view only. *)
Lemma similarity_search_view query k threshold (s s' : State I) :
  index (store s) = index (store s') ->
  view s = view s' ->
  fst (similarity_search query k threshold s)
  = fst (similarity_search query k threshold s').
Proof.
  intros Hidx Hview. rewrite !similarity_search_run, Hidx. cbn [fst].
  destruct (index (store s')) as [idx|]; [|reflexivity].
  destruct (ntotal idx =? 0)%nat; [reflexivity|].
  destruct (index_search idx _ k) as [[scores indices]|]; [|reflexivity].
  now apply collect_results_view.
Qed.

(** C4. Once a save has completed, a process that starts on the
    artifacts it left loads a store on which [similarity_search] returns,
    for every query, [k] and threshold, what it returns on the store that
    was saved.  The encoder is a function of the text, and the library
    formats read back what they wrote. *)
Theorem save_load_roundtrip (s saved booted : State I) (dim : nat) :
  _save_index NoFault NoFault s = (Ok tt, saved) ->
  disk booted = disk saved ->
  exists loaded,
    VectorStore_init (index_path (store s)) dim booted = (Ok tt, loaded)
    /\ forall query k threshold,
         fst (similarity_search query k threshold loaded)
         = fst (similarity_search query k threshold s).
Proof.
  intros Hsave Hdisk.
  destruct (index (store s)) as [idx|] eqn:Hidx.
  2:{ unfold _save_index, bind, get in Hsave.
      rewrite the_index_run, Hidx in Hsave. discriminate. }
  destruct (mapM (fun l => heap s !! l) (documents (store s))) as [docs|] eqn:Hdocs.
  2:{ unfold _save_index, bind, get in Hsave.
      rewrite the_index_run, Hidx in Hsave. cbn in Hsave.
      rewrite deref_all_run in Hsave. cbn in Hsave.
      rewrite Hdocs in Hsave. discriminate. }
  rewrite (_save_index_completed _ _ _ Hidx Hdocs) in Hsave.
  injection Hsave as <-. cbn [disk with_disk] in Hdisk.
  assert (Hi : disk booted !! (index_path (store s) ++ ".index")%string
               = Some (IndexImage idx)).
  { rewrite Hdisk, lookup_insert_ne by (symmetry; apply index_file_docs_file).
    apply lookup_insert_eq. }
  assert (Hd : disk booted !! (index_path (store s) ++ ".docs")%string
               = Some (DocsImage docs)).
  { rewrite Hdisk. apply lookup_insert_eq. }
  eexists. split; [exact (VectorStore_init_load _ dim _ _ _ Hi Hd)|].
  intros query k threshold. apply similarity_search_view; [now cbn|].
  unfold view. cbn [store heap documents]. rewrite lookup_fresh_objects.
  apply mapM_Some in Hdocs. clear -Hdocs. symmetry.
  induction Hdocs as [|l c ls cs Hl _ IH]; [reflexivity|].
  cbn. now rewrite Hl, IH.
Qed.

End RoundTrip.

(** ** The size invariant *)

Section Invariant.
Context {I : Type} `{!NNIndex I} `{!EmbeddingModel} `{!Numerics} `{!PySorted}.

(** A completed save of a store that satisfies the invariant leaves two
    artifacts that agree. *)
Lemma _save_index_agree (s s' : State I) :
  store_invariant (store s) ->
  _save_index NoFault NoFault s = (Ok tt, s') ->
  artifacts_agree (disk s') (index_path (store s)).
Proof.
  intros (idx & Hidx & Hlen) Hsave.
  destruct (mapM (fun l => heap s !! l) (documents (store s))) as [docs|] eqn:Hdocs.
  2:{ unfold _save_index, bind, get in Hsave.
      rewrite the_index_run, Hidx in Hsave. cbn in Hsave.
      rewrite deref_all_run in Hsave. cbn in Hsave.
      rewrite Hdocs in Hsave. discriminate. }
  rewrite (_save_index_completed _ _ _ Hidx Hdocs) in Hsave.
  injection Hsave as <-. intros idx0 docs0. cbn [disk with_disk].
  fold (index_file (store s)). fold (docs_file (store s)).
  rewrite lookup_insert_ne by (symmetry; apply index_file_docs_file).
  rewrite !lookup_insert_eq. intros [= <-] [= <-].
  apply length_mapM in Hdocs. congruence.
Qed.

(** Under the invariant the two sizes [get_stats] reports are equal. *)
Lemma get_stats_sizes (s s' : State I) stats :
  store_invariant (store s) ->
  get_stats s = (Ok stats, s') ->
  total_documents stats = index_size stats.
Proof.
  intros (idx & Hidx & Hlen). unfold get_stats, bind, get.
  rewrite deref_all_run. cbn.
  destruct (mapM _ _); [|discriminate].
  rewrite Hidx. cbn. intros [= <- _]. exact Hlen.
Qed.

(** C3, as the code has it.  [len(documents) == index.ntotal] holds in the
    store that is created empty; it holds in a store that is loaded
    whenever the two artifacts on disk agree in size, as they do after a
    completed save of a store that satisfied it; and every outcome of
    [add_documents], for every list of chunks, preserves it, as do the two
    searches, which leave the store alone. *)
Theorem store_invariant_maintained :
  (forall path dim (s : State I),
     disk s !! (path ++ ".index")%string = None ->
     exists s', VectorStore_init path dim s = (Ok tt, s')
                /\ store_invariant (store s'))
  /\ (forall path dim (s s' : State I),
        artifacts_agree (disk s) path ->
        VectorStore_init path dim s = (Ok tt, s') ->
        store_invariant (store s'))
  /\ (forall s s' : State I,
        store_invariant (store s) ->
        _save_index NoFault NoFault s = (Ok tt, s') ->
        artifacts_agree (disk s') (index_path (store s)))
  /\ (forall chunks f_index f_docs (s : State I),
        store_invariant (store s) ->
        store_invariant (store (snd (add_documents chunks f_index f_docs s))))
  /\ (forall query k threshold (s : State I),
        store (snd (similarity_search query k threshold s)) = store s
        /\ store (snd (weighted_search query k threshold s)) = store s).
Proof.
  split; [|split; [|split; [|split]]].
  - intros path dim s Hnone. eexists. split.
    + exact (VectorStore_init_create path dim s Hnone).
    + exists (IndexFlatIP dim). cbn. now rewrite ntotal_IndexFlatIP.
  - intros path dim s s' Hagree Hinit.
    destruct (VectorStore_init_ok _ _ _ _ Hinit)
      as [(_ & Hidx & Hdocs) | (idx & docs & Hi & Hd & Hidx & Hlen)].
    + exists (IndexFlatIP dim). rewrite Hdocs, ntotal_IndexFlatIP. now split.
    + exists idx. split; [assumption|]. rewrite Hlen. now apply Hagree.
  - apply _save_index_agree.
  - apply add_documents_invariant.
  - intros query k threshold s.
    now rewrite similarity_search_state, weighted_search_state.
Qed.

End Invariant.

Lemma store_invariant_maintained_witness :
  disk Demo.boot !! (Demo.path ++ ".index")%string = None
  /\ store_invariant (store Demo.fresh)
  /\ store_invariant (store Demo.two_docs)
  /\ artifacts_agree (disk Demo.two_docs) Demo.path
  /\ store_invariant
       (store (snd (VectorStore_init Demo.path 2 (Demo.reboot Demo.two_docs)))).
Proof.
  destruct (@store_invariant_maintained Reference.FlatIndex _ _ _ _)
    as (Hcreate & Hload & Hsave & Hadd & _).
  assert (Hnone : disk Demo.boot !! (Demo.path ++ ".index")%string = None)
    by reflexivity.
  destruct (Hcreate Demo.path 2 Demo.boot Hnone) as (s' & Hrun & Hfresh).
  assert (Hfresh' : store_invariant (store Demo.fresh))
    by (unfold Demo.fresh; now rewrite Hrun).
  pose proof (Hadd [0; 1] NoFault NoFault Demo.fresh Hfresh') as Htwo.
  fold Demo.two_docs in Htwo.
  assert (Hagree : artifacts_agree (disk Demo.two_docs) Demo.path).
  { apply (Hsave Demo.two_docs Demo.two_docs Htwo). vm_compute. reflexivity. }
  split; [exact Hnone|]. split; [exact Hfresh'|]. split; [exact Htwo|].
  split; [exact Hagree|].
  apply (Hload Demo.path 2 (Demo.reboot Demo.two_docs) _ Hagree).
  vm_compute. reflexivity.
Defined.

(** C3 as stated fails on a store that is loaded after a save stopped
    between its two writes: the index artifact counts two vectors, the
    document artifact still lists one, and the start succeeds. *)
Lemma loaded_store_sizes_differ :
  fst (add_documents [1] NoFault FailOpen Demo.one_doc) = Raise OSError
  /\ fst (VectorStore_init Demo.path 2 (Demo.reboot Demo.interrupted)) = Ok tt
  /\ (ntotal <$> index (store Demo.restarted)) = Some 2
  /\ length (documents (store Demo.restarted)) = 1
  /\ ~ store_invariant (store Demo.restarted).
Proof.
  repeat split; try (vm_compute; reflexivity).
  intros (idx & Hidx & Hlen). vm_compute in Hidx. injection Hidx as <-.
  vm_compute in Hlen. discriminate.
Qed.

(** ** A save that fails *)

Section SaveFailure.
Context {I : Type} `{!NNIndex I} `{!EmbeddingModel} `{!Numerics} `{!PySorted}.


End SaveFailure.



(** ** What is stored and what is indexed *)

Section StoredEmbedding.
Context {I : Type} `{!NNIndex I} `{!EmbeddingModel} `{!Numerics} `{!PySorted}.

Lemma embed_chunks_live chunks : forall acc (s : State I),
  Forall (fun l => is_Some (heap s !! l)) chunks ->
  exists embeddings s1, embed_chunks chunks acc s = (Ok embeddings, s1).
Proof.
  induction chunks as [|chunk rest IH]; intros acc s Hlive.
  - now exists acc, s.
  - inversion Hlive as [|? ? [c Hc] Hrest]; subst.
    rewrite (embed_chunks_cons _ _ _ _ _ Hc). apply IH.
    eapply Forall_impl; [exact Hrest|].
    intros l Hl. cbn [heap with_heap].
    apply lookup_lt_is_Some. rewrite length_insert.
    now apply lookup_lt_is_Some.
Qed.

(** The chunk objects are changed by the first loop, whatever happens to
    the rest of the call: the batch may be rejected or the save may fail,
    the objects keep the embeddings they were given. *)
Lemma add_documents_mutates_chunks chunks f_index f_docs (s : State I) l c :
  Forall (fun l => is_Some (heap s !! l)) chunks ->
  l ∈ chunks ->
  heap s !! l = Some c ->
  heap (snd (add_documents chunks f_index f_docs s)) !! l = Some (embedded c).
Proof.
  intros Hlive Hin Hc.
  destruct (embed_chunks_live chunks [] s Hlive) as (embeddings & s1 & Hloop).
  destruct (embed_chunks_ok _ _ _ _ _ Hloop) as (_ & _ & _ & Hheap).
  assert (Hl : heap s1 !! l = Some (embedded c))
    by (now rewrite Hheap, bool_decide_eq_true_2, Hc).
  rewrite add_documents_run, Hloop.
  destruct embeddings as [|row rows]; [exact Hl|].
  destruct (np_vstack (row :: rows)); [|exact Hl].
  destruct (index (store s1)); [|exact Hl].
  destruct (index_add _ _) as [idx'|]; [|exact Hl].
  now destruct (_save_index_frame f_index f_docs (grown idx' chunks s1)) as (_ & -> & _).
Qed.

(** A completed [add_documents], step by step. *)
Lemma add_documents_ok chunks (s s' : State I) :
  add_documents chunks NoFault NoFault s = (Ok tt, s') ->
  chunks <> [] ->
  exists s1 rows idx idx' docs,
    embed_chunks chunks [] s = (Ok rows, s1)
    /\ index (store s) = Some idx
    /\ index_add idx (batch rows) = Some idx'
    /\ mapM (fun l => heap s1 !! l) (documents (store s) ++ chunks) = Some docs
    /\ store s' = {| index := Some idx'; documents := documents (store s) ++ chunks;
                     index_path := index_path (store s);
                     dimension := dimension (store s) |}
    /\ heap s' = heap s1
    /\ disk s' = <[docs_file (store s) := DocsImage docs]>
                   (<[index_file (store s) := IndexImage idx']> (disk s)).
Proof.
  intros Hrun Hne. rewrite add_documents_run in Hrun.
  pose proof (embed_chunks_frame chunks [] s) as (Hstore & Hdisk & _).
  destruct (embed_chunks chunks [] s) as [[rows|e] s1] eqn:Hloop; [|discriminate].
  cbn [snd] in Hstore, Hdisk.
  destruct (embed_chunks_ok _ _ _ _ _ Hloop) as (rows' & Heq & Hrows & _).
  cbn in Heq. subst rows'.
  destruct rows as [|row rows].
  { apply Forall2_length in Hrows. destruct chunks; [congruence | discriminate]. }
  destruct (np_vstack (row :: rows)) as [m|] eqn:Hm; [|discriminate].
  apply np_vstack_ok in Hm. subst m.
  rewrite Hstore in Hrun.
  destruct (index (store s)) as [idx|] eqn:Hidx; [|discriminate].
  destruct (index_add idx _) as [idx'|] eqn:Hadd; [|discriminate].
  assert (Hidx' : index (store (grown idx' chunks s1)) = Some idx') by reflexivity.
  destruct (mapM (fun l => heap (grown idx' chunks s1) !! l)
              (documents (store (grown idx' chunks s1)))) as [docs|] eqn:Hdocs.
  2:{ unfold _save_index, bind, get in Hrun.
      rewrite the_index_run, Hidx' in Hrun. cbn in Hrun.
      rewrite deref_all_run in Hrun. cbn in Hrun. cbn in Hdocs.
      rewrite Hdocs in Hrun. discriminate. }
  rewrite (_save_index_run _ _ _ _ _ Hidx' Hdocs) in Hrun.
  injection Hrun as <-.
  exists s1, (row :: rows), idx, idx', docs.
  cbn in Hdocs. rewrite Hstore in Hdocs.
  repeat split; try assumption; cbn; unfold index_file, docs_file; cbn;
    now rewrite ?Hstore, ?Hdisk.
Qed.

(** C10.  [add_documents] changes the chunk objects it is given: a chunk
    without embedding receives the encoder's output, as it is, in its
    [embedding] field.  That same object is appended to [documents], and it
    is pickled with that vector, while the row handed to the index is the
    vector converted to float32 and L2-normalised.  The persisted
    embedding and the indexed row are thus the encoder's output before and
    after [astype('float32')] and [faiss.normalize_L2]; they are equal
    exactly when these two steps leave the output as it is, which is
    not the same as the output having unit length: a zero vector is left
    as it is. *)
Theorem add_documents_stores_raw_embedding (chunks : list loc) (s s' : State I)
    (i : nat) (l : loc) (c : DocumentChunk) :
  add_documents chunks NoFault NoFault s = (Ok tt, s') ->
  chunks !! i = Some l ->
  heap s !! l = Some c ->
  embedding_absent c = true ->
  let raw := encode (content c) in
  let indexed := normalize_L2 (map astype_float32 raw) in
  let position := length (documents (store s)) + i in
  heap s' !! l = Some (set_embedding raw c)
  /\ documents (store s') !! position = Some l
  /\ (exists docs,
        disk s' !! docs_file (store s') = Some (DocsImage docs)
        /\ docs !! position = Some (set_embedding raw c))
  /\ (exists idx rows idx',
        index (store s) = Some idx
        /\ index_add idx (batch rows) = Some idx'
        /\ index (store s') = Some idx'
        /\ length rows = length chunks
        /\ rows !! i = Some raw
        /\ batch rows !! i = Some indexed
        /\ forall docs stored,
             disk s' !! docs_file (store s') = Some (DocsImage docs) ->
             docs !! position = Some stored ->
             (embedding stored = batch rows !! i <-> indexed = raw)).
Proof.
  intros Hrun Hi Hc Habs. cbv zeta.
  assert (Hne : chunks <> []) by (intros ->; discriminate).
  destruct (add_documents_ok _ _ _ Hrun Hne)
    as (s1 & rows & idx & idx' & docs & Hloop & Hidx & Hadd & Hdocs & Hstore
        & Hheap & Hdisk).
  destruct (embed_chunks_ok _ _ _ _ _ Hloop) as (rows' & Heq & Hrows & Hh1).
  cbn in Heq. subst rows'.
  assert (Hl1 : heap s1 !! l = Some (set_embedding (encode (content c)) c)).
  { rewrite Hh1, bool_decide_eq_true_2 by (eapply list_elem_of_lookup_2; eauto).
    rewrite Hc. cbn. unfold embedded. now rewrite Habs. }
  assert (Hpos : (documents (store s) ++ chunks) !! (length (documents (store s)) + i)
                 = Some l).
  { rewrite lookup_app_r by lia. now replace (_ + i - _) with i by lia. }
  assert (Hfile : disk s' !! docs_file (store s') = Some (DocsImage docs)).
  { rewrite Hstore, Hdisk. unfold docs_file. cbn. apply lookup_insert_eq. }
  assert (Hstored : docs !! (length (documents (store s)) + i)
                    = Some (set_embedding (encode (content c)) c)).
  { apply mapM_Some in Hdocs.
    destruct (Forall2_lookup_l _ _ _ _ _ Hdocs Hpos) as (c' & Hc' & Hlc').
    cbn beta in Hlc'. congruence. }
  split; [now rewrite Hheap|].
  split; [now rewrite Hstore|].
  split; [now exists docs|].
  exists idx, rows, idx'. rewrite Hstore. cbn [index_path docs_file].
  destruct (Forall2_lookup_l _ _ _ _ _ Hrows Hi) as (row & Hrow & c' & Hc' & ->).
  assert (c' = c) by congruence. subst c'.
  rewrite (row_of_absent _ Habs) in Hrow.
  assert (Hbatch : batch rows !! i
                   = Some (normalize_L2 (map astype_float32 (encode (content c))))).
  { unfold batch. now rewrite !list_lookup_fmap, Hrow. }
  split; [assumption|]. split; [assumption|]. split; [reflexivity|].
  split; [symmetry; now apply Forall2_length in Hrows|].
  split; [assumption|]. split; [assumption|].
  intros docs' stored Hfile' Hstored'.
  rewrite Hstore in Hfile. cbn [index_path docs_file] in Hfile.
  rewrite Hfile in Hfile'. injection Hfile' as <-.
  rewrite Hstored in Hstored'. injection Hstored' as <-.
  rewrite Hbatch. cbn [embedding set_embedding].
  split; [intros [= Heq]; now symmetry | intros ->; reflexivity].
Qed.

End StoredEmbedding.

Lemma add_documents_stores_raw_embedding_witness :
  add_documents [0; 1] NoFault NoFault Demo.fresh = (Ok tt, Demo.two_docs)
  /\ [0; 1] !! 0 = Some 0
  /\ heap Demo.fresh !! 0 = Some Demo.chunk0
  /\ embedding_absent Demo.chunk0 = true
  /\ heap Demo.two_docs !! 0 = Some (set_embedding [2%float; 1%float] Demo.chunk0)
  /\ normalize_L2 (map astype_float32 (encode "ab"))
     = [0.89442719099991586%float; 0.44721359549995793%float].
Proof.
  assert (Hrun : add_documents [0; 1] NoFault NoFault Demo.fresh = (Ok tt, Demo.two_docs))
    by (vm_compute; reflexivity).
  assert (Hi : [0; 1] !! 0 = Some 0) by reflexivity.
  assert (Hc : heap Demo.fresh !! 0 = Some Demo.chunk0) by reflexivity.
  assert (Habs : embedding_absent Demo.chunk0 = true) by reflexivity.
  repeat (split; [assumption|]).
  destruct (add_documents_stores_raw_embedding _ _ _ _ _ _ Hrun Hi Hc Habs)
    as (Hheap & _).
  split; [exact Hheap | vm_compute; reflexivity].
Defined.

(** The zero vector is not of unit length, and [faiss.normalize_L2]
    leaves it as it is: a chunk the encoder maps to it is persisted with
    the very vector that is in the index. *)
Lemma zero_embedding_stored_as_indexed :
  let encoder := Fixtures.zero_encoder in
  let raw := @encode encoder "ab" in
  @add_documents _ _ encoder _ [0] NoFault NoFault Demo.fresh
  = (Ok tt, Fixtures.zero_doc)
  /\ heap Demo.fresh !! 0 = Some Demo.chunk0
  /\ embedding_absent Demo.chunk0 = true
  /\ raw = [0%float; 0%float]
  /\ Reference.dot raw raw = 0%float
  /\ disk Fixtures.zero_doc !! docs_file (store Fixtures.zero_doc)
     = Some (DocsImage [set_embedding raw Demo.chunk0])
  /\ index (store Fixtures.zero_doc)
     = Some {| Reference.fi_dim := 2; Reference.fi_rows := [raw] |}.
Proof. vm_compute. repeat split. Defined.

Lemma save_load_roundtrip_witness :
  _save_index NoFault NoFault Demo.two_docs = (Ok tt, Demo.two_docs)
  /\ disk (Demo.reboot Demo.two_docs) = disk Demo.two_docs
  /\ exists loaded,
       VectorStore_init Demo.path 2 (Demo.reboot Demo.two_docs) = (Ok tt, loaded)
       /\ documents (store loaded) = [0; 1]
       /\ fst (similarity_search "abc" 5 0.5%float loaded)
          = fst (similarity_search "abc" 5 0.5%float Demo.two_docs).
Proof.
  assert (Hsave : _save_index NoFault NoFault Demo.two_docs = (Ok tt, Demo.two_docs))
    by (vm_compute; reflexivity).
  assert (Hdisk : disk (Demo.reboot Demo.two_docs) = disk Demo.two_docs)
    by reflexivity.
  split; [exact Hsave|]. split; [exact Hdisk|].
  destruct (save_load_roundtrip Demo.two_docs Demo.two_docs
              (Demo.reboot Demo.two_docs) 2 Hsave Hdisk) as (loaded & Hinit & Hsame).
  exists loaded. split; [exact Hinit|]. split; [|apply Hsame].
  vm_compute in Hinit. now injection Hinit as <-.
Defined.

(** ** How a substitution pass proceeds *)

Section SubFacts.
Import Re.

Lemma rep_bounded p k total :
  bounded k total -> forall lo hi, bounded (rep p lo hi k) total.
Proof.
  intros Hk lo hi prev s. revert lo hi prev.
  induction s as [|c s IH]; intros lo hi prev n m Hn; cbn [rep].
  - destruct lo; [apply Hk; exact Hn | discriminate].
  - destruct (hi_open hi && p c).
    + destruct (rep p (pred lo) (hi_pred hi) k (Some c) s (S n)) as [m'|] eqn:Hrec.
      * intros [= <-]. eapply IH; [|exact Hrec]. cbn in Hn. lia.
      * destruct lo; [apply Hk; exact Hn | discriminate].
    + destruct lo; [apply Hk; exact Hn | discriminate].
Qed.

Lemma run_bounded r : forall k total, bounded k total -> bounded (run r k) total.
Proof.
  induction r as [|p|p lo hi| |r1 IH1 r2 IH2|r1 IH1 r2 IH2];
    intros k total Hk prev s n m Hn; cbn [run].
  - now apply Hk.
  - destruct s as [|c s]; [discriminate|].
    destruct (p c); [|discriminate]. apply Hk. cbn in Hn. lia.
  - now apply rep_bounded.
  - destruct (at_boundary prev s); [now apply Hk | discriminate].
  - apply (IH1 (run r2 k) total); [now apply IH2 | exact Hn].
  - destruct (run r1 k prev s n) as [m'|] eqn:H1.
    + intros [= <-]. exact (IH1 k total Hk prev s n m' Hn H1).
    + exact (IH2 k total Hk prev s n m Hn).
Qed.

(** A match is never longer than the text it starts in. *)
Lemma match_len_le r prev s m :
  match_len r prev s = Some m -> m <= String.length s.
Proof.
  intros Hm.
  apply (run_bounded r (fun _ _ n => Some n) (String.length s)) with prev s 0;
    [|reflexivity|exact Hm].
  intros prev' s' n' m' Hn [= <-]. lia.
Qed.

Lemma rep_raises p k more :
  raises k more -> forall lo hi, raises (rep p lo hi k) (lo + more).
Proof.
  intros Hk lo hi prev s. revert lo hi prev.
  induction s as [|c s IH]; intros lo hi prev n m; cbn [rep].
  - destruct lo; [apply Hk | discriminate].
  - destruct (hi_open hi && p c).
    + destruct (rep p (pred lo) (hi_pred hi) k (Some c) s (S n)) as [m'|] eqn:Hrec.
      * intros [= <-]. apply IH in Hrec. destruct lo; cbn in Hrec |- *; lia.
      * destruct lo; [apply Hk | discriminate].
    + destruct lo; [apply Hk | discriminate].
Qed.

Lemma run_raises r : forall k more, raises k more -> raises (run r k) (min_len r + more).
Proof.
  induction r as [|p|p lo hi| |r1 IH1 r2 IH2|r1 IH1 r2 IH2];
    intros k more Hk prev s n m; cbn [run min_len].
  - apply Hk.
  - destruct s as [|c s]; [discriminate|].
    destruct (p c); [|discriminate]. intros Hm. apply Hk in Hm. lia.
  - now apply rep_raises.
  - destruct (at_boundary prev s); [apply Hk | discriminate].
  - intros Hm. apply (IH1 (run r2 k) (min_len r2 + more)) in Hm; [lia|].
    now apply IH2.
  - destruct (run r1 k prev s n) as [m'|] eqn:H1.
    + intros [= <-]. apply (IH1 k more Hk) in H1. lia.
    + intros Hm. apply (IH2 k more Hk) in Hm. lia.
Qed.

(** A match has [min_len] characters at least. *)
Lemma match_len_ge r prev s m :
  match_len r prev s = Some m -> min_len r <= m.
Proof.
  intros Hm.
  apply (run_raises r (fun _ _ n => Some n) 0) in Hm; [lia|].
  intros prev' s' n' m' [= <-]. lia.
Qed.

(** None of the four PII patterns matches the empty string: a pass puts
    its token in the place of text, never between two characters. *)
Lemma pii_patterns_consume :
  Forall (fun item => forall prev s, match_len (snd item) prev s <> Some 0)
    TransformRules.pii_patterns.
Proof.
  repeat constructor; intros prev s Hm; apply match_len_ge in Hm;
    cbn in Hm; lia.
Qed.

(** Dropping the rest of a match is jumping behind it. *)
Lemma sub_from_skip r repl s : forall prev skip,
  skip <= String.length s ->
  sub_from r repl prev s skip
  = sub_from r repl (char_before prev skip s) (string_drop skip s) 0.
Proof.
  induction s as [|c s IH]; intros prev skip Hskip.
  - destruct skip; [reflexivity | cbn in Hskip; lia].
  - destruct skip as [|skip]; [reflexivity|].
    cbn [sub_from char_before string_drop]. apply IH. cbn in Hskip. lia.
Qed.

(** One pass of [sub], position by position: where the pattern matches a
    non-empty stretch, the token replaces the stretch and the scan goes on
    behind it; where it does not match, the character is copied and the
    scan goes on at the next one. *)
Lemma sub_from_match r repl prev s n :
  match_len r prev s = Some (S n) ->
  sub_from r repl prev s 0
  = (repl ++ sub_from r repl (char_before prev (S n) s) (string_drop (S n) s) 0)%string.
Proof.
  intros Hm. pose proof (match_len_le _ _ _ _ Hm) as Hle.
  destruct s as [|c s]; [cbn in Hle; lia|].
  cbn [sub_from]. rewrite Hm. f_equal.
  cbn [char_before string_drop]. apply sub_from_skip. cbn in Hle. lia.
Qed.

Lemma sub_from_no_match r repl prev c s :
  match_len r prev (String c s) = None ->
  sub_from r repl prev (String c s) 0 = String c (sub_from r repl (Some c) s 0).
Proof. intros Hm. cbn [sub_from]. now rewrite Hm. Qed.

Lemma string_drop_length n s :
  String.length (string_drop n s) = String.length s - n.
Proof.
  revert s. induction n as [|n IH]; intros [|c s]; cbn; try lia. apply IH.
Qed.

(** A pass of [sub] with a pattern that matches no empty stretch replaces
    every match, from left to right. *)
Lemma sub_from_replaces_all r token :
  (forall prev s, match_len r prev s <> Some 0) ->
  forall s prev, replaces_all r token prev s (sub_from r token prev s 0).
Proof.
  intros Hconsume s.
  induction s as [s IH] using (well_founded_induction
                                 (well_founded_ltof _ String.length)).
  intros prev. destruct (match_len r prev s) as [[|n]|] eqn:Hm.
  - now apply Hconsume in Hm.
  - rewrite (sub_from_match _ _ _ _ _ Hm).
    apply (replaces_match _ _ _ _ n); [exact Hm|]. apply IH. unfold ltof.
    pose proof (match_len_le _ _ _ _ Hm). rewrite string_drop_length. lia.
  - destruct s as [|c s].
    + cbn [sub_from]. rewrite Hm. now constructor.
    + rewrite (sub_from_no_match _ _ _ _ _ Hm).
      apply replaces_keep; [exact Hm|]. apply IH. unfold ltof. cbn. lia.
Qed.

(** There is one way only to replace every match. *)
Lemma replaces_all_unique r token prev s out out' :
  replaces_all r token prev s out -> replaces_all r token prev s out' -> out = out'.
Proof.
  intros Hout. revert out'.
  induction Hout as [prev Hm|prev c s out Hm _ IH|prev s n out Hm _ IH];
    intros out' Hout'; inversion Hout'; subst; try congruence.
  - f_equal. now apply IH.
  - assert (n0 = n) by congruence. subst n0. f_equal. now apply IH.
Qed.

End SubFacts.

(** ** Transform rules *)

Section TransformFacts.
Import TransformRules.

Lemma _mask_pii_passes content :
  _mask_pii content
  = Re.sub address_pattern "[ADDRESS_MASKED]"
      (Re.sub ssn_pattern "[SSN_MASKED]"
         (Re.sub phone_pattern "[PHONE_MASKED]"
            (Re.sub email_pattern "[EMAIL_MASKED]" content))).
Proof. reflexivity. Qed.

Lemma free_of_app (p : ascii -> bool) (a b : string) :
  free_of p (a ++ b) = free_of p a && free_of p b.
Proof.
  induction a as [|c a IH]; [reflexivity|].
  change (negb (p c) && free_of p (a ++ b)
          = negb (p c) && free_of p a && free_of p b).
  now rewrite IH, andb_assoc.
Qed.

(** A substitution pass brings in no character that neither the text nor
    the token has. *)
Lemma sub_keeps_free_of (p : ascii -> bool) (r : Re.regex) (repl s : string) :
  free_of p repl = true -> free_of p s = true -> free_of p (Re.sub r repl s) = true.
Proof.
  intros Hrepl. unfold Re.sub. generalize (@None ascii) 0.
  induction s as [|c s IH]; intros prev skip Hfree.
  - cbn [Re.sub_from]. destruct skip; [|reflexivity].
    now destruct (Re.match_len r prev EmptyString).
  - cbn in Hfree. apply andb_prop in Hfree as [Hc Hs].
    cbn [Re.sub_from]. destruct skip as [|skip]; [|now apply IH].
    destruct (Re.match_len r prev (String c s)) as [[|n]|].
    + rewrite free_of_app, Hrepl. cbn. now rewrite Hc, IH.
    + rewrite free_of_app, Hrepl. now apply IH.
    + cbn. now rewrite Hc, IH.
Qed.

Lemma ascii_text_free_of s :
  ascii_text s = free_of (fun c => negb (nat_of_ascii c <? 128)%nat) s.
Proof.
  unfold ascii_text. induction s as [|c s IH]; [reflexivity|].
  cbn [list_ascii_of_string forallb free_of]. now rewrite negb_involutive, IH.
Qed.

(** C5. When the flag [pii_mask] of the source is true, the content
    [apply_transform] returns for an ASCII text is the input after four
    global substitutions, each over the whole text left by the one
    before: email addresses, then phone numbers, then SSN-shaped numbers,
    then street addresses.  A pass replaces every match of its pattern,
    from left to right, by the token of its category and keeps every
    other character; each pass has one possible result only, and the text
    stays ASCII throughout.  On
    ["Contact me at a@b.com or 555-123-4567"] the result is
    ["Contact me at [EMAIL_MASKED] or [PHONE_MASKED]"]; on a text with two
    email addresses, two phone numbers, two SSN-shaped numbers and two
    street addresses all eight are replaced. *)
Theorem apply_transform_masks (source_config : gmap string SourceConfig)
    (content source_system file_path : string) :
  (source_config !! source_system) ≫= cfg_pii_mask = Some true ->
  ascii_text content = true ->
  let result := fst (apply_transform source_config content source_system file_path) in
  (exists after_email after_phone after_ssn,
     replaces_all email_pattern "[EMAIL_MASKED]" None content after_email
     /\ replaces_all phone_pattern "[PHONE_MASKED]" None after_email after_phone
     /\ replaces_all ssn_pattern "[SSN_MASKED]" None after_phone after_ssn
     /\ replaces_all address_pattern "[ADDRESS_MASKED]" None after_ssn result
     /\ ascii_text after_email = true
     /\ ascii_text after_phone = true
     /\ ascii_text after_ssn = true
     /\ ascii_text result = true)
  /\ (forall after_email after_phone after_ssn out,
        replaces_all email_pattern "[EMAIL_MASKED]" None content after_email ->
        replaces_all phone_pattern "[PHONE_MASKED]" None after_email after_phone ->
        replaces_all ssn_pattern "[SSN_MASKED]" None after_phone after_ssn ->
        replaces_all address_pattern "[ADDRESS_MASKED]" None after_ssn out ->
        out = result)
  /\ result
     = Re.sub address_pattern "[ADDRESS_MASKED]"
         (Re.sub ssn_pattern "[SSN_MASKED]"
            (Re.sub phone_pattern "[PHONE_MASKED]"
               (Re.sub email_pattern "[EMAIL_MASKED]" content)))
  /\ pii_patterns
     = [("email", email_pattern); ("phone", phone_pattern);
        ("ssn", ssn_pattern); ("address", address_pattern)]
  /\ (content = "Contact me at a@b.com or 555-123-4567" ->
      result = "Contact me at [EMAIL_MASKED] or [PHONE_MASKED]")
  /\ (content = "Mail jo@example.org and al@b.co, call 555.123.4567 or 5557654321, SSN 123-45-6789 and 987654321, at 12 Oak Street and 7 Elm Rd." ->
      result = "Mail [EMAIL_MASKED] and [EMAIL_MASKED], call [PHONE_MASKED] or [PHONE_MASKED], SSN [SSN_MASKED] and [SSN_MASKED], at [ADDRESS_MASKED] and [ADDRESS_MASKED].").
Proof.
  intros Hflag Hascii. cbv zeta.
  assert (Hmask : fst (apply_transform source_config content source_system file_path)
                  = _mask_pii content).
  { unfold apply_transform. cbn [fst].
    destruct (source_config !! source_system) as [entry|]; [|discriminate].
    cbn in Hflag |- *. now rewrite Hflag. }
  rewrite Hmask, _mask_pii_passes.
  pose proof pii_patterns_consume as Hconsume.
  unfold pii_patterns in Hconsume.
  apply Forall_cons in Hconsume as [Hemail Hconsume].
  apply Forall_cons in Hconsume as [Hphone Hconsume].
  apply Forall_cons in Hconsume as [Hssn Hconsume].
  apply Forall_cons in Hconsume as [Haddress _].
  cbn [snd] in Hemail, Hphone, Hssn, Haddress.
  pose proof (sub_from_replaces_all email_pattern "[EMAIL_MASKED]" Hemail) as Remail.
  pose proof (sub_from_replaces_all phone_pattern "[PHONE_MASKED]" Hphone) as Rphone.
  pose proof (sub_from_replaces_all ssn_pattern "[SSN_MASKED]" Hssn) as Rssn.
  pose proof (sub_from_replaces_all address_pattern "[ADDRESS_MASKED]" Haddress)
    as Raddress.
  assert (Hkeep : forall r token s,
            ascii_text token = true -> ascii_text s = true ->
            ascii_text (Re.sub r token s) = true).
  { intros r token s. rewrite !ascii_text_free_of. apply sub_keeps_free_of. }
  split.
  - eexists _, _, _.
    split; [apply Remail|]. split; [apply Rphone|]. split; [apply Rssn|].
    split; [apply Raddress|].
    repeat split; repeat (apply Hkeep; [reflexivity|]); exact Hascii.
  - split.
    + intros after_email after_phone after_ssn out H1 H2 H3 H4.
      rewrite (replaces_all_unique _ _ _ _ _ _ H1 (Remail content None)) in H2.
      rewrite (replaces_all_unique _ _ _ _ _ _ H2 (Rphone _ None)) in H3.
      rewrite (replaces_all_unique _ _ _ _ _ _ H3 (Rssn _ None)) in H4.
      exact (replaces_all_unique _ _ _ _ _ _ H4 (Raddress _ None)).
    + split; [reflexivity|]. split; [reflexivity|].
      split; intros ->; vm_compute; reflexivity.
Qed.

(** C9. The classification, weight and [pii_masked] of the metadata
    [apply_transform] returns are read from the configuration entry of
    [source_system] alone, with ["PUBLIC"], [1.0] and [false] standing in
    for an absent source or an absent key; the content and the file path
    have no part in them, so [pii_masked] is the configured flag whether or
    not any pattern matches the content. *)
Theorem apply_transform_metadata (source_config : gmap string SourceConfig)
    (content source path : string) :
  let entry := source_config !! source in
  let metadata := snd (apply_transform source_config content source path) in
  classification metadata = default "PUBLIC" (entry ≫= cfg_classification)
  /\ weight metadata = default 1.0%float (entry ≫= cfg_weight)
  /\ pii_masked metadata = default false (entry ≫= cfg_pii_mask)
  /\ (entry = None ->
      classification metadata = "PUBLIC" /\ weight metadata = 1.0%float
      /\ pii_masked metadata = false)
  /\ source_system metadata = source
  /\ file_path metadata = path
  /\ forall content' path',
       let metadata' := snd (apply_transform source_config content' source path') in
       classification metadata' = classification metadata
       /\ weight metadata' = weight metadata
       /\ pii_masked metadata' = pii_masked metadata.
Proof.
  cbv zeta. unfold apply_transform. cbn [snd].
  destruct (source_config !! source) as [entry|]; cbn;
    repeat split; try reflexivity;
    try (destruct (cfg_classification entry); reflexivity);
    try (destruct (cfg_weight entry); reflexivity);
    try (destruct (cfg_pii_mask entry); reflexivity);
    discriminate.
Qed.

End TransformFacts.

Lemma apply_transform_masks_witness :
  (Demo.sources !! "hr") ≫= cfg_pii_mask = Some true
  /\ ascii_text "12 main street 1234567890 x@y.zz 123-45-6789 or 1 Oak St, 5551234567, 987654321, al@b.co" = true
  /\ TransformRules.apply_transform Demo.sources
       "12 main street 1234567890 x@y.zz 123-45-6789 or 1 Oak St, 5551234567, 987654321, al@b.co"
       "hr" "cv.txt"
     = ("[ADDRESS_MASKED] [PHONE_MASKED] [EMAIL_MASKED] [SSN_MASKED] or [ADDRESS_MASKED], [PHONE_MASKED], [SSN_MASKED], [EMAIL_MASKED]",
        {| source_system := "hr"; classification := "CONFIDENTIAL";
           weight := 1.5; file_path := "cv.txt"; pii_masked := true |}).
Proof.
  assert (Hflag : (Demo.sources !! "hr") ≫= cfg_pii_mask = Some true)
    by reflexivity.
  assert (Hascii : ascii_text "12 main street 1234567890 x@y.zz 123-45-6789 or 1 Oak St, 5551234567, 987654321, al@b.co" = true)
    by reflexivity.
  split; [exact Hflag|]. split; [exact Hascii|].
  destruct (apply_transform_masks Demo.sources
              "12 main street 1234567890 x@y.zz 123-45-6789 or 1 Oak St, 5551234567, 987654321, al@b.co"
              "hr" "cv.txt" Hflag Hascii)
    as (_ & _ & Hcontent & _).
  rewrite (surjective_pairing (TransformRules.apply_transform _ _ _ _)), Hcontent.
  vm_compute. reflexivity.
Defined.

(** ** The model on concrete inputs *)

Section Examples.
Import TransformRules.

Example _mask_pii_examples :
  map _mask_pii
    [ "a@b.com555-123-4567";
      "mail a.b@c.d.ef, tel 555.123.4567, id 123-45-6789, home 1 Long Tree Lane";
      "_555-123-4567 5551234567x 123456789.";
      "12 Oak St, 99  Main AVENUE and 8 Ave Ave";
      "x@y.z|z 1 aStreet 5 x lnx" ]
  = [ "a@b.com555-123-4567";
      "mail [EMAIL_MASKED], tel [PHONE_MASKED], id [SSN_MASKED], home [ADDRESS_MASKED]";
      "_555-123-4567 5551234567x [SSN_MASKED].";
      "[ADDRESS_MASKED], [ADDRESS_MASKED] and [ADDRESS_MASKED]";
      "[EMAIL_MASKED] [ADDRESS_MASKED] 5 x lnx" ].
Proof. vm_compute. reflexivity. Qed.

Example py_index_examples :
  py_index [10; 11; 12] 0 = Some 10 /\ py_index [10; 11; 12] (-1) = Some 12
  /\ py_index [10; 11; 12] (-3) = Some 10 /\ py_index [10; 11; 12] 3 = None
  /\ py_index [10; 11; 12] (-4) = None.
Proof. repeat split. Qed.

Example py_slice_to_examples :
  py_slice_to [10; 11; 12] 2 = [10; 11] /\ py_slice_to [10; 11; 12] 5 = [10; 11; 12]
  /\ py_slice_to [10; 11; 12] (-1) = [10; 11] /\ py_slice_to [10; 11; 12] (-5) = [].
Proof. repeat split. Qed.

(** ties keep their input order, also between [0.0] and [-0.0] *)
Example sorted_desc_example :
  map snd (sorted_desc fst
             [(0.5%float, 0); (2%float, 1); (0.5%float, 2); ((-0.0)%float, 3);
              (0%float, 4); (2%float, 5)])
  = [1; 5; 0; 2; 3; 4].
Proof. vm_compute. reflexivity. Qed.

Example strip_example : strip "  an answer
 " = "an answer".
Proof. vm_compute. reflexivity. Qed.

End Examples.

Section MoreFacts.
Context {I : Type} `{!NNIndex I} `{!EmbeddingModel} `{!Numerics} `{!PySorted} `{!ChatModel}.

(** An empty index answers every search with the empty list. *)
Lemma similarity_search_empty query k threshold (s : State I) idx :
  index (store s) = Some idx -> ntotal idx = 0 ->
  similarity_search query k threshold s = (Ok [], s).
Proof.
  intros Hidx Hn. unfold similarity_search, bind.
  now rewrite the_index_run, Hidx, Hn.
Qed.

(** A citation keeps a content of at most 200 characters as it is, and
    cuts a longer one to 200 characters followed by three dots. *)
Lemma _build_citations_content (doc : SearchResult) :
  match _build_citations [doc] with
  | [citation] =>
      (String.length (r_content doc) <= 200 ->
       cit_content citation = r_content doc)
      /\ (200 < String.length (r_content doc) ->
          cit_content citation = (substring 0 200 (r_content doc) ++ "...")%string)
  | _ => False
  end.
Proof.
  unfold _build_citations. cbn [map cit_content].
  destruct (Nat.ltb_spec 200 (String.length (r_content doc))); split;
    intros; first [reflexivity | lia].
Qed.

End MoreFacts.


(** * Further properties of the code *)

(** ** Starting the store *)


Lemma os_path_dirname_examples :
  os_path_dirname "data/idx" = "data" /\ os_path_dirname "idx" = ""
  /\ os_path_dirname "/idx" = "/" /\ os_path_dirname "a//b" = "a"
  /\ os_path_dirname "a/b/" = "a/b".
Proof. repeat split. Qed.

Section Startup.
Context {I : Type} `{!NNIndex I} `{!EmbeddingModel} `{!Numerics} `{!PySorted}.


(** X2. What the next start finds after a save.  After a save without
    fault it loads the saved index and as many documents as were saved.
    After a save of which only a part of the index image reached the file
    it fails with RuntimeError, also when that save returned.  After a
    save that stopped while it wrote the document artifact it fails with
    EOFError or UnpicklingError, according to where the file was cut: a
    file that was cut short is never loaded.  A save that could not open
    the index file raises and leaves the next start as it would have been
    before. *)
Theorem restart_after_save (f_index f_docs : write_fault) (s booted : State I)
    (idx : I) (docs : list DocumentChunk) (dim : nat) :
  index (store s) = Some idx ->
  mapM (fun l => heap s !! l) (documents (store s)) = Some docs ->
  os_path_dirname (index_path (store s)) <> "" ->
  disk booted = disk (snd (_save_index f_index f_docs s)) ->
  let start := __init__ (index_path (store s)) dim DirsOk booted in
  (f_index = NoFault -> f_docs = NoFault ->
   fst start = Ok tt /\ index (store (snd start)) = Some idx
   /\ length (documents (store (snd start))) = length (documents (store s)))
  /\ (forall c, f_index = FailWrite c -> fst start = Raise RuntimeError)
  /\ (f_index = NoFault -> f_docs = FailWrite AtOpcode ->
      fst start = Raise EOFError)
  /\ (f_index = NoFault -> f_docs = FailWrite InOperand ->
      fst start = Raise UnpicklingError)
  /\ (f_index = FailOpen ->
      fst (_save_index f_index f_docs s) = Raise RuntimeError
      /\ forall before : State I,
           disk before = disk s ->
           heap before = heap booted -> llm_log before = llm_log booted ->
           __init__ (index_path (store s)) dim DirsOk before = start).
Proof.
  intros Hidx Hdocs Hdir Hdisk. cbv zeta.
  rewrite (_save_index_run f_index f_docs s idx docs Hidx Hdocs) in *.
  pose proof (index_file_docs_file (store s)) as Hne.
  unfold index_file, docs_file in Hne.
  apply String.eqb_neq in Hdir.
  assert (Hsame : f_index = FailOpen ->
            forall before : State I,
              disk before = disk s ->
              heap before = heap booted -> llm_log before = llm_log booted ->
              __init__ (index_path (store s)) dim DirsOk before
              = __init__ (index_path (store s)) dim DirsOk booted).
  { intros -> before Hb Hh Hl. cbn [snd] in Hdisk.
    rewrite !__init___run, Hdir, !VectorStore_init_run, Hdisk, Hb.
    destruct before, booted; cbn in *; subst. reflexivity. }
  split; [|split; [|split; [|split]]].
  - intros -> ->. rewrite __init___run, Hdir, VectorStore_init_run, Hdisk.
    cbn [snd disk with_disk]. unfold index_file, docs_file.
    rewrite lookup_insert_ne by congruence. rewrite !lookup_insert_eq. cbn.
    rewrite length_seq. apply length_mapM in Hdocs. now repeat split.
  - intros c ->. rewrite __init___run, Hdir, VectorStore_init_run, Hdisk.
    destruct f_docs; cbn [snd disk with_disk]; unfold index_file, docs_file;
      rewrite ?(lookup_insert_ne _ (index_path (store s) ++ ".docs")%string)
        by congruence;
      now rewrite lookup_insert_eq.
  - intros -> ->. rewrite __init___run, Hdir, VectorStore_init_run, Hdisk.
    cbn [snd disk with_disk]. unfold index_file, docs_file.
    rewrite lookup_insert_ne by congruence. now rewrite !lookup_insert_eq.
  - intros -> ->. rewrite __init___run, Hdir, VectorStore_init_run, Hdisk.
    cbn [snd disk with_disk]. unfold index_file, docs_file.
    rewrite lookup_insert_ne by congruence. now rewrite !lookup_insert_eq.
  - intros Hopen. split; [now rewrite Hopen | now apply Hsame].
Qed.

End Startup.


Lemma restart_after_save_witness :
  index (store Demo.pending) = Some (default (IndexFlatIP 2) (index (store Demo.pending)))
  /\ mapM (fun l => heap Demo.pending !! l) (documents (store Demo.pending))
     = Some (heap Demo.pending)
  /\ os_path_dirname (index_path (store Demo.pending)) <> ""
  /\ fst (__init__ Demo.path 2 DirsOk
            (Demo.reboot (snd (_save_index NoFault (FailWrite AtOpcode) Demo.pending))))
     = Raise EOFError
  /\ fst (_save_index (FailWrite InOperand) NoFault Demo.pending) = Ok tt
  /\ fst (__init__ Demo.path 2 DirsOk
            (Demo.reboot (snd (_save_index (FailWrite InOperand) NoFault Demo.pending))))
     = Raise RuntimeError.
Proof.
  assert (Hidx : index (store Demo.pending)
                 = Some (default (IndexFlatIP 2) (index (store Demo.pending))))
    by reflexivity.
  assert (Hdocs : mapM (fun l => heap Demo.pending !! l) (documents (store Demo.pending))
                  = Some (heap Demo.pending)) by reflexivity.
  assert (Hdir : os_path_dirname (index_path (store Demo.pending)) <> "")
    by discriminate.
  split; [exact Hidx|]. split; [exact Hdocs|]. split; [exact Hdir|].
  split; [|split].
  - refine (proj1 (proj2 (proj2
      (restart_after_save NoFault (FailWrite AtOpcode) Demo.pending
         (Demo.reboot (snd (_save_index NoFault (FailWrite AtOpcode) Demo.pending)))
         _ _ 2 Hidx Hdocs Hdir eq_refl))) eq_refl eq_refl).
  - vm_compute. reflexivity.
  - refine (proj1 (proj2
      (restart_after_save (FailWrite InOperand) NoFault Demo.pending
         (Demo.reboot (snd (_save_index (FailWrite InOperand) NoFault Demo.pending)))
         _ _ 2 Hidx Hdocs Hdir eq_refl)) InOperand eq_refl).
Defined.

(** ** Searching *)

Lemma py_index_elem {A} (l : list A) (i : Z) (x : A) :
  py_index l i = Some x -> x ∈ l.
Proof.
  unfold py_index. destruct (0 <=? i)%Z; [apply list_elem_of_lookup_2|].
  destruct (_ <=? i)%Z; [apply list_elem_of_lookup_2 | discriminate].
Qed.

Lemma py_index_below {A} (l : list A) (i : Z) :
  (i < - Z.of_nat (length l))%Z -> py_index l i = None.
Proof.
  intros Hi. unfold py_index.
  replace (0 <=? i)%Z with false by lia.
  now replace (- Z.of_nat (length l) <=? i)%Z with false by lia.
Qed.

Lemma py_slice_to_sublist {A} (l : list A) (k : Z) :
  py_slice_to l k `sublist_of` l.
Proof. unfold py_slice_to. destruct (0 <=? k)%Z; apply sublist_take. Qed.

Section Searching.
Context {I : Type} `{!NNIndex I} `{!EmbeddingModel} `{!Numerics} `{!PySorted}.

(** The loop returns one result for each candidate that passes its test,
    in order. *)
Lemma collect_results_trace documents heap threshold candidates acc results :
  collect_results documents heap threshold candidates acc = Ok results ->
  exists found,
    results = acc ++ found
    /\ Forall2 (result_of documents heap)
         (List.filter (passes documents threshold) candidates) found.
Proof.
  revert acc. induction candidates as [|[score idx] rest IH]; intros acc;
    cbn [collect_results List.filter].
  - intros [= <-]. exists []. rewrite app_nil_r. split; constructor.
  - unfold passes at 1. cbn [fst snd].
    destruct (_ && _).
    + destruct (py_index documents idx) as [l|] eqn:Hl; [|discriminate].
      destruct (heap !! l) as [doc|] eqn:Hdoc; [|discriminate].
      intros Hrun. destruct (IH _ Hrun) as (found & -> & Hall).
      eexists (_ :: found). rewrite <- app_assoc. split; [reflexivity|].
      constructor; [|exact Hall].
      repeat split. now exists l, doc.
    + apply IH.
Qed.

Lemma collect_results_below documents heap threshold candidates acc score idx :
  Forall (fun l => is_Some (heap !! l)) documents ->
  (score, idx) ∈ candidates ->
  PyFloat.ge_float32 score threshold = true ->
  (idx < - Z.of_nat (length documents))%Z ->
  collect_results documents heap threshold candidates acc = Raise IndexError.
Proof.
  intros Hlive Hin Hge Hidx. revert acc.
  induction candidates as [|[score' idx'] rest IH]; intros acc.
  - now apply elem_of_nil in Hin.
  - apply elem_of_cons in Hin. destruct Hin as [[= <- <-]|Hin].
    + simpl. rewrite Hge. replace (idx <? Z.of_nat (length documents))%Z with true by lia.
      simpl. now rewrite py_index_below.
    + simpl. destruct (_ && _); [|now apply IH].
      destruct (py_index documents idx') as [l|] eqn:Hl; [|reflexivity].
      apply py_index_elem in Hl.
      rewrite Forall_forall in Hlive. destruct (Hlive _ Hl) as [doc ->].
      now apply IH.
Qed.

Lemma similarity_search_shape query k threshold (s : State I) results :
  fst (similarity_search query k threshold s) = Ok results ->
  exists kept,
    Forall (fun c => passes (documents (store s)) threshold c = true) kept
    /\ Forall2 (result_of (documents (store s)) (heap s)) kept results.
Proof.
  rewrite similarity_search_run. cbn [fst].
  destruct (index (store s)) as [idx|]; [|discriminate].
  destruct (ntotal idx =? 0)%nat.
  - intros [= <-]. exists []. split; constructor.
  - destruct (index_search idx _ k) as [[scores indices]|]; [|discriminate].
    intros Hrun.
    destruct (collect_results_trace _ _ _ _ _ _ Hrun) as (found & -> & Hall).
    eexists. split; [|exact Hall].
    apply Forall_forall. intros c Hc.
    apply list_elem_of_In, filter_In in Hc. tauto.
Qed.

(** X3. What [similarity_search] returns is read from the store.  On an
    empty index it returns nothing.  Otherwise it returns one result for
    each candidate of the index's answer whose score reaches the threshold
    (in float32) and whose position is below [len(self.documents)], all
    of them and in the order of the answer; each result has the score of
    its candidate, the content and metadata of the document at that
    position and no weighted score.  There are never more results than
    candidates. *)
Theorem similarity_search_results (query : string) (k : Z) (threshold : float)
    (s : State I) (results : list SearchResult) :
  fst (similarity_search query k threshold s) = Ok results ->
  exists idx,
    index (store s) = Some idx
    /\ (ntotal idx = 0 -> results = [])
    /\ (ntotal idx <> 0 ->
        exists scores indices,
          index_search idx (normalize_L2 (map astype_float32 (encode query))) k
          = Some (scores, indices)
          /\ Forall2 (result_of (documents (store s)) (heap s))
               (List.filter (passes (documents (store s)) threshold)
                  (zip scores indices))
               results
          /\ length results <= length (zip scores indices)).
Proof.
  rewrite similarity_search_run. cbn [fst].
  destruct (index (store s)) as [idx|]; [|discriminate].
  intros Hrun. exists idx. split; [reflexivity|].
  destruct (Nat.eqb_spec (ntotal idx) 0) as [Hzero|Hsome].
  - injection Hrun as <-. split; [reflexivity | contradiction].
  - split; [contradiction|]. intros _.
    destruct (index_search idx _ k) as [[scores indices]|]; [|discriminate].
    destruct (collect_results_trace _ _ _ _ _ _ Hrun) as (found & -> & Hall).
    exists scores, indices. split; [reflexivity|]. split; [exact Hall|].
    cbn [app]. rewrite <- (Forall2_length _ _ _ Hall).
    pose proof (filter_length (passes (documents (store s)) threshold) (zip scores indices)); lia.
Qed.

(** X4. When the index answers with a candidate whose score reaches the
    threshold and whose position lies below [-len(self.documents)],
    [similarity_search] raises [IndexError]: the test
    [idx < len(self.documents)] lets the position through and the list
    has no element that far from its end. *)
Theorem similarity_search_index_error (query : string) (k : Z) (threshold : float)
    (s : State I) (idx : I) (scores : list float) (indices : list Z)
    (score : float) (i : Z) :
  index (store s) = Some idx ->
  ntotal idx <> 0 ->
  Forall (fun l => is_Some (heap s !! l)) (documents (store s)) ->
  index_search idx (normalize_L2 (map astype_float32 (encode query))) k
  = Some (scores, indices) ->
  (score, i) ∈ zip scores indices ->
  PyFloat.ge_float32 score threshold = true ->
  (i < - Z.of_nat (length (documents (store s))))%Z ->
  similarity_search query k threshold s = (Raise IndexError, s).
Proof.
  intros Hidx Hn Hlive Hsearch Hin Hge Hi.
  rewrite similarity_search_run, Hidx, Hsearch.
  apply Nat.eqb_neq in Hn. rewrite Hn.
  now rewrite (collect_results_below _ _ _ _ _ score i).
Qed.

(** Ranking keeps the results tied to the documents they were read from. *)
Lemma weighted_search_elem query k threshold (s : State I) results r :
  fst (weighted_search query k threshold s) = Ok results ->
  r ∈ results ->
  exists r0 l doc,
    r = set_weighted_score r0
    /\ PyFloat.ge_float32 (r_score r0) threshold = true
    /\ l ∈ documents (store s)
    /\ heap s !! l = Some doc
    /\ r_content r0 = content doc
    /\ r_metadata r0 = metadata doc.
Proof.
  rewrite weighted_search_run. cbn.
  destruct (similarity_search query (k * 2) threshold s) as [[raw|e] s'] eqn:Hraw;
    cbn; [|discriminate].
  intros [= <-] Hr.
  assert (Hfst : fst (similarity_search query (k * 2) threshold s) = Ok raw)
    by now rewrite Hraw.
  destruct (similarity_search_shape _ _ _ _ _ Hfst) as (kept & Hpass & Hall).
  apply (fun H => elem_of_sublist _ _ _ H (py_slice_to_sublist _ _)) in Hr.
  rewrite <- (sorted_reverse_perm _ weighted_key) in Hr.
  apply list_elem_of_fmap in Hr. destruct Hr as (r0 & -> & Hr0).
  destruct (list_elem_of_lookup_1 _ _ Hr0) as [n Hn].
  destruct (Forall2_lookup_r _ _ _ _ _ Hall Hn)
    as (c & Hc & Hscore & _ & l & doc & Hl & Hdoc & Hcont & Hmeta).
  exists r0, l, doc. split; [reflexivity|]. split.
  - rewrite Hscore. rewrite Forall_forall in Hpass.
    apply list_elem_of_lookup_2 in Hc. specialize (Hpass _ Hc).
    unfold passes in Hpass. now apply andb_prop in Hpass.
  - repeat split; try assumption. now apply py_index_elem in Hl.
Qed.

(** X5. Every result of [weighted_search], for every [k], is a stored
    document whose raw score reaches the threshold in float32: it carries
    the content and metadata of an object of [self.documents], and its
    weighted score is its raw score times the weight in that object's
    metadata. *)
Theorem weighted_search_results (query : string) (k : Z) (threshold : float)
    (s : State I) (results : list SearchResult) :
  fst (weighted_search query k threshold s) = Ok results ->
  Forall (fun r =>
            PyFloat.ge (r_score r) (PyFloat.to_float32 threshold) = true
            /\ exists l doc,
                 l ∈ documents (store s)
                 /\ heap s !! l = Some doc
                 /\ r_content r = content doc
                 /\ r_metadata r = metadata doc
                 /\ r_weighted_score r
                    = Some (r_score r * weight (metadata doc))%float) results.
Proof.
  intros Hrun. apply Forall_forall. intros r Hr.
  destruct (weighted_search_elem _ _ _ _ _ _ Hrun Hr)
    as (r0 & l & doc & -> & Hge & Hl & Hdoc & Hcontent & Hmeta).
  split; [exact Hge|].
  exists l, doc. cbn [set_weighted_score r_content r_metadata r_score r_weighted_score].
  rewrite Hmeta. now repeat split.
Qed.

End Searching.

Lemma similarity_search_results_witness :
  exists results,
    fst (similarity_search "ab" 5 0.9%float Demo.two_docs) = Ok results
    /\ length results = 1
    /\ exists scores indices,
         index_search (default (IndexFlatIP 2) (index (store Demo.two_docs)))
           (normalize_L2 (map astype_float32 (encode "ab"))) 5
         = Some (scores, indices)
         /\ length scores = 5
         /\ Forall2 (result_of (documents (store Demo.two_docs)) (heap Demo.two_docs))
              (List.filter (passes (documents (store Demo.two_docs)) 0.9%float)
                 (zip scores indices))
              results.
Proof.
  destruct (fst (similarity_search "ab" 5 0.9%float Demo.two_docs))
    as [results|e] eqn:Hrun; [|vm_compute in Hrun; discriminate].
  exists results. split; [reflexivity|].
  destruct (similarity_search_results "ab" 5 0.9%float Demo.two_docs results Hrun)
    as (idx & Hidx & _ & Hsome).
  injection Hidx as <-.
  destruct Hsome as (scores & indices & Hsearch & Hall & _); [discriminate|].
  split; [vm_compute in Hrun; now injection Hrun as <-|].
  exists scores, indices. split; [exact Hsearch|]. split; [|exact Hall].
  vm_compute in Hsearch. now injection Hsearch as <- _.
Defined.

Lemma similarity_search_index_error_witness :
  similarity_search "ab" 2 (-1e39)%float Fixtures.desynced
  = (Raise IndexError, Fixtures.desynced).
Proof.
  apply (similarity_search_index_error "ab" 2 (-1e39)%float Fixtures.desynced
           {| Reference.fi_dim := 2; Reference.fi_rows := [[1%float; 0%float]] |}
           (fst (default ([], [])
                   (index_search
                      {| Reference.fi_dim := 2; Reference.fi_rows := [[1%float; 0%float]] |}
                      (normalize_L2 (map astype_float32 (encode "ab"))) 2)))
           [0%Z; (-1)%Z]
           Reference.neg_FLT_MAX (-1)%Z).
  - reflexivity.
  - simpl. lia.
  - constructor.
  - vm_compute. reflexivity.
  - vm_compute. apply list_elem_of_lookup_2 with 1. reflexivity.
  - vm_compute. reflexivity.
  - simpl. lia.
Defined.

Lemma weighted_search_results_witness :
  exists results,
    fst (weighted_search "ab" 2 0.5%float Demo.two_docs) = Ok results
    /\ length results = 2
    /\ Forall (fun r =>
                 PyFloat.ge (r_score r) (PyFloat.to_float32 0.5%float) = true
                 /\ exists l doc,
                      l ∈ documents (store Demo.two_docs)
                      /\ heap Demo.two_docs !! l = Some doc
                      /\ r_content r = content doc
                      /\ r_metadata r = metadata doc
                      /\ r_weighted_score r
                         = Some (r_score r * weight (metadata doc))%float) results.
Proof.
  destruct (fst (weighted_search "ab" 2 0.5%float Demo.two_docs))
    as [results|e] eqn:Hrun; [|vm_compute in Hrun; discriminate].
  exists results. split; [reflexivity|]. split.
  - vm_compute in Hrun. now injection Hrun as <-.
  - exact (weighted_search_results "ab" 2 0.5%float Demo.two_docs results Hrun).
Defined.

(** ** A store that has just been created *)

Section FreshStore.
Context {I : Type} `{!NNIndex I} `{!EmbeddingModel} `{!Numerics} `{!PySorted} `{!ChatModel}.
Variable openai_config : OpenAIConfig.

(** X6. A store constructed where no index artifact exists (the path has
    a directory part and [os.makedirs] succeeds) answers every search with
    the empty list, so [process_query] gives the fixed no-information
    answer without a citation; neither the files nor the chat model are
    touched.  With a path that has no directory part the constructor
    raises [FileNotFoundError] and there is no store. *)
Theorem fresh_store_finds_nothing (path : string) (dim : nat) (s : State I)
    (request : QueryRequest) :
  disk s !! (path ++ ".index")%string = None ->
  let created := snd (__init__ path dim DirsOk s) in
  (os_path_dirname path = "" ->
   fst (__init__ path dim DirsOk s) = Raise FileNotFoundError)
  /\ (os_path_dirname path <> "" ->
      fst (__init__ path dim DirsOk s) = Ok tt
      /\ (forall query k threshold,
            similarity_search query k threshold created = (Ok [], created)
            /\ weighted_search query k threshold created = (Ok [], created))
      /\ process_query openai_config request created
         = (Ok {| resp_answer := "I couldn't find relevant information to answer your query.";
                  resp_citations := [];
                  resp_query := req_query request |}, created)
      /\ disk created = disk s
      /\ llm_log created = llm_log s).
Proof.
  intros Hnone. cbv zeta. rewrite __init___run. cbv zeta.
  destruct (String.eqb_spec (os_path_dirname path) "") as [Hdir|Hdir].
  { split; [reflexivity | contradiction]. }
  split; [contradiction|]. intros _.
  rewrite (VectorStore_init_create _ _ _ Hnone). cbn [fst snd].
  set (created := with_store _ s).
  assert (Hsearch : forall query k threshold,
            similarity_search query k threshold created = (Ok [], created)).
  { intros. apply (similarity_search_empty _ _ _ _ (IndexFlatIP dim));
      [reflexivity | apply ntotal_IndexFlatIP]. }
  assert (Hweighted : forall query k threshold,
            weighted_search query k threshold created = (Ok [], created)).
  { intros. rewrite weighted_search_run, Hsearch. cbn [fst map].
    pose proof (sorted_reverse_perm _ weighted_key (@nil SearchResult)) as Hperm.
    apply Permutation_nil in Hperm. rewrite Hperm.
    unfold py_slice_to. now destruct (0 <=? k)%Z; rewrite take_nil. }
  split; [reflexivity|]. split; [now split|]. split; [|now split].
  unfold process_query, bind. now rewrite Hweighted.
Qed.

End FreshStore.

Lemma fresh_store_finds_nothing_witness :
  weighted_search "ab" 5 0.5%float Demo.fresh = (Ok [], Demo.fresh)
  /\ fst (process_query Demo.openai Demo.request Demo.fresh)
     = Ok {| resp_answer := "I couldn't find relevant information to answer your query.";
             resp_citations := [];
             resp_query := "ab" |}
  /\ fst (__init__ "idx" 2 DirsOk Demo.boot) = Raise FileNotFoundError.
Proof.
  assert (Hnone : disk Demo.boot !! (Demo.path ++ ".index")%string = None)
    by reflexivity.
  assert (Hdir : os_path_dirname Demo.path <> "") by (vm_compute; discriminate).
  assert (Hsame : snd (__init__ Demo.path 2 DirsOk Demo.boot) = Demo.fresh)
    by reflexivity.
  destruct (fresh_store_finds_nothing Demo.openai Demo.path 2 Demo.boot Demo.request Hnone)
    as (_ & Hcreated).
  destruct (Hcreated Hdir) as (_ & Hsearch & Hquery & _).
  rewrite Hsame in Hsearch, Hquery.
  split; [exact (proj2 (Hsearch "ab" 5%Z 0.5%float))|].
  split; [now rewrite Hquery|].
  assert (Hbare : disk Demo.boot !! ("idx" ++ ".index")%string = None) by reflexivity.
  exact (proj1 (fresh_store_finds_nothing Demo.openai "idx" 2 Demo.boot Demo.request Hbare)
           eq_refl).
Defined.

(** ** Adding documents *)

Section Adding.
Context {I : Type} `{!NNIndex I} `{!EmbeddingModel} `{!Numerics} `{!PySorted}.

Lemma embedded_content c : content (embedded c) = content c.
Proof. unfold embedded. now destruct (embedding_absent c). Qed.

Lemma embedded_metadata c : metadata (embedded c) = metadata c.
Proof. unfold embedded. now destruct (embedding_absent c). Qed.

Lemma embedded_present c : embedding_absent c = false -> embedded c = c.
Proof. unfold embedded. now intros ->. Qed.





(** What a call of [add_documents] that returns has done. *)
Lemma add_documents_returns chunks f_index f_docs (s s' : State I) :
  add_documents chunks f_index f_docs s = (Ok tt, s') ->
  documents (store s') = documents (store s) ++ chunks
  /\ (forall idx, index (store s) = Some idx ->
        exists idx', index (store s') = Some idx'
                     /\ ntotal idx' = ntotal idx + length chunks)
  /\ length (heap s') = length (heap s)
  /\ (forall l, heap s' !! l
                = if bool_decide (l ∈ chunks) then embedded <$> heap s !! l
                  else heap s !! l).
Proof.
  rewrite add_documents_run.
  pose proof (embed_chunks_frame chunks [] s) as (Hstore & _ & _ & Hlen).
  destruct (embed_chunks chunks [] s) as [[rows|e'] s1] eqn:Hloop;
    cbn [snd] in Hstore, Hlen; [|discriminate].
  destruct (embed_chunks_ok _ _ _ _ _ Hloop) as (rs & Heq & Hall & Hheap).
  cbn in Heq. subst rs.
  destruct rows as [|row rows].
  { intros [= <-]. apply Forall2_length in Hall.
    destruct chunks; [|discriminate].
    rewrite app_nil_r, Hstore. split; [reflexivity|].
    split; [|split; assumption].
    intros idx Hidx. exists idx. split; [assumption | cbn; lia]. }
  destruct (np_vstack (row :: rows)) as [m|] eqn:Hm; [|discriminate].
  apply np_vstack_ok in Hm. subst m. rewrite Hstore.
  destruct (index (store s)) as [idx|] eqn:Hidx; [|discriminate].
  destruct (index_add idx _) as [idx'|] eqn:Hadd; [|discriminate].
  pose proof (_save_index_frame f_index f_docs (grown idx' chunks s1)) as (Hs' & Hh' & _).
  cbv zeta in Hs', Hh'. intros Hrun. rewrite Hrun in Hs', Hh'. cbn [snd] in Hs', Hh'.
  rewrite Hs', Hh'. cbn [grown with_store with_heap store heap documents index
                           set_documents set_index].
  rewrite Hstore. repeat split; try assumption.
  intros idx0 [= <-]. exists idx'. split; [reflexivity|].
  rewrite (ntotal_index_add _ _ _ Hadd). f_equal.
  apply Forall2_length in Hall. unfold batch. now rewrite !length_map.
Qed.

(** X8. A call of [add_documents] that returns only ever appends: the
    chunks stand at the end of [self.documents] in the order given, the
    index has grown by their number, and no object is lost or replaced by
    another: each keeps its content and metadata, and an object that was
    not passed in, or that had an embedding already, is exactly as it
    was. *)
Theorem add_documents_appends (chunks : list loc) (f_index f_docs : write_fault)
    (s s' : State I) :
  add_documents chunks f_index f_docs s = (Ok tt, s') ->
  documents (store s') = documents (store s) ++ chunks
  /\ (forall idx, index (store s) = Some idx ->
        exists idx', index (store s') = Some idx'
                     /\ ntotal idx' = ntotal idx + length chunks)
  /\ length (heap s') = length (heap s)
  /\ (forall l c, heap s !! l = Some c ->
        exists c', heap s' !! l = Some c'
                   /\ content c' = content c /\ metadata c' = metadata c
                   /\ (l ∉ chunks \/ embedding_absent c = false -> c' = c)).
Proof.
  intros Hrun.
  destruct (add_documents_returns _ _ _ _ _ Hrun) as (Hdocs & Hidx & Hlen & Hheap).
  repeat split; try assumption.
  intros l c Hc. rewrite Hheap, Hc. cbn.
  destruct (bool_decide (l ∈ chunks)) eqn:Hin.
  - exists (embedded c). rewrite embedded_content, embedded_metadata.
    repeat split. intros [Hnot|Habs].
    + apply bool_decide_eq_true in Hin. contradiction.
    + now apply embedded_present.
  - now exists c.
Qed.

(** X9. What a completed [add_documents] leaves on disk brings the store
    back: a process started later under the same path loads the index the
    call produced and as many documents as the store held after the call,
    and answers [similarity_search] and [weighted_search] as the store
    did. *)
Theorem add_documents_then_restart (chunks : list loc) (s s' booted : State I)
    (dim : nat) :
  add_documents chunks NoFault NoFault s = (Ok tt, s') ->
  chunks <> [] ->
  disk booted = disk s' ->
  exists loaded,
    VectorStore_init (index_path (store s)) dim booted = (Ok tt, loaded)
    /\ index (store loaded) = index (store s')
    /\ length (documents (store loaded)) = length (documents (store s)) + length chunks
    /\ forall query k threshold,
         fst (similarity_search query k threshold loaded)
         = fst (similarity_search query k threshold s')
         /\ fst (weighted_search query k threshold loaded)
            = fst (weighted_search query k threshold s').
Proof.
  intros Hrun Hne Hboot.
  destruct (add_documents_ok _ _ _ Hrun Hne)
    as (s1 & rows & idx & idx' & docs & _ & _ & _ & Hdocs & Hstore & Hheap & Hdisk).
  assert (Hi : disk booted !! (index_path (store s) ++ ".index")%string
               = Some (IndexImage idx')).
  { rewrite Hboot, Hdisk. rewrite lookup_insert_ne by apply not_eq_sym, index_file_docs_file.
    apply lookup_insert_eq. }
  assert (Hd : disk booted !! (index_path (store s) ++ ".docs")%string
               = Some (DocsImage docs)).
  { rewrite Hboot, Hdisk. apply lookup_insert_eq. }
  eexists. split; [exact (VectorStore_init_load _ dim _ _ _ Hi Hd)|].
  assert (Hlen : length docs = length (documents (store s)) + length chunks).
  { apply length_mapM in Hdocs. now rewrite <- Hdocs, length_app. }
  assert (Hsame : forall query k threshold,
            fst (similarity_search query k threshold
                   {| store := {| index := Some idx';
                                  documents := seq (length (heap booted)) (length docs);
                                  index_path := index_path (store s); dimension := dim |};
                      heap := heap booted ++ docs; disk := disk booted;
                      llm_log := llm_log booted |})
            = fst (similarity_search query k threshold s')).
  { intros. apply similarity_search_view; [now rewrite Hstore|].
    unfold view. cbn [store heap documents]. rewrite lookup_fresh_objects.
    rewrite Hstore, Hheap. cbn [documents].
    symmetry. apply mapM_Some in Hdocs. clear -Hdocs.
    induction Hdocs as [|l c ls cs Hl _ IH]; [reflexivity|].
    cbn. now rewrite Hl, IH. }
  cbn [store index documents]. rewrite Hstore. cbn [index].
  split; [reflexivity|]. split; [now rewrite length_seq|].
  intros. split; [apply Hsame|].
  rewrite !weighted_search_run. cbn [fst]. now rewrite Hsame.
Qed.

End Adding.


Lemma add_documents_appends_witness :
  add_documents [0; 1] NoFault NoFault Demo.fresh = (Ok tt, Demo.two_docs)
  /\ documents (store Demo.two_docs) = documents (store Demo.fresh) ++ [0; 1]
  /\ length (heap Demo.two_docs) = length (heap Demo.fresh).
Proof.
  assert (Hrun : add_documents [0; 1] NoFault NoFault Demo.fresh = (Ok tt, Demo.two_docs)).
  { unfold Demo.two_docs.
    destruct (add_documents [0; 1] NoFault NoFault Demo.fresh) as [[[]|e] s'] eqn:Hadd;
      [reflexivity|].
    apply (f_equal fst) in Hadd. vm_compute in Hadd. discriminate. }
  split; [exact Hrun|].
  destruct (add_documents_appends [0; 1] NoFault NoFault Demo.fresh Demo.two_docs Hrun)
    as (Hdocs & _ & Hlen & _).
  now split.
Defined.

Lemma add_documents_then_restart_witness :
  add_documents [0; 1] NoFault NoFault Demo.fresh = (Ok tt, Demo.two_docs)
  /\ exists loaded,
       VectorStore_init Demo.path 2 (Demo.reboot Demo.two_docs) = (Ok tt, loaded)
       /\ length (documents (store loaded)) = 2
       /\ fst (weighted_search "ab" 2 0.5%float loaded)
          = fst (weighted_search "ab" 2 0.5%float Demo.two_docs).
Proof.
  assert (Hrun : add_documents [0; 1] NoFault NoFault Demo.fresh = (Ok tt, Demo.two_docs)).
  { unfold Demo.two_docs.
    destruct (add_documents [0; 1] NoFault NoFault Demo.fresh) as [[[]|e] s'] eqn:Hadd;
      [reflexivity|].
    apply (f_equal fst) in Hadd. vm_compute in Hadd. discriminate. }
  split; [exact Hrun|].
  assert (Hne : [0; 1] <> @nil nat) by discriminate.
  destruct (add_documents_then_restart [0; 1] Demo.fresh Demo.two_docs
              (Demo.reboot Demo.two_docs) 2 Hrun Hne eq_refl)
    as (loaded & Hinit & _ & Hlen & Hsearch).
  exists loaded. split; [exact Hinit|]. split; [exact Hlen|].
  exact (proj2 (Hsearch "ab" 2%Z 0.5%float)).
Defined.

(** ** Text the masking leaves alone *)

Lemma all_ascii_complete (c : ascii) : In c all_ascii.
Proof.
  unfold all_ascii. rewrite <- (ascii_nat_embedding c).
  apply in_map, in_seq. pose proof (nat_ascii_bounded c). lia.
Qed.

Lemma within_spec (q p : ascii -> bool) (c : ascii) :
  within q p = true -> q c = true -> p c = true.
Proof.
  unfold within. rewrite forallb_forall. intros Hall Hq.
  specialize (Hall c (all_ascii_complete c)). now rewrite Hq in Hall.
Qed.

Section PlainText.
Import Re.
Variable p : ascii -> bool.

Lemma rep_fails q k lo hi : fails p k -> fails p (rep q lo hi k).
Proof.
  intros Hk prev s. revert lo hi prev.
  induction s as [|c s IH]; intros lo hi prev n Hfree; cbn [rep].
  - destruct lo; [now apply Hk | reflexivity].
  - cbn in Hfree. apply andb_prop in Hfree as [Hc Hs].
    destruct (hi_open hi && q c).
    + rewrite IH by assumption.
      destruct lo; [apply Hk; cbn; now rewrite Hc | reflexivity].
    + destruct lo; [apply Hk; cbn; now rewrite Hc | reflexivity].
Qed.

Lemma run_fails r : forall k, fails p k -> fails p (run r k).
Proof.
  induction r as [|q|q lo hi| |r1 IH1 r2 IH2|r1 IH1 r2 IH2];
    intros k Hk prev s n Hfree; cbn [run].
  - now apply Hk.
  - destruct s as [|c s]; [reflexivity|].
    cbn in Hfree. apply andb_prop in Hfree as [_ Hs].
    destruct (q c); [now apply Hk | reflexivity].
  - now apply rep_fails.
  - destruct (at_boundary prev s); [now apply Hk | reflexivity].
  - apply IH1; [|assumption]. now apply IH2.
  - rewrite IH1 by assumption. now apply IH2.
Qed.

Lemma rep_needs q k lo hi prev s n :
  within q p = true -> 1 <= lo -> free_of p s = true ->
  rep q lo hi k prev s n = None.
Proof.
  intros Hq Hlo Hfree. destruct lo as [|lo]; [lia|].
  destruct s as [|c s]; [reflexivity|]. cbn [rep].
  cbn in Hfree. apply andb_prop in Hfree as [Hc _].
  destruct (q c) eqn:Hqc.
  - apply (within_spec _ _ _ Hq) in Hqc. now rewrite Hqc in Hc.
  - now rewrite andb_false_r.
Qed.

Lemma run_needs r : forall k prev s n,
  needs p r = true -> free_of p s = true -> run r k prev s n = None.
Proof.
  induction r as [|q|q lo hi| |r1 IH1 r2 IH2|r1 IH1 r2 IH2];
    intros k prev s n Hneeds Hfree; cbn [run]; cbn [needs] in Hneeds;
    try discriminate.
  - destruct s as [|c s]; [reflexivity|].
    cbn in Hfree. apply andb_prop in Hfree as [Hc _].
    destruct (q c) eqn:Hqc; [|reflexivity].
    apply (within_spec _ _ _ Hneeds) in Hqc. now rewrite Hqc in Hc.
  - apply andb_prop in Hneeds as [Hlo Hq].
    apply rep_needs; [assumption | now apply Nat.leb_le | assumption].
  - apply orb_prop in Hneeds as [H1|H2].
    + now apply IH1.
    + apply run_fails; [|assumption]. intros prev' s' n'. now apply IH2.
  - apply andb_prop in Hneeds as [H1 H2].
    rewrite IH1 by assumption. now apply IH2.
Qed.

(** A pattern that needs a character of [p] changes nothing in a text
    that has none. *)
Lemma sub_free_of r repl s :
  needs p r = true -> free_of p s = true -> sub r repl s = s.
Proof.
  intros Hneeds. unfold sub. generalize (@None ascii).
  induction s as [|c s IH]; intros prev Hfree.
  - cbn [sub_from]. unfold match_len. now rewrite run_needs.
  - cbn [sub_from]. unfold match_len. rewrite run_needs by assumption.
    cbn in Hfree. apply andb_prop in Hfree as [_ Hs]. now rewrite IH.
Qed.

End PlainText.

(** X10. Masking can only change an ASCII text that contains a digit or
    the character [@]: each of the four patterns needs one of them, so
    [apply_transform] returns every other ASCII content as it is, also
    for a source whose [pii_mask] is on.  With [pii_mask] off, absent or
    the source unknown, every content is returned as it is. *)
Theorem apply_transform_plain_text (source_config : gmap string SourceConfig)
    (content source path : string) :
  (ascii_text content = true /\ free_of digit_or_at content = true)
  \/ (source_config !! source) ≫= cfg_pii_mask <> Some true ->
  fst (TransformRules.apply_transform source_config content source path) = content.
Proof.
  unfold TransformRules.apply_transform. cbn [fst].
  intros [[_ Hfree]|Hoff].
  - destruct (default false _); [|reflexivity].
    rewrite _mask_pii_passes.
    rewrite (sub_free_of digit_or_at TransformRules.email_pattern _ content)
      by (assumption || reflexivity).
    rewrite (sub_free_of digit_or_at TransformRules.phone_pattern _ content)
      by (assumption || reflexivity).
    rewrite (sub_free_of digit_or_at TransformRules.ssn_pattern _ content)
      by (assumption || reflexivity).
    now apply (sub_free_of digit_or_at).
  - destruct (source_config !! source) as [entry|]; [|reflexivity].
    change (Some entry ≫= cfg_pii_mask) with (cfg_pii_mask entry) in Hoff.
    change (default empty_config (Some entry)) with entry.
    destruct (cfg_pii_mask entry) as [[]|]; [congruence| |]; reflexivity.
Qed.

Lemma apply_transform_plain_text_witness :
  fst (TransformRules.apply_transform Demo.sources "See my CV, please." "hr" "cv.txt")
  = "See my CV, please."
  /\ fst (TransformRules.apply_transform Demo.sources "mail a@b.com" "github" "cv.txt")
     = "mail a@b.com".
Proof.
  split.
  - apply apply_transform_plain_text. left. split; reflexivity.
  - apply apply_transform_plain_text. right. discriminate.
Defined.

(** ** Passes that have nothing to do *)

(** X18. Of the four passes of [_mask_pii] only the email pass can change
    an ASCII text without digit, and the email pass changes nothing in a
    text without [@]: the first is then masked as by the email pattern
    alone, the second as by the phone, SSN and address patterns alone. *)
Theorem _mask_pii_triggers (content : string) :
  ascii_text content = true ->
  (free_of Re.digit content = true ->
   TransformRules._mask_pii content
   = Re.sub TransformRules.email_pattern "[EMAIL_MASKED]" content)
  /\ (free_of (Re.is_char "@") content = true ->
      TransformRules._mask_pii content
      = Re.sub TransformRules.address_pattern "[ADDRESS_MASKED]"
          (Re.sub TransformRules.ssn_pattern "[SSN_MASKED]"
             (Re.sub TransformRules.phone_pattern "[PHONE_MASKED]" content))).
Proof.
  intros _. rewrite _mask_pii_passes. split; intros Hfree.
  - assert (Hemail : free_of Re.digit
                       (Re.sub TransformRules.email_pattern "[EMAIL_MASKED]" content)
                     = true) by now apply sub_keeps_free_of.
    rewrite (sub_free_of Re.digit TransformRules.phone_pattern)
      by (assumption || reflexivity).
    rewrite (sub_free_of Re.digit TransformRules.ssn_pattern)
      by (assumption || reflexivity).
    now apply (sub_free_of Re.digit).
  - now rewrite (sub_free_of (Re.is_char "@") TransformRules.email_pattern)
      by (assumption || reflexivity).
Qed.

Lemma _mask_pii_triggers_witness :
  TransformRules._mask_pii "mail a@b.com now" = "mail [EMAIL_MASKED] now"
  /\ TransformRules._mask_pii "call 555-123-4567" = "call [PHONE_MASKED]".
Proof.
  split.
  - rewrite (proj1 (_mask_pii_triggers "mail a@b.com now" eq_refl) eq_refl).
    vm_compute. reflexivity.
  - rewrite (proj2 (_mask_pii_triggers "call 555-123-4567" eq_refl) eq_refl).
    vm_compute. reflexivity.
Defined.

(** ** Statistics *)

Lemma sum_counts_increment (counts : gmap string nat) (source : string) :
  sum_counts (<[source := default 0 (counts !! source) + 1]> counts)
  = sum_counts counts + 1.
Proof.
  unfold sum_counts.
  assert (Hcomm : forall m : gmap string nat,
            forall (j1 j2 : string) (z1 z2 y : nat), j1 <> j2 ->
              m !! j1 = Some z1 -> m !! j2 = Some z2 ->
              z1 + (z2 + y) = z2 + (z1 + y)) by (intros; lia).
  destruct (counts !! source) as [n|] eqn:Hn; cbn [default].
  - rewrite <- insert_delete_eq.
    rewrite map_fold_insert_L; [|apply Hcomm|apply lookup_delete_eq].
    pose proof (map_fold_delete_L (fun (_ : string) (n total : nat) => n + total)
                  0 source n counts (Hcomm counts) Hn) as Hsum.
    cbv beta in Hsum. unfold id. lia.
  - rewrite map_fold_insert_L; [lia|apply Hcomm|assumption].
Qed.

Lemma count_from_snoc (src : string) (docs : list DocumentChunk) (doc : DocumentChunk) :
  count_from src (docs ++ [doc])
  = count_from src docs
    + (if String.eqb (source_system (metadata doc)) src then 1 else 0).
Proof.
  unfold count_from. rewrite List.filter_app, length_app. cbn [List.filter].
  now destruct (String.eqb _ src).
Qed.

Lemma source_counts_lookup (docs : list DocumentChunk) (src : string) :
  foldl (fun source_counts doc =>
           let source := source_system (metadata doc) in
           <[source := default 0 (source_counts !! source) + 1]> source_counts)
        (∅ : gmap string nat) docs !! src
  = if (count_from src docs =? 0)%nat then None else Some (count_from src docs).
Proof.
  cbv zeta. induction docs as [|doc docs IH] using rev_ind; [reflexivity|].
  rewrite foldl_app. cbn [foldl]. rewrite count_from_snoc.
  destruct (String.eqb_spec (source_system (metadata doc)) src) as [->|Hne].
  - rewrite lookup_insert_eq, IH.
    replace (count_from src docs + 1 =? 0)%nat with false
      by (symmetry; apply Nat.eqb_neq; lia).
    now destruct (Nat.eqb_spec (count_from src docs) 0) as [->|Hpos].
  - rewrite lookup_insert_ne by assumption. now rewrite IH, Nat.add_0_r.
Qed.

Lemma source_counts_sum (docs : list DocumentChunk) :
  sum_counts
    (foldl (fun source_counts doc =>
              let source := source_system (metadata doc) in
              <[source := default 0 (source_counts !! source) + 1]> source_counts)
           (∅ : gmap string nat) docs)
  = length docs.
Proof.
  cbv zeta. induction docs as [|doc docs IH] using rev_ind.
  - apply map_fold_empty.
  - rewrite foldl_app. cbn [foldl].
    now rewrite sum_counts_increment, IH, length_app.
Qed.

Section Statistics.
Context {I : Type} `{!NNIndex I} `{!EmbeddingModel} `{!Numerics} `{!PySorted}.

(** X11. [get_stats] reads and changes nothing.  [total_documents] is the
    length of [self.documents]; [source_breakdown] has an entry for a
    source exactly when some document names it, the entry is the number of
    those documents, and the entries add up to [total_documents];
    [index_size] is the [ntotal] of the index. *)
Theorem get_stats_breakdown (s s' : State I) (stats : Stats) :
  get_stats s = (Ok stats, s') ->
  s' = s
  /\ total_documents stats = length (documents (store s))
  /\ (exists idx, index (store s) = Some idx /\ index_size stats = ntotal idx)
  /\ (exists docs,
        mapM (fun l => heap s !! l) (documents (store s)) = Some docs
        /\ forall src,
             source_breakdown stats !! src
             = if (count_from src docs =? 0)%nat then None
               else Some (count_from src docs))
  /\ sum_counts (source_breakdown stats) = total_documents stats.
Proof.
  unfold get_stats, bind, get. rewrite deref_all_run. cbn [fst snd].
  destruct (mapM _ _) as [docs|] eqn:Hdocs; [|discriminate].
  rewrite the_index_run.
  destruct (index (store s)) as [idx|]; [|discriminate].
  intros [= <- <-]. cbn.
  split; [reflexivity|]. split; [reflexivity|]. split; [now exists idx|]. split.
  - exists docs. split; [reflexivity|]. intros src. apply source_counts_lookup.
  - rewrite source_counts_sum. now apply length_mapM in Hdocs.
Qed.

End Statistics.

Lemma get_stats_breakdown_witness :
  exists stats,
    get_stats Demo.two_docs = (Ok stats, Demo.two_docs)
    /\ total_documents stats = 2
    /\ source_breakdown stats !! "hr" = Some 1
    /\ source_breakdown stats !! "ats" = None
    /\ sum_counts (source_breakdown stats) = 2.
Proof.
  destruct (get_stats Demo.two_docs) as [[stats|e] s'] eqn:Hrun;
    [|apply (f_equal fst) in Hrun; vm_compute in Hrun; discriminate].
  destruct (get_stats_breakdown _ _ _ Hrun)
    as (-> & Htotal & _ & (docs & Hdocs & Hcount) & Hsum).
  exists stats. split; [reflexivity|].
  assert (Hlen : length (documents (store Demo.two_docs)) = 2) by (vm_compute; reflexivity).
  rewrite Hsum, Htotal, Hlen. split; [reflexivity|].
  vm_compute in Hdocs. injection Hdocs as <-.
  split; [exact (Hcount "hr")|]. split; [exact (Hcount "ats") | reflexivity].
Defined.

(** ** Ingestion *)

Lemma str_of_nat_inj (i j : nat) : str_of_nat i = str_of_nat j -> i = j.
Proof.
  unfold str_of_nat. intros Heq.
  apply (f_equal NilEmpty.uint_of_string) in Heq.
  rewrite !NilEmpty.usu in Heq. injection Heq as Heq.
  apply (f_equal Nat.of_uint) in Heq. now rewrite !Unsigned.of_to in Heq.
Qed.

Lemma chunk_path_inj (path : string) (i j : nat) :
  (path ++ "#chunk_" ++ str_of_nat i)%string = (path ++ "#chunk_" ++ str_of_nat j)%string ->
  i = j.
Proof.
  intros Heq. apply string_app_inv_head in Heq.
  apply (string_app_inv_head "#chunk_") in Heq. now apply str_of_nat_inj.
Qed.

Section IngestionFacts.
Context {I : Type} `{!NNIndex I} `{!EmbeddingModel} `{!Numerics} `{!PySorted} `{!TextSplitter}.
Variable source_config : gmap string SourceConfig.

Lemma alloc_all_run (cs : list DocumentChunk) (s : State I) :
  alloc_all cs s
  = (Ok (seq (length (heap s)) (length cs)), with_heap (fun h => h ++ cs) s).
Proof. reflexivity. Qed.

(** The objects [alloc_all] makes stand behind the heap, in order. *)
Lemma lookup_allocated (h cs : list DocumentChunk) (i l : nat) :
  seq (length h) (length cs) !! i = Some l ->
  h !! l = None /\ (h ++ cs) !! l = cs !! i /\ i < length cs.
Proof.
  intros Hl. apply lookup_seq in Hl as [-> Hi].
  split; [apply lookup_ge_None; lia|].
  split; [|exact Hi].
  rewrite lookup_app_r by lia. f_equal. lia.
Qed.

(** X12. [_create_chunks_from_content] makes one new chunk object for
    each piece the splitter returns for the transformed content, in the
    splitter's order.  Chunk [i] has piece [i] as content, no embedding,
    the given source system, the classification, weight and [pii_masked]
    of the source's configuration (the weight is the one
    [get_classification_weight] reports) and the path
    [<file_path>#chunk_<i>].  The store, the files and the objects that
    existed are untouched. *)
Theorem _create_chunks_from_content_chunks (text source path : string)
    (s : State I) :
  let transformed :=
    fst (TransformRules.apply_transform source_config text source path) in
  let configured :=
    snd (TransformRules.apply_transform source_config text source path) in
  let pieces := split_text transformed in
  exists ls s',
    _create_chunks_from_content source_config text source path s = (Ok ls, s')
    /\ length ls = length pieces
    /\ NoDup ls
    /\ store s' = store s /\ disk s' = disk s /\ llm_log s' = llm_log s
    /\ (forall l c, heap s !! l = Some c -> heap s' !! l = Some c)
    /\ forall i l, ls !! i = Some l ->
         heap s !! l = None
         /\ exists piece c,
              pieces !! i = Some piece
              /\ heap s' !! l = Some c
              /\ content c = piece
              /\ embedding c = None
              /\ source_system (metadata c) = source
              /\ classification (metadata c) = classification configured
              /\ weight (metadata c)
                 = TransformRules.get_classification_weight source_config source
              /\ pii_masked (metadata c) = pii_masked configured
              /\ file_path (metadata c) = (path ++ "#chunk_" ++ str_of_nat i)%string.
Proof.
  cbv zeta. unfold _create_chunks_from_content.
  destruct (TransformRules.apply_transform source_config text source path)
    as [transformed configured] eqn:Ht.
  apply (f_equal snd) in Ht as Hmeta. cbn [snd] in Hmeta.
  assert (Hsource : source_system configured = source) by now rewrite <- Hmeta.
  assert (Hpath : file_path configured = path) by now rewrite <- Hmeta.
  assert (Hweight : weight configured
                    = TransformRules.get_classification_weight source_config source)
    by now rewrite <- Hmeta.
  clear Ht Hmeta.
  cbn [fst snd]. rewrite alloc_all_run, Hpath.
  eexists _, _. split; [reflexivity|].
  rewrite length_seq, length_imap. split; [reflexivity|].
  split; [apply NoDup_seq|].
  do 3 (split; [reflexivity|]).
  split; [intros l c Hc; now apply lookup_app_l_Some|].
  intros i l Hl.
  rewrite <- (length_imap (chunk_of configured path)) in Hl.
  apply lookup_allocated in Hl as (Hfresh & Hnew & Hi).
  split; [exact Hfresh|].
  rewrite length_imap in Hi. apply lookup_lt_is_Some in Hi as [piece Hpiece].
  exists piece, (chunk_of configured path i piece).
  split; [exact Hpiece|].
  split; [cbn [heap with_heap]; now rewrite Hnew, list_lookup_imap, Hpiece|].
  now repeat split.
Qed.

(** X13. The chunks [_create_chunks_from_content] makes from one content
    are different objects with pairwise different paths: the path of a
    chunk tells its position. *)
Theorem _create_chunks_from_content_paths (text source path : string)
    (s s' : State I) (ls : list loc) (i j : nat) (li lj : loc)
    (ci cj : DocumentChunk) :
  _create_chunks_from_content source_config text source path s = (Ok ls, s') ->
  ls !! i = Some li -> ls !! j = Some lj ->
  heap s' !! li = Some ci -> heap s' !! lj = Some cj ->
  i <> j ->
  li <> lj /\ file_path (metadata ci) <> file_path (metadata cj).
Proof.
  unfold _create_chunks_from_content.
  destruct (TransformRules.apply_transform source_config text source path)
    as [transformed configured].
  rewrite alloc_all_run. intros [= <- <-] Hi Hj. cbn [heap with_heap].
  assert (Hdiff : i <> j -> li <> lj).
  { apply lookup_seq in Hi as [-> _]. apply lookup_seq in Hj as [-> _]. lia. }
  apply lookup_allocated in Hi as (_ & -> & Hi).
  apply lookup_allocated in Hj as (_ & -> & Hj).
  rewrite !list_lookup_imap.
  destruct (split_text transformed !! i) as [pi|]; [|discriminate].
  destruct (split_text transformed !! j) as [pj|]; [|discriminate].
  intros [= <-] [= <-] Hne. split; [now apply Hdiff|].
  cbn. intros Heq. now apply chunk_path_inj in Heq.
Qed.

(** The objects after [add_documents], whatever its outcome, when the
    chunks it is given exist. *)
Lemma add_documents_heap chunks f_index f_docs (s : State I) :
  Forall (fun l => is_Some (heap s !! l)) chunks ->
  forall l, heap (snd (add_documents chunks f_index f_docs s)) !! l
            = if bool_decide (l ∈ chunks) then embedded <$> heap s !! l
              else heap s !! l.
Proof.
  intros Hlive l.
  destruct (embed_chunks_live chunks [] s Hlive) as (embeddings & s1 & Hloop).
  destruct (embed_chunks_ok _ _ _ _ _ Hloop) as (_ & _ & _ & Hheap).
  rewrite add_documents_run, Hloop.
  destruct embeddings as [|row rows]; [apply Hheap|].
  destruct (np_vstack (row :: rows)); [|apply Hheap].
  destruct (index (store s1)); [|apply Hheap].
  destruct (index_add _ _) as [idx'|]; [|apply Hheap].
  destruct (_save_index_frame f_index f_docs (grown idx' chunks s1)) as (_ & -> & _).
  apply Hheap.
Qed.

(** X14. [process_uploaded_file] never raises: it hands the chunk
    objects it has made to [add_documents], and answers [True] exactly
    when that call returned and [False] exactly when it raised, whatever
    the exception (a save that failed included); the state it leaves is
    the state [add_documents] left.  Either
    way one chunk object per piece of the split content has been made,
    with the piece as content, the encoder's vector as embedding and the
    path [<filename>#chunk_<i>], the objects that existed are as they
    were, and [len(self.documents) == self.index.ntotal] still holds if
    it did.  After [True] the new chunks stand at the end of
    [self.documents], in order.  A content that splits into no piece
    gives [True] and changes neither the store nor the files. *)
Theorem process_uploaded_file_outcome (text filename source : string)
    (f_index f_docs : write_fault) (s : State I) :
  let pieces :=
    split_text (fst (TransformRules.apply_transform source_config text source filename)) in
  let new := seq (length (heap s)) (length pieces) in
  let made :=
    imap (chunk_of (snd (TransformRules.apply_transform source_config text source
                           filename)) filename) pieces in
  let added := add_documents new f_index f_docs (with_heap (fun h => h ++ made) s) in
  exists b s',
    process_uploaded_file source_config text filename source f_index f_docs s
    = (Ok b, s')
    /\ s' = snd added
    /\ (b = true <-> fst added = Ok tt)
    /\ (b = false <-> exists e, fst added = Raise e)
    /\ (store_invariant (store s) -> store_invariant (store s'))
    /\ (forall l c, heap s !! l = Some c -> heap s' !! l = Some c)
    /\ (forall i l, new !! i = Some l ->
          exists piece c,
            pieces !! i = Some piece
            /\ heap s' !! l = Some c
            /\ content c = piece
            /\ embedding c = Some (encode piece)
            /\ source_system (metadata c) = source
            /\ file_path (metadata c) = (filename ++ "#chunk_" ++ str_of_nat i)%string)
    /\ (b = true -> documents (store s') = documents (store s) ++ new)
    /\ (pieces = [] -> b = true /\ store s' = store s /\ disk s' = disk s).
Proof.
  cbv zeta. unfold process_uploaded_file.
  destruct (TransformRules.apply_transform source_config text source filename)
    as [transformed configured] eqn:Ht.
  apply (f_equal snd) in Ht as Hmeta. cbn [snd] in Hmeta.
  assert (Hsource : source_system configured = source) by now rewrite <- Hmeta.
  clear Ht Hmeta. cbn [fst snd].
  unfold bind at 1. rewrite alloc_all_run.
  set (made := imap (chunk_of configured filename) (split_text transformed)).
  set (s1 := with_heap (fun h => h ++ made) s).
  assert (Hmade : length made = length (split_text transformed))
    by apply length_imap.
  rewrite <- Hmade.
  set (new := seq (length (heap s)) (length made)).
  assert (Hlive : Forall (fun l => is_Some (heap s1 !! l)) new).
  { apply Forall_forall. intros l Hl.
    apply list_elem_of_lookup_1 in Hl as [i Hi].
    apply lookup_allocated in Hi as (_ & Hnew & Hi).
    cbn [s1 heap with_heap]. rewrite Hnew. now apply lookup_lt_is_Some. }
  pose proof (add_documents_heap new f_index f_docs s1 Hlive) as Hheap.
  pose proof (add_documents_invariant new f_index f_docs s1) as Hinv.
  assert (Hold : forall l c, heap s !! l = Some c ->
            heap (snd (add_documents new f_index f_docs s1)) !! l = Some c).
  { intros l c Hc. rewrite Hheap, bool_decide_eq_false_2.
    - now apply lookup_app_l_Some.
    - intros Hin. apply list_elem_of_lookup_1 in Hin as [i Hi].
      apply lookup_allocated in Hi as (Hfresh & _). congruence. }
  assert (Hnew : forall i l, new !! i = Some l ->
            exists piece c,
              split_text transformed !! i = Some piece
              /\ heap (snd (add_documents new f_index f_docs s1)) !! l = Some c
              /\ content c = piece
              /\ embedding c = Some (encode piece)
              /\ source_system (metadata c) = source
              /\ file_path (metadata c)
                 = (filename ++ "#chunk_" ++ str_of_nat i)%string).
  { intros i l Hl.
    assert (Hin : l ∈ new) by (eapply list_elem_of_lookup_2; eauto).
    apply lookup_allocated in Hl as (_ & Hl & Hi).
    rewrite Hmade in Hi. apply lookup_lt_is_Some in Hi as [piece Hpiece].
    exists piece, (embedded (chunk_of configured filename i piece)).
    split; [exact Hpiece|].
    split; [|now repeat split].
    rewrite Hheap, bool_decide_eq_true_2 by exact Hin.
    cbn [s1 heap with_heap]. rewrite Hl. unfold made.
    now rewrite list_lookup_imap, Hpiece. }
  destruct (add_documents new f_index f_docs s1) as [[[]|e] s'] eqn:Hadd;
    cbn [snd] in Hheap, Hinv, Hold, Hnew.
  - exists true, s'. split; [reflexivity|]. split; [reflexivity|].
    split; [now split|]. split; [split; [discriminate | intros [e [=]]]|].
    split; [exact Hinv|].
    split; [exact Hold|]. split; [exact Hnew|].
    split.
    + intros _. now destruct (add_documents_returns _ _ _ _ _ Hadd) as (-> & _).
    + intros Hnone. split; [reflexivity|].
      assert (Hnil : new = []) by (unfold new; now rewrite Hmade, Hnone).
      rewrite Hnil in Hadd. rewrite add_documents_run in Hadd.
      cbn in Hadd. injection Hadd as <-. now split.
  - exists false, s'. split; [reflexivity|]. split; [reflexivity|].
    split; [split; discriminate|]. split; [split; [now exists e | reflexivity]|].
    split; [exact Hinv|].
    split; [exact Hold|]. split; [exact Hnew|].
    split; [discriminate|].
    intros Hnone. exfalso.
    assert (Hnil : new = []) by (unfold new; now rewrite Hmade, Hnone).
    rewrite Hnil in Hadd. rewrite add_documents_run in Hadd.
    cbn in Hadd. discriminate.
Qed.

End IngestionFacts.

Lemma _create_chunks_from_content_paths_witness :
  exists s' c0 c1,
    _create_chunks_from_content Demo.sources "abcdefgh" "hr" "cv.txt" Demo.fresh
    = (Ok [2; 3], s')
    /\ heap s' !! 2 = Some c0 /\ heap s' !! 3 = Some c1
    /\ content c0 = "abcd" /\ content c1 = "efgh"
    /\ file_path (metadata c0) <> file_path (metadata c1).
Proof.
  pose (s' := snd (_create_chunks_from_content Demo.sources "abcdefgh" "hr" "cv.txt"
                     Demo.fresh)).
  pose (c0 := default Demo.chunk0 (heap s' !! 2)).
  pose (c1 := default Demo.chunk0 (heap s' !! 3)).
  assert (Hrun : _create_chunks_from_content Demo.sources "abcdefgh" "hr" "cv.txt"
                   Demo.fresh = (Ok [2; 3], s')) by (vm_compute; reflexivity).
  assert (H0 : heap s' !! 2 = Some c0) by (vm_compute; reflexivity).
  assert (H1 : heap s' !! 3 = Some c1) by (vm_compute; reflexivity).
  exists s', c0, c1.
  split; [exact Hrun|]. split; [exact H0|]. split; [exact H1|].
  split; [vm_compute; reflexivity|]. split; [vm_compute; reflexivity|].
  refine (proj2 (_create_chunks_from_content_paths Demo.sources "abcdefgh" "hr" "cv.txt"
                   Demo.fresh s' [2; 3] 0 1 2 3 c0 c1 Hrun eq_refl eq_refl H0 H1 _)).
  discriminate.
Defined.

Lemma process_uploaded_file_outcome_witness :
  (exists s',
     process_uploaded_file Demo.sources "abcdefgh" "cv.txt" "hr" NoFault NoFault Demo.fresh
     = (Ok true, s')
     /\ documents (store s') = [2; 3]
     /\ store_invariant (store s'))
  /\ (exists s',
        process_uploaded_file Demo.sources "abcdefgh" "cv.txt" "hr" NoFault FailOpen
          Demo.fresh
        = (Ok false, s')
        /\ documents (store s') = [2; 3]
        /\ disk s' !! "data/idx.docs" = None).
Proof.
  split.
  - destruct (process_uploaded_file_outcome Demo.sources "abcdefgh" "cv.txt" "hr"
                NoFault NoFault Demo.fresh)
      as (b & s' & Hrun & _ & Hb & _ & Hinv & _ & _ & Hdocs & _).
    assert (Htrue : b = true) by (apply Hb; vm_compute; reflexivity).
    subst b. exists s'. split; [exact Hrun|]. split.
    + now rewrite Hdocs.
    + apply Hinv. exists (IndexFlatIP 2). split; reflexivity.
  - destruct (process_uploaded_file_outcome Demo.sources "abcdefgh" "cv.txt" "hr"
                NoFault FailOpen Demo.fresh)
      as (b & s' & Hrun & Hs' & _ & Hb & _).
    assert (Hfalse : b = false) by (apply Hb; exists OSError; vm_compute; reflexivity).
    subst b. exists s'. split; [exact Hrun|].
    rewrite Hs'. split; vm_compute; reflexivity.
Defined.

(** ** Answering *)

Lemma substring_0_length (n : nat) (s : string) :
  String.length (substring 0 n s) = Nat.min n (String.length s).
Proof.
  revert n. induction s as [|c s IH]; intros [|n]; cbn; try reflexivity.
  now rewrite IH.
Qed.

Lemma substring_0_drop (n : nat) (s : string) :
  s = (substring 0 n s ++ Re.string_drop n s)%string.
Proof.
  revert n. induction s as [|c s IH]; intros [|n]; try reflexivity.
  change (String c s = String c (substring 0 n s ++ Re.string_drop n s)%string).
  f_equal. apply IH.
Qed.

Lemma string_length_app (a b : string) :
  String.length (a ++ b) = String.length a + String.length b.
Proof.
  induction a as [|c a IH]; [reflexivity|].
  change (S (String.length (a ++ b)) = S (String.length a + String.length b)).
  now rewrite IH.
Qed.

Section Answering.
Context {I : Type} `{!NNIndex I} `{!EmbeddingModel} `{!Numerics} `{!PySorted} `{!ChatModel}.
Variable openai_config : OpenAIConfig.

Lemma _generate_answer_run query context (s : State I) :
  exists answer,
    _generate_answer openai_config query context s
    = (Ok answer,
       with_llm_log (fun log => log ++
         [{| chat_model := default "gpt-3.5-turbo" (cfg_model openai_config);
             chat_system := system_prompt;
             chat_user := user_prompt query context;
             chat_temperature := default 0.1%float (cfg_temperature openai_config);
             chat_max_tokens := default 500%Z (cfg_max_tokens openai_config) |}]) s)
    /\ answer
       = match chat_completions_create
                 {| chat_model := default "gpt-3.5-turbo" (cfg_model openai_config);
                    chat_system := system_prompt;
                    chat_user := user_prompt query context;
                    chat_temperature := default 0.1%float (cfg_temperature openai_config);
                    chat_max_tokens := default 500%Z (cfg_max_tokens openai_config) |} with
         | inl text => strip text
         | inr e => ("Error generating response: " ++ e)%string
         end.
Proof.
  unfold _generate_answer, bind, modify.
  destruct (chat_completions_create _); eexists; split; reflexivity.
Qed.

Lemma process_query_run request (s : State I) :
  process_query openai_config request s
  = match fst (weighted_search (req_query request) (req_top_k request)
                 (req_threshold request) s) with
    | Raise e => (Raise e, s)
    | Ok [] => (Ok {| resp_answer := no_information; resp_citations := [];
                      resp_query := req_query request |}, s)
    | Ok docs =>
        match _generate_answer openai_config (req_query request)
                (_build_context docs) s with
        | (Ok answer, s') =>
            (Ok {| resp_answer := answer;
                   resp_citations := _build_citations docs;
                   resp_query := req_query request |}, s')
        | (Raise e, s') => (Raise e, s')
        end
    end.
Proof.
  unfold process_query. unfold bind at 1.
  pose proof (weighted_search_state (req_query request) (req_top_k request)
                (req_threshold request) s) as Hs.
  destruct (weighted_search _ _ _ s) as [[docs|e] s0]; cbn [fst snd] in Hs |- *;
    subst s0; [|reflexivity].
  destruct docs as [|doc docs]; [reflexivity|].
  unfold bind. now destruct (_generate_answer _ _ _ s) as [[answer|e] s'].
Qed.

(** X15. [_build_citations] gives one citation per document, in order.
    A citation has the source system, classification and path of its
    document and the weighted score when there is one, the raw score
    otherwise.  Its content is the document's content when that has at
    most 200 characters, and the first 200 characters followed by three
    dots when it is longer: it never has more than 203 characters. *)
Theorem _build_citations_shape (docs : list SearchResult) :
  Forall2 (fun doc citation =>
             cit_source_system citation = source_system (r_metadata doc)
             /\ cit_classification citation = classification (r_metadata doc)
             /\ cit_file_path citation = file_path (r_metadata doc)
             /\ cit_score citation = default (r_score doc) (r_weighted_score doc)
             /\ String.length (cit_content citation) <= 203
             /\ (String.length (r_content doc) <= 200 ->
                 cit_content citation = r_content doc)
             /\ (200 < String.length (r_content doc) ->
                 exists first rest,
                   r_content doc = (first ++ rest)%string
                   /\ String.length first = 200
                   /\ cit_content citation = (first ++ "...")%string))
    docs (_build_citations docs).
Proof.
  unfold _build_citations. apply Forall2_fmap_r, Forall_Forall2_diag, Forall_forall.
  intros doc _. cbn [cit_content cit_source_system cit_classification cit_file_path
                       cit_score].
  do 4 (split; [reflexivity|]).
  destruct (Nat.ltb_spec 200 (String.length (r_content doc))) as [Hlong|Hshort];
    cbn [cit_content].
  - split; [|split; [lia|]].
    + rewrite string_length_app, substring_0_length.
      change (String.length "...") with 3. lia.
    + intros _. exists (substring 0 200 (r_content doc)),
                       (Re.string_drop 200 (r_content doc)).
      split; [apply substring_0_drop|]. split; [|reflexivity].
      rewrite substring_0_length. lia.
  - split; [lia|]. split; [reflexivity | lia].
Qed.

(** X16. Every citation [process_query] returns stands for a stored
    document: its source system, classification and path are those of an
    object of [self.documents], its content is that object's content or
    the first 200 characters of it followed by three dots, and its score
    is a raw score that reaches the request's threshold (compared in
    float32, as numpy does), times the weight of the object.  The query is echoed. *)
Theorem process_query_citations (request : QueryRequest) (s s' : State I)
    (response : QueryResponse) :
  process_query openai_config request s = (Ok response, s') ->
  resp_query response = req_query request
  /\ Forall (fun citation =>
               exists l doc score,
                 l ∈ documents (store s)
                 /\ heap s !! l = Some doc
                 /\ cit_source_system citation = source_system (metadata doc)
                 /\ cit_classification citation = classification (metadata doc)
                 /\ cit_file_path citation = file_path (metadata doc)
                 /\ (cit_content citation = content doc
                     \/ cit_content citation
                        = (substring 0 200 (content doc) ++ "...")%string)
                 /\ PyFloat.ge_float32 score (req_threshold request) = true
                 /\ cit_score citation = (score * weight (metadata doc))%float)
       (resp_citations response).
Proof.
  rewrite process_query_run.
  destruct (fst (weighted_search _ _ _ s)) as [docs|e] eqn:Hdocs; [|discriminate].
  assert (Hcit : Forall (fun citation =>
               exists l doc score,
                 l ∈ documents (store s)
                 /\ heap s !! l = Some doc
                 /\ cit_source_system citation = source_system (metadata doc)
                 /\ cit_classification citation = classification (metadata doc)
                 /\ cit_file_path citation = file_path (metadata doc)
                 /\ (cit_content citation = content doc
                     \/ cit_content citation
                        = (substring 0 200 (content doc) ++ "...")%string)
                 /\ PyFloat.ge_float32 score (req_threshold request) = true
                 /\ cit_score citation = (score * weight (metadata doc))%float)
            (_build_citations docs)).
  { unfold _build_citations. apply Forall_fmap, Forall_forall. intros r Hr.
    destruct (weighted_search_elem _ _ _ _ _ _ Hdocs Hr)
      as (r0 & l & doc & -> & Hge & Hl & Hdoc & Hcontent & Hmeta).
    exists l, doc, (r_score r0).
    cbn [cit_content cit_source_system cit_classification cit_file_path cit_score
         compose set_weighted_score r_content r_metadata r_score r_weighted_score
         default].
    rewrite Hmeta, Hcontent.
    repeat split; try assumption.
    destruct (200 <? String.length (content doc))%nat; [now right | now left]. }
  destruct docs as [|doc docs].
  - intros [= <- _]. split; [reflexivity | constructor].
  - destruct (_generate_answer_run (req_query request) (_build_context (doc :: docs)) s)
      as (answer & -> & _).
    intros [= <- _]. now split.
Qed.


End Answering.

Lemma process_query_citations_witness :
  exists response,
    fst (process_query Demo.openai Demo.request Demo.two_docs) = Ok response
    /\ map cit_file_path (resp_citations response) = ["cv.txt#chunk_0"; "cv.txt#chunk_1"]
    /\ Forall (fun citation =>
                 exists l doc score,
                   l ∈ documents (store Demo.two_docs)
                   /\ heap Demo.two_docs !! l = Some doc
                   /\ cit_file_path citation = file_path (metadata doc)
                   /\ PyFloat.ge_float32 score 0.7%float = true
                   /\ cit_score citation = (score * weight (metadata doc))%float)
         (resp_citations response).
Proof.
  destruct (process_query Demo.openai Demo.request Demo.two_docs)
    as [[response|e] s'] eqn:Hrun;
    [|apply (f_equal fst) in Hrun; vm_compute in Hrun; discriminate].
  exists response. split; [reflexivity|]. split.
  - apply (f_equal fst) in Hrun. vm_compute in Hrun. now injection Hrun as <-.
  - destruct (process_query_citations Demo.openai Demo.request Demo.two_docs s'
                response Hrun) as (_ & Hall).
    eapply Forall_impl; [exact Hall|]. cbv beta.
    intros citation (l & doc & score & Hl & Hdoc & _ & _ & Hpath & _ & Hge & Hscore).
    now exists l, doc, score.
Defined.

